(** * Ledger and session-state engine of the personal-accountant agent

    A shallow embedding of [agent/state.py], [agent/tools.py],
    [agent/graph.py] and the sync endpoint of [backend/main.py], followed by
    the properties of the ledger, the snapshot calculator, the setup wizard,
    the sync merge and the per-turn orchestration.

    Conventions of the embedding.
    - A Python [str] is the [string] of its UTF-8 bytes.  Comparison,
      concatenation, [replace], [split] and [in] are those of Python on
      every text.  The functions that classify characters ([\d], [int],
      [float], [strip]) are those of Python on ASCII text ([is_ascii]),
      and what is stated of them is stated of ASCII answers; [lower] is
      exact as far as ASCII letters go, on every text.
    - A Python [dict] is an association list in insertion order
      ([PyDict]): iteration order is observable in the snapshot sums.
    - Python numbers are kept abstract ([Number]): every structural
      property holds for IEEE doubles ([float_Number], what CPython runs)
      and for exact rationals ([Qc_Number]) alike; conservation laws are
      stated for exact arithmetic ([ExactNumber]).
    - What the code reads from its environment (the clock, [uuid4], the
      language model, [datetime.fromisoformat]) is an explicit input.
    - A raised exception is [None]. *)

From Stdlib Require Import Bool List ZArith NArith QArith Qcanon Lia.
From Stdlib Require Import Ascii String DecimalString.
From Stdlib Require Import PrimFloat SpecFloat FloatOps.
Import ListNotations.

Local Close Scope Qc_scope.
Local Close Scope Q_scope.
Local Open Scope string_scope.
Local Open Scope list_scope.

(* ================================================================== *)
(** * Python strings (ASCII) *)
(* ================================================================== *)

Module PyStr.

Definition code (c : ascii) : N := N_of_ascii c.

(** [s.isascii()]: every character is below U+0080, one byte each. *)
Definition is_ascii (s : string) : bool :=
  forallb (fun c => (code c <? 128)%N) (list_ascii_of_string s).

(** [c.isdigit()] on ASCII, the class [\d]. *)
Definition is_digit (c : ascii) : bool :=
  (48 <=? code c)%N && (code c <=? 57)%N.

(** The characters [str.strip()] removes: TAB, LF, VT, FF, CR, FS, GS, RS,
    US and space. *)
Definition is_space (c : ascii) : bool :=
  ((9 <=? code c)%N && (code c <=? 13)%N)
  || ((28 <=? code c)%N && (code c <=? 32)%N).

Definition is_upper (c : ascii) : bool :=
  (65 <=? code c)%N && (code c <=? 90)%N.

Definition lower_char (c : ascii) : ascii :=
  if is_upper c then ascii_of_N (code c + 32) else c.

(** The bytes CC 87 of U+0307, the combining dot above. *)
Definition combining_dot : string :=
  String (ascii_of_N 204) (String (ascii_of_N 135) EmptyString).

(** [s.lower()], exact on ASCII text and, on every text, as far as ASCII
    letters go.  The characters whose lower case holds an ASCII letter
    are [A-Z], U+0130 (bytes C4 B0, which lowers to [i] followed by
    U+0307) and the Kelvin sign U+212A (bytes E2 84 AA, which lowers to
    [k]).  Every other character lowers to characters outside ASCII and
    is kept here as it is: an ASCII text is found in the result exactly
    when it is found in [s.lower()]. *)
Fixpoint lower (s : string) : string :=
  match s with
  | EmptyString => EmptyString
  | String c r =>
      match r with
      | String c1 r1 =>
          if ((code c =? 196) && (code c1 =? 176))%N
          then String "i" (combining_dot ++ lower r1)
          else
            match r1 with
            | String c2 r2 =>
                if ((code c =? 226) && (code c1 =? 132) && (code c2 =? 170))%N
                then String "k" (lower r2)
                else String (lower_char c) (lower r)
            | EmptyString => String (lower_char c) (lower r)
            end
      | EmptyString => String (lower_char c) (lower r)
      end
  end.

(** [sub in s] *)
Fixpoint contains (sub s : string) : bool :=
  if String.prefix sub s then true
  else match s with
       | EmptyString => false
       | String _ r => contains sub r
       end.

(** [s.replace(c, empty)] for a one-character [c]: every [c] is dropped. *)
Fixpoint remove_char (c : ascii) (s : string) : string :=
  match s with
  | EmptyString => EmptyString
  | String d r =>
      if Ascii.eqb d c then remove_char c r else String d (remove_char c r)
  end.

(** [s.split(sep)] for a one-character separator: never an empty list. *)
Fixpoint split (sep : ascii) (s : string) : list string :=
  match s with
  | EmptyString => [EmptyString]
  | String c r =>
      if Ascii.eqb c sep then EmptyString :: split sep r
      else match split sep r with
           | h :: t => String c h :: t
           | [] => [String c EmptyString]
           end
  end.

Fixpoint lstrip (s : string) : string :=
  match s with
  | EmptyString => EmptyString
  | String c r => if is_space c then lstrip r else s
  end.

Fixpoint rstrip (s : string) : string :=
  match s with
  | EmptyString => EmptyString
  | String c r =>
      match rstrip r with
      | EmptyString => if is_space c then EmptyString else String c EmptyString
      | r' => String c r'
      end
  end.

(** [s.strip()] *)
Definition strip (s : string) : string := rstrip (lstrip s).

(** The longest prefix of digits. *)
Fixpoint take_digits (s : string) : string :=
  match s with
  | EmptyString => EmptyString
  | String c r => if is_digit c then String c (take_digits r) else EmptyString
  end.

(** [re.search(r'\d+', s)]: the leftmost maximal run of digits ([.group()]
    of the match), [None] when [s] holds no digit. *)
Fixpoint re_search_digits (s : string) : option string :=
  match s with
  | EmptyString => None
  | String c r =>
      if is_digit c then Some (take_digits s) else re_search_digits r
  end.

(** [re.sub(r'[^\d.]', '', s)]: what is left of [s] when only digits and
    dots are kept. *)
Fixpoint re_sub_non_numeric (s : string) : string :=
  match s with
  | EmptyString => EmptyString
  | String c r =>
      if is_digit c || Ascii.eqb c "."
      then String c (re_sub_non_numeric r)
      else re_sub_non_numeric r
  end.

Definition all_digits (s : string) : bool :=
  forallb is_digit (list_ascii_of_string s).

Definition digit_value (c : ascii) : Z := (Z.of_N (code c) - 48)%Z.

(** The number a string of digits writes in base ten (0 for no digit). *)
Definition digits_value (s : string) : Z :=
  fold_left (fun acc c => (10 * acc + digit_value c)%Z)
    (list_ascii_of_string s) 0%Z.

(** [sys.get_int_max_str_digits()], as CPython sets it. *)
Definition int_max_str_digits : nat := 4300.

(** [int(s)] for the strings the wizard passes to it, the digit runs that
    [re_search_digits] finds; [None] is [ValueError], which [int] also
    raises on more than [int_max_str_digits] digits, leading zeros
    counted. *)
Definition py_int (s : string) : option Z :=
  match s with
  | EmptyString => None
  | _ =>
      if all_digits s
      then if (int_max_str_digits <? length s)%nat then None
           else Some (digits_value s)
      else None
  end.

(** The reading of a decimal numeral made of digits and dots, as [float(s)]
    accepts it: digits with at most one dot and at least one digit.  The
    result [(m, k)] stands for [m / 10^k]; [None] is [ValueError]
    (no digit at all, or a second dot). *)
Definition decimal_of_string (s : string) : option (Z * nat) :=
  let ip := take_digits s in
  let rest := substring (length ip) (length s - length ip) s in
  match rest with
  | EmptyString =>
      match ip with
      | EmptyString => None
      | _ => Some (digits_value ip, 0%nat)
      end
  | String c fp =>
      if Ascii.eqb c "." && all_digits fp
         && negb (Nat.eqb (length ip + length fp) 0)
      then Some (digits_value (ip ++ fp), length fp)
      else None
  end.

(** A line feed, for the two-line welcome message. *)
Definition nl : string := String (ascii_of_N 10) EmptyString.

End PyStr.

(* ================================================================== *)
(** * Python dictionaries, in insertion order *)
(* ================================================================== *)

Module PyDict.

Definition dict (V : Type) : Type := list (string * V).

Section Ops.
Context {V : Type}.

(** [d.get(k)]: [None] when the key is absent. *)
Fixpoint get (k : string) (d : dict V) : option V :=
  match d with
  | [] => None
  | (k', v) :: r => if String.eqb k' k then Some v else get k r
  end.

(** [k in d] *)
Definition mem (k : string) (d : dict V) : bool :=
  match get k d with Some _ => true | None => false end.

(** [d[k] = v]: an existing key keeps its place, a new key goes last. *)
Fixpoint setitem (k : string) (v : V) (d : dict V) : dict V :=
  match d with
  | [] => [(k, v)]
  | (k', v') :: r =>
      if String.eqb k' k then (k, v) :: r else (k', v') :: setitem k v r
  end.

(** [d[k][field] = ...]: the value stored under [k] is updated in place.
    Python raises [KeyError] on an absent key; the callers below insert
    the key first. *)
Fixpoint modify (k : string) (f : V -> V) (d : dict V) : dict V :=
  match d with
  | [] => []
  | (k', v') :: r =>
      if String.eqb k' k then (k', f v') :: r else (k', v') :: modify k f r
  end.

(** [d.items()] *)
Definition items (d : dict V) : list (string * V) := d.

(** [d.values()] *)
Definition values (d : dict V) : list V := map snd d.

End Ops.

End PyDict.

(* ================================================================== *)
(** * Python numbers *)
(* ================================================================== *)

(** The arithmetic the ledger uses.  [num_of_decimal m k] is the literal or
    parsed numeral [m / 10^k]; [num_gtb x y] is [x > y]; [num_money x] is
    the rendering [f"{x:,.2f}"]. *)
Class Number (num : Type) : Type := {
  num_of_decimal : Z -> nat -> num;
  num_add : num -> num -> num;
  num_sub : num -> num -> num;
  num_mul : num -> num -> num;
  num_div : num -> num -> num;
  num_gtb : num -> num -> bool;
  num_money : num -> string
}.

Declare Scope num_scope.
Delimit Scope num_scope with num.
Infix "+" := num_add : num_scope.
Infix "-" := num_sub : num_scope.
Infix "*" := num_mul : num_scope.
Infix "/" := num_div : num_scope.
Infix ">?" := num_gtb (at level 70, no associativity) : num_scope.

(** An [int] used as a number. *)
Definition num_of_Z {num} `{Number num} (z : Z) : num := num_of_decimal z 0.

(** [0] and [0.0]. *)
Definition zero {num} `{Number num} : num := num_of_Z 0.

(** Arithmetic without rounding: the laws of a commutative group, which
    Python's [int] and [Fraction] satisfy and its [float] does not. *)
Class ExactNumber (num : Type) `{Number num} : Prop := {
  num_add_comm : forall x y : num, (x + y = y + x)%num;
  num_add_assoc : forall x y z : num, (x + (y + z) = (x + y) + z)%num;
  num_add_zero_l : forall x : num, (zero + x = x)%num;
  num_sub_add : forall x y : num, ((x - y) + y = x)%num
}.

Module Money.

(** [n / d] rounded to the nearest integer, ties to even ([0 <= n], [0 < d]). *)
Definition round_half_even (n d : Z) : Z :=
  let q := (n / d)%Z in
  let r := (n mod d)%Z in
  match (2 * r ?= d)%Z with
  | Lt => q
  | Gt => (q + 1)%Z
  | Eq => if Z.even q then q else (q + 1)%Z
  end.

Definition digits (n : Z) : list ascii :=
  list_ascii_of_string (NilZero.string_of_uint (N.to_uint (Z.to_N n))).

(** Commas between groups of three digits, on the reversed digits. *)
Fixpoint group3 (rev_digits : list ascii) : list ascii :=
  match rev_digits with
  | a :: b :: c :: r =>
      match r with
      | [] => rev_digits
      | _ => a :: b :: c :: ","%char :: group3 r
      end
  | _ => rev_digits
  end.

Definition two_digits (n : Z) : string :=
  match digits n with
  | [d] => String "0" (String d EmptyString)
  | ds => string_of_list_ascii ds
  end.

(** [f"{x:,.2f}"] for the number of sign [neg] and magnitude [n / d]. *)
Definition render (neg : bool) (n d : Z) : string :=
  let cents := round_half_even (n * 100) d in
  (if neg then "-" else EmptyString)
  ++ string_of_list_ascii (rev (group3 (rev (digits (cents / 100)))))
  ++ "." ++ two_digits (cents mod 100).

End Money.

(** ** IEEE doubles: Python's [float] *)

Module Float64.

(** The double nearest to [m / 10^k]: the division of [SpecFloat] rounds
    the exact quotient once, as [float] does with a decimal numeral. *)
Definition of_decimal (m : Z) (k : nat) : float :=
  let den := S754_finite false (Z.to_pos (10 ^ Z.of_nat k)) 0 in
  match m with
  | Z0 => PrimFloat.zero
  | Zpos p => SF2Prim (SFdiv prec emax (S754_finite false p 0) den)
  | Zneg p => SF2Prim (SFdiv prec emax (S754_finite true p 0) den)
  end.

Definition money (x : float) : string :=
  match Prim2SF x with
  | S754_zero s => Money.render s 0 1
  | S754_infinity s => if s then "-inf" else "inf"
  | S754_nan => "nan"
  | S754_finite s m e =>
      if (0 <=? e)%Z then Money.render s (Zpos m * 2 ^ e) 1
      else Money.render s (Zpos m) (2 ^ (- e))
  end.

End Float64.

#[export] Instance float_Number : Number float := {
  num_of_decimal := Float64.of_decimal;
  num_add := PrimFloat.add;
  num_sub := PrimFloat.sub;
  num_mul := PrimFloat.mul;
  num_div := PrimFloat.div;
  num_gtb := fun x y => PrimFloat.ltb y x;
  num_money := Float64.money
}.

(** ** Exact rationals *)

Module Rational.

Definition of_decimal (m : Z) (k : nat) : Qc :=
  Q2Qc (Qmake m (Z.to_pos (10 ^ Z.of_nat k))).

Definition gtb (x y : Qc) : bool :=
  match Qccompare x y with Gt => true | _ => false end.

Definition money (x : Qc) : string :=
  let q := this x in
  Money.render (Qnum q <? 0)%Z (Z.abs (Qnum q)) (Zpos (Qden q)).

End Rational.

#[export] Instance Qc_Number : Number Qc := {
  num_of_decimal := Rational.of_decimal;
  num_add := Qcplus;
  num_sub := Qcminus;
  num_mul := Qcmult;
  num_div := Qcdiv;
  num_gtb := Rational.gtb;
  num_money := Rational.money
}.

#[export] Instance Qc_ExactNumber : ExactNumber Qc.
Proof.
  split; intros; unfold zero, num_of_Z; cbn.
  - apply Qcplus_comm.
  - apply Qcplus_assoc.
  - apply Qcplus_0_l.
  - unfold Qcminus. rewrite <- Qcplus_assoc, (Qcplus_comm (- y) y), Qcplus_opp_r.
    apply Qcplus_0_r.
Qed.

(* ================================================================== *)
(** * The data model: [agent/state.py] *)
(* ================================================================== *)

Module Ledger.

Import PyStr PyDict.
Local Open Scope num_scope.

(** What the code uses of a [datetime]. *)
Record datetime : Type := {
  year : Z;
  month : Z
}.

Record Message : Type := {
  role : string;
  content : string
}.

Section Model.

Context {num : Type} `{Number num}.

(** [datetime.fromisoformat]: [None] is the [ValueError] of a string that
    is not an ISO date. *)
Variable fromisoformat : string -> option datetime.

Record Transaction : Type := {
  tx_id : string;
  timestamp : string;
  description : string;
  amount : num;
  account_from : string;
  account_to : string;
  category : string;
  subcategory : option string;
  cost_basis : option num;
  asset_type : option string;
  quantity : option num;
  encrypted_data : option string
}.

(** [updated_at] is the extra key that [update_balance] writes. *)
Record Account : Type := {
  name : string;
  acc_type : string;
  balance : num;
  currency : string;
  updated_at : option string
}.

Record UserProfile : Type := {
  tax_residency : string;
  filing_status : string;
  dependents : Z;
  income_sources : list string;
  annual_income_estimate : num;
  retirement_accounts : list string;
  investment_accounts : list string;
  primary_bank : string;
  setup_complete : bool
}.

Record FinancialSnapshot : Type := {
  total_cash : num;
  total_investments : num;
  total_liabilities : num;
  net_worth : num;
  ytd_income : num;
  ytd_expenses : num;
  estimated_tax_liability : num;
  monthly_burn_rate : num
}.

Record AgentState : Type := {
  messages : list Message;
  user_profile : option UserProfile;
  transactions : list Transaction;
  accounts : dict Account;
  snapshot : FinancialSnapshot;
  pending_sync : list Transaction;
  setup_step : nat;
  thread_id : string;
  last_updated : string
}.

(** Assignments to one key of the state. *)
Definition set_messages (v : list Message) (s : AgentState) : AgentState :=
  {| messages := v; user_profile := user_profile s;
     transactions := transactions s; accounts := accounts s;
     snapshot := snapshot s; pending_sync := pending_sync s;
     setup_step := setup_step s; thread_id := thread_id s;
     last_updated := last_updated s |}.

Definition set_user_profile (v : option UserProfile) (s : AgentState)
  : AgentState :=
  {| messages := messages s; user_profile := v;
     transactions := transactions s; accounts := accounts s;
     snapshot := snapshot s; pending_sync := pending_sync s;
     setup_step := setup_step s; thread_id := thread_id s;
     last_updated := last_updated s |}.

Definition set_transactions (v : list Transaction) (s : AgentState)
  : AgentState :=
  {| messages := messages s; user_profile := user_profile s;
     transactions := v; accounts := accounts s;
     snapshot := snapshot s; pending_sync := pending_sync s;
     setup_step := setup_step s; thread_id := thread_id s;
     last_updated := last_updated s |}.

Definition set_accounts (v : dict Account) (s : AgentState) : AgentState :=
  {| messages := messages s; user_profile := user_profile s;
     transactions := transactions s; accounts := v;
     snapshot := snapshot s; pending_sync := pending_sync s;
     setup_step := setup_step s; thread_id := thread_id s;
     last_updated := last_updated s |}.

Definition set_snapshot (v : FinancialSnapshot) (s : AgentState)
  : AgentState :=
  {| messages := messages s; user_profile := user_profile s;
     transactions := transactions s; accounts := accounts s;
     snapshot := v; pending_sync := pending_sync s;
     setup_step := setup_step s; thread_id := thread_id s;
     last_updated := last_updated s |}.

Definition set_setup_step (v : nat) (s : AgentState) : AgentState :=
  {| messages := messages s; user_profile := user_profile s;
     transactions := transactions s; accounts := accounts s;
     snapshot := snapshot s; pending_sync := pending_sync s;
     setup_step := v; thread_id := thread_id s;
     last_updated := last_updated s |}.

Definition set_thread_id (v : string) (s : AgentState) : AgentState :=
  {| messages := messages s; user_profile := user_profile s;
     transactions := transactions s; accounts := accounts s;
     snapshot := snapshot s; pending_sync := pending_sync s;
     setup_step := setup_step s; thread_id := v;
     last_updated := last_updated s |}.

Definition set_last_updated (v : string) (s : AgentState) : AgentState :=
  {| messages := messages s; user_profile := user_profile s;
     transactions := transactions s; accounts := accounts s;
     snapshot := snapshot s; pending_sync := pending_sync s;
     setup_step := setup_step s; thread_id := thread_id s;
     last_updated := v |}.

(* ================================================================== *)
(** * [agent/graph.py] *)
(* ================================================================== *)

Definition SETUP_QUESTIONS : list string := [
  "What's your tax residency? (e.g., US - California, UK, Canada - Ontario)";
  "What's your filing status? (Single, Married Filing Jointly, Married Filing Separately, Head of Household)";
  "How many dependents do you claim?";
  "What are your income sources? (e.g., W-2 employment, 1099 contractor, business income, investments)";
  "What's your estimated annual income?";
  "What retirement accounts do you have? (e.g., 401k, IRA, Roth IRA, none)";
  "What investment accounts do you have? (e.g., brokerage, crypto exchanges, none)";
  "What's your primary bank?"
].

Definition zero_snapshot : FinancialSnapshot :=
  {| total_cash := zero; total_investments := zero;
     total_liabilities := zero; net_worth := zero;
     ytd_income := zero; ytd_expenses := zero;
     estimated_tax_liability := zero; monthly_burn_rate := zero |}.

(** [create_default_state()]; [utcnow] is [datetime.utcnow().isoformat()]. *)
Definition create_default_state (utcnow : string) : AgentState :=
  {| messages := [];
     user_profile := None;
     transactions := [];
     accounts := [];
     snapshot := zero_snapshot;
     pending_sync := [];
     setup_step := 0;
     thread_id := EmptyString;
     last_updated := utcnow |}.

(** ** [calculate_snapshot] *)

(** The test of line 200 on the key under which the account is stored. *)
Definition is_investment_name (name : string) : bool :=
  contains "invest" (lower name)
  || contains "stock" (lower name)
  || contains "crypto" (lower name).

(** One round of the loop over [state["accounts"].items()]; the totals are
    [(total_cash, total_investments, total_liabilities)]. *)
Definition account_step (totals : num * num * num) (item : string * Account)
  : num * num * num :=
  let '(total_cash, total_investments, total_liabilities) := totals in
  let '(name, account) := item in
  if acc_type account =? "asset" then
    if is_investment_name name
    then (total_cash, total_investments + balance account, total_liabilities)
    else (total_cash + balance account, total_investments, total_liabilities)
  else if acc_type account =? "liability"
  then (total_cash, total_investments, total_liabilities + balance account)
  else totals.

(** One round of the loop over [state["transactions"]]; the totals are
    [(ytd_income, ytd_expenses)], and [None] once a time stamp was
    refused. *)
Definition transaction_step (current_year : Z) (totals : option (num * num))
  (tx : Transaction) : option (num * num) :=
  match totals with
  | None => None
  | Some (ytd_income, ytd_expenses) =>
      match fromisoformat (remove_char "Z" (timestamp tx)) with
      | None => None
      | Some tx_date =>
          if (year tx_date =? current_year)%Z then
            if category tx =? "income"
            then Some (ytd_income + amount tx, ytd_expenses)
            else if category tx =? "expense"
            then Some (ytd_income, ytd_expenses + amount tx)
            else Some (ytd_income, ytd_expenses)
          else Some (ytd_income, ytd_expenses)
      end
  end.

(** [calculate_snapshot(state)] as a function of the state and of the
    clock: [now] is what [datetime.now()] returns during the call, at
    both of its readings ([calculate_snapshot_call] below keeps the two
    readings apart). *)
Definition calculate_snapshot (now : datetime) (state : AgentState)
  : option FinancialSnapshot :=
  let current_year := year now in
  let '(total_cash, total_investments, total_liabilities) :=
    fold_left account_step (items (accounts state)) (zero, zero, zero) in
  match
    fold_left (transaction_step current_year) (transactions state)
      (Some (zero, zero))
  with
  | None => None
  | Some (ytd_income, ytd_expenses) =>
      let net_worth := total_cash + total_investments - total_liabilities in
      let taxable_income := ytd_income - ytd_expenses * num_of_decimal 1 1 in
      let estimated_tax :=
        if taxable_income >? zero
        then taxable_income * num_of_decimal 22 2
        else zero in
      let months_elapsed := Z.max 1 (month now) in
      let monthly_burn := ytd_expenses / num_of_Z months_elapsed in
      Some {| total_cash := total_cash;
              total_investments := total_investments;
              total_liabilities := total_liabilities;
              net_worth := net_worth;
              ytd_income := ytd_income;
              ytd_expenses := ytd_expenses;
              estimated_tax_liability := estimated_tax;
              monthly_burn_rate := monthly_burn |}
  end.

(** ** [calculate_snapshot] as a call: what it reads and writes *)

Section Effects.

(** The rest of the process, whatever it holds: module variables, the
    environment, the database. *)
Context {Globals : Type}.

(** What a call can read and write besides its local variables: the
    dictionary passed as [state], which the caller shares; the system
    clock, of which [clock] gives the successive readings and
    [clock_reads] counts those taken so far; and the rest of the
    process. *)
Record World : Type := {
  the_state : AgentState;
  clock : nat -> datetime;
  clock_reads : nat;
  globals : Globals
}.

(** [datetime.now()]: the next reading of the clock. *)
Definition datetime_now (w : World) : datetime * World :=
  (clock w (clock_reads w),
   {| the_state := the_state w;
      clock := clock w;
      clock_reads := S (clock_reads w);
      globals := globals w |}).

(** [calculate_snapshot(state)] with its effects, in the order of the
    source: the function has no parameter for the date; it reads the
    clock itself, for the year before the loops (line 196) and for the
    month after them (line 222).  The result is [None] when
    [fromisoformat] raises, which happens before the second reading. *)
Definition calculate_snapshot_call (w : World)
  : option FinancialSnapshot * World :=
  let '(now_before, w) := datetime_now w in
  let current_year := year now_before in
  let state := the_state w in
  let '(total_cash, total_investments, total_liabilities) :=
    fold_left account_step (items (accounts state)) (zero, zero, zero) in
  match
    fold_left (transaction_step current_year) (transactions state)
      (Some (zero, zero))
  with
  | None => (None, w)
  | Some (ytd_income, ytd_expenses) =>
      let net_worth := total_cash + total_investments - total_liabilities in
      let taxable_income := ytd_income - ytd_expenses * num_of_decimal 1 1 in
      let estimated_tax :=
        if taxable_income >? zero
        then taxable_income * num_of_decimal 22 2
        else zero in
      let '(now_after, w) := datetime_now w in
      let months_elapsed := Z.max 1 (month now_after) in
      let monthly_burn := ytd_expenses / num_of_Z months_elapsed in
      (Some {| total_cash := total_cash;
               total_investments := total_investments;
               total_liabilities := total_liabilities;
               net_worth := net_worth;
               ytd_income := ytd_income;
               ytd_expenses := ytd_expenses;
               estimated_tax_liability := estimated_tax;
               monthly_burn_rate := monthly_burn |}, w)
  end.

End Effects.

(** ** [handle_setup] *)

Definition default_profile : UserProfile :=
  {| tax_residency := EmptyString;
     filing_status := EmptyString;
     dependents := 0;
     income_sources := [];
     annual_income_estimate := zero;
     retirement_accounts := [];
     investment_accounts := [];
     primary_bank := EmptyString;
     setup_complete := false |}.

(** [messages[-1]] of a non-empty list. *)
Definition last_message (messages : list Message) : option Message :=
  match rev messages with
  | [] => None
  | m :: _ => Some m
  end.

(** [float(s)] for a string of digits and dots. *)
Definition py_float (s : string) : option num :=
  match decimal_of_string s with
  | Some (m, k) => Some (num_of_decimal m k)
  | None => None
  end.

(** Step 2: the first integer of the answer, 0 without one or on a
    failure of [int]. *)
Definition parse_dependents (answer : string) : Z :=
  match re_search_digits answer with
  | Some digits =>
      match py_int digits with
      | Some n => n
      | None => 0%Z
      end
  | None => 0%Z
  end.

(** Step 4: the answer without what is neither digit nor dot, read as a
    float; 0.0 when nothing is left or [float] fails. *)
Definition parse_annual_income (answer : string) : num :=
  let num_text := re_sub_non_numeric answer in
  match num_text with
  | EmptyString => zero
  | _ =>
      match py_float num_text with
      | Some x => x
      | None => zero
      end
  end.

(** [[s.strip() for s in answer.split(",")]] *)
Definition comma_list (answer : string) : list string :=
  map strip (split "," answer).

(** The chain of lines 261 to 285: the answer stored by step. *)
Definition store_answer (setup_step : nat) (answer : string)
  (p : UserProfile) : UserProfile :=
  match setup_step with
  | 0 =>
      {| tax_residency := answer; filing_status := filing_status p;
         dependents := dependents p; income_sources := income_sources p;
         annual_income_estimate := annual_income_estimate p;
         retirement_accounts := retirement_accounts p;
         investment_accounts := investment_accounts p;
         primary_bank := primary_bank p; setup_complete := setup_complete p |}
  | 1 =>
      {| tax_residency := tax_residency p; filing_status := answer;
         dependents := dependents p; income_sources := income_sources p;
         annual_income_estimate := annual_income_estimate p;
         retirement_accounts := retirement_accounts p;
         investment_accounts := investment_accounts p;
         primary_bank := primary_bank p; setup_complete := setup_complete p |}
  | 2 =>
      {| tax_residency := tax_residency p; filing_status := filing_status p;
         dependents := parse_dependents answer;
         income_sources := income_sources p;
         annual_income_estimate := annual_income_estimate p;
         retirement_accounts := retirement_accounts p;
         investment_accounts := investment_accounts p;
         primary_bank := primary_bank p; setup_complete := setup_complete p |}
  | 3 =>
      {| tax_residency := tax_residency p; filing_status := filing_status p;
         dependents := dependents p; income_sources := comma_list answer;
         annual_income_estimate := annual_income_estimate p;
         retirement_accounts := retirement_accounts p;
         investment_accounts := investment_accounts p;
         primary_bank := primary_bank p; setup_complete := setup_complete p |}
  | 4 =>
      {| tax_residency := tax_residency p; filing_status := filing_status p;
         dependents := dependents p; income_sources := income_sources p;
         annual_income_estimate := parse_annual_income answer;
         retirement_accounts := retirement_accounts p;
         investment_accounts := investment_accounts p;
         primary_bank := primary_bank p; setup_complete := setup_complete p |}
  | 5 =>
      {| tax_residency := tax_residency p; filing_status := filing_status p;
         dependents := dependents p; income_sources := income_sources p;
         annual_income_estimate := annual_income_estimate p;
         retirement_accounts := comma_list answer;
         investment_accounts := investment_accounts p;
         primary_bank := primary_bank p; setup_complete := setup_complete p |}
  | 6 =>
      {| tax_residency := tax_residency p; filing_status := filing_status p;
         dependents := dependents p; income_sources := income_sources p;
         annual_income_estimate := annual_income_estimate p;
         retirement_accounts := retirement_accounts p;
         investment_accounts := comma_list answer;
         primary_bank := primary_bank p; setup_complete := setup_complete p |}
  | 7 =>
      {| tax_residency := tax_residency p; filing_status := filing_status p;
         dependents := dependents p; income_sources := income_sources p;
         annual_income_estimate := annual_income_estimate p;
         retirement_accounts := retirement_accounts p;
         investment_accounts := investment_accounts p;
         primary_bank := answer; setup_complete := true |}
  | _ => p
  end.

Definition setup_complete_message : string :=
  "✅ Setup complete! I've recorded your financial profile. You can now start tracking transactions. Try saying something like 'Paid $50 for dinner at Restaurant with Chase card' or 'Received $5000 salary deposit'.".

Definition welcome_message : string :=
  "👋 Welcome to your Personal Accountant! Let me set up your profile."
  ++ nl ++ nl ++ nth 0 SETUP_QUESTIONS EmptyString.

Definition assistant (text : string) : Message :=
  {| role := "assistant"; content := text |}.

Definition user_answered (messages : list Message) : bool :=
  match last_message messages with
  | Some m => role m =? "user"
  | None => false
  end.

(** [handle_setup(state)] *)
Definition handle_setup (state : AgentState) : AgentState :=
  let setup_step := setup_step state in
  let messages := messages state in
  if (setup_step <? List.length SETUP_QUESTIONS)%nat then
    if user_answered messages then
      let user_profile :=
        match user_profile state with
        | Some p => p
        | None => default_profile
        end in
      let answer :=
        match last_message messages with
        | Some m => content m
        | None => EmptyString
        end in
      let user_profile := store_answer setup_step answer user_profile in
      let state := set_user_profile (Some user_profile) state in
      let state := set_setup_step (setup_step + 1) state in
      let messages :=
        if (setup_step + 1 <? List.length SETUP_QUESTIONS)%nat
        then messages
             ++ [assistant ("Got it! "
                            ++ nth (setup_step + 1) SETUP_QUESTIONS EmptyString)]
        else messages ++ [assistant setup_complete_message] in
      set_messages messages state
    else
      set_messages (messages ++ [assistant welcome_message]) state
  else set_messages messages state.

(* ================================================================== *)
(** * [agent/tools.py] *)
(* ================================================================== *)

Record AddTransactionArgs : Type := {
  arg_description : string;
  arg_amount : num;
  arg_account_from : string;
  arg_account_to : string;
  arg_category : string;
  arg_subcategory : option string;
  arg_cost_basis : option num;
  arg_asset_type : option string;
  arg_quantity : option num
}.

Record AddTransactionResult : Type := {
  add_success : bool;
  add_transaction_made : Transaction
}.

(** [add_transaction(...)]; [uuid] and [utcnow] are what [uuid.uuid4()] and
    [datetime.utcnow().isoformat()] return. *)
Definition add_transaction (uuid utcnow : string) (a : AddTransactionArgs)
  : AddTransactionResult :=
  let transaction :=
    {| tx_id := uuid;
       timestamp := utcnow;
       description := arg_description a;
       amount := arg_amount a;
       account_from := arg_account_from a;
       account_to := arg_account_to a;
       category := arg_category a;
       subcategory := arg_subcategory a;
       cost_basis := arg_cost_basis a;
       asset_type := arg_asset_type a;
       quantity := arg_quantity a;
       encrypted_data := None |} in
  {| add_success := true; add_transaction_made := transaction |}.

(** [account_type] and [currency] are optional, with defaults. *)
Record UpdateBalanceArgs : Type := {
  arg_account_name : string;
  arg_new_balance : num;
  arg_account_type : option string;
  arg_currency : option string
}.

Record UpdateBalanceResult : Type := {
  update_success : bool;
  update_account : Account
}.

(** [update_balance(...)] *)
Definition update_balance (utcnow : string) (a : UpdateBalanceArgs)
  : UpdateBalanceResult :=
  {| update_success := true;
     update_account :=
       {| name := arg_account_name a;
          acc_type :=
            match arg_account_type a with Some t => t | None => "asset" end;
          balance := arg_new_balance a;
          currency :=
            match arg_currency a with Some c => c | None => "USD" end;
          updated_at := Some utcnow |} |}.

(* ================================================================== *)
(** * [process_message]: the tool calls and the end of the turn *)
(* ================================================================== *)

(** A tool call of the model's reply, by [func_name], with its decoded
    arguments.  [generate_report], [export_csv], [detect_anomalies],
    [tax_estimate] and unknown names leave the state alone. *)
Inductive ToolCall : Type :=
| CallAddTransaction (args : AddTransactionArgs)
| CallUpdateBalance (args : UpdateBalanceArgs)
| CallOther (func_name : string).

(** A tool call with what [uuid4()] and [utcnow()] return while it runs. *)
Record ToolCallEvent : Type := {
  call : ToolCall;
  call_uuid : string;
  call_utcnow : string
}.

(** The [content] of a reply: the key may be absent, or hold [null]. *)
Inductive Content : Type :=
| ContentAbsent
| ContentNull
| ContentText (text : string).

Record LLMMessage : Type := {
  msg_content : Content;
  tool_calls : list ToolCallEvent
}.

(** What one turn reads from outside the state: the clock and the replies
    of [call_openrouter] ([None]: every model failed and it raises). *)
Record TurnEnv : Type := {
  now : datetime;
  utcnow : string;
  llm_first : option LLMMessage;
  llm_final : option LLMMessage
}.

Definition set_balance (v : num) (a : Account) : Account :=
  {| name := name a; acc_type := acc_type a; balance := v;
     currency := currency a; updated_at := updated_at a |}.

Definition new_account (account_name type : string) : Account :=
  {| name := account_name; acc_type := type; balance := zero;
     currency := "USD"; updated_at := None |}.

(** Lines 395 to 402: both accounts exist afterwards, the first is
    debited and the second credited. *)
Definition post_transaction (from_acc to_acc : string) (amount : num)
  (category : string) (accounts : dict Account) : dict Account :=
  let accounts :=
    if mem from_acc accounts then accounts
    else setitem from_acc (new_account from_acc "asset") accounts in
  let accounts :=
    if mem to_acc accounts then accounts
    else
      let type := if category =? "expense" then "expense" else "asset" in
      setitem to_acc (new_account to_acc type) accounts in
  let accounts :=
    modify from_acc (fun a => set_balance (balance a - amount) a) accounts in
  modify to_acc (fun a => set_balance (balance a + amount) a) accounts.

(** One round of the loop over [message["tool_calls"]] (lines 378-417),
    for a call whose arguments decode and pass the schema of the tool.
    The amount posted is [func_args["amount"]], in the arithmetic of the
    run. *)
Definition apply_tool_call (state : AgentState) (ev : ToolCallEvent)
  : AgentState :=
  match call ev with
  | CallAddTransaction func_args =>
      let result := add_transaction (call_uuid ev) (call_utcnow ev) func_args in
      if add_success result then
        let tx := add_transaction_made result in
        let state := set_transactions (transactions state ++ [tx]) state in
        set_accounts
          (post_transaction (arg_account_from func_args)
             (arg_account_to func_args) (arg_amount func_args)
             (arg_category func_args) (accounts state))
          state
      else state
  | CallUpdateBalance func_args =>
      let result := update_balance (call_utcnow ev) func_args in
      if update_success result then
        let acc := update_account result in
        set_accounts (setitem (name acc) acc (accounts state)) state
      else state
  | CallOther _ => state
  end.

Definition default_reply : string :=
  "I apologize, but I couldn't process that. Could you rephrase?".

(** The line added to every reply (line 437). *)
Definition snapshot_display (s : FinancialSnapshot) : string :=
  nl ++ nl ++ "💰 Cash: $" ++ num_money (total_cash s)
  ++ " | 📈 Investments: $" ++ num_money (total_investments s)
  ++ " | 📊 Net Worth: $" ++ num_money (net_worth s)
  ++ nl ++ "📅 YTD: Income $" ++ num_money (ytd_income s)
  ++ " / Expenses $" ++ num_money (ytd_expenses s)
  ++ " | 🏛️ Est. Tax: $" ++ num_money (estimated_tax_liability s).

(** [process_message(state)]: the snapshot given to the model, the tool
    calls of its reply, the final reply, then the snapshot and the time
    stamp.  [None] is an exception: the turn is lost and nothing is saved.
    The replies are taken as decoded: a reply without choices, tool
    arguments that are no JSON or that the schema of a tool refuses make
    the source raise as well, and are no input of this function; what is
    proved of a turn is proved of a turn that returns. *)
Definition process_message (env : TurnEnv) (state : AgentState)
  : option AgentState :=
  let messages := messages state in
  match calculate_snapshot (now env) state with
  | None => None
  | Some snapshot =>
  let state := set_snapshot snapshot state in
  match llm_first env with
  | None => None
  | Some message =>
  let after_tools :=
    match tool_calls message with
    | [] => Some (state, message)
    | calls =>
        let state := fold_left apply_tool_call calls state in
        match llm_final env with
        | None => None
        | Some final => Some (state, final)
        end
    end in
  match after_tools with
  | None => None
  | Some (state, message) =>
  match calculate_snapshot (now env) state with
  | None => None
  | Some snapshot =>
  let state := set_snapshot snapshot state in
  let reply :=
    match msg_content message with
    | ContentAbsent => Some default_reply
    | ContentText text => Some text
    | ContentNull => None
    end in
  match reply with
  | None => None
  | Some assistant_content =>
  let messages :=
    messages ++ [assistant (assistant_content ++ snapshot_display snapshot)] in
  let state := set_messages messages state in
  Some (set_last_updated (utcnow env) state)
  end end end end end.

(** [should_setup(state)] *)
Definition should_setup (state : AgentState) : string :=
  match user_profile state with
  | None => "setup"
  | Some profile => if setup_complete profile then "process" else "setup"
  end.

(** The compiled graph: the start edge picks one node, which ends the run. *)
Definition graph_invoke (env : TurnEnv) (state : AgentState)
  : option AgentState :=
  if should_setup state =? "setup" then Some (handle_setup state)
  else process_message env state.

(* ================================================================== *)
(** * [backend/main.py] *)
(* ================================================================== *)

Record MessageRequest : Type := {
  chat_thread_id : string;
  chat_message : string
}.

Record SyncRequest : Type := {
  sync_thread_id : string;
  sync_transactions : list Transaction;
  sync_accounts : dict Account
}.

(** [load_state(thread_id)] or a fresh state. *)
Definition load_or_create (utcnow : string) (thread : string)
  (loaded : option AgentState) : AgentState :=
  match loaded with
  | Some state => state
  | None => set_thread_id thread (create_default_state utcnow)
  end.

(** [chat(request)] up to the call of [save_state]: the state that the
    graph returns and that is handed to [save_state]; [None] is the
    HTTP 500 of a failed turn, which stores nothing.  The save itself is
    not part of the embedding: a state that the database refuses makes
    the request fail after this point. *)
Definition chat (env : TurnEnv) (loaded : option AgentState)
  (request : MessageRequest) : option AgentState :=
  let state := load_or_create (utcnow env) (chat_thread_id request) loaded in
  let state :=
    set_messages
      (messages state ++ [{| role := "user"; content := chat_message request |}])
      state in
  graph_invoke env state.

(** The loop of lines 349 to 352: [existing_ids] is built once, before
    the loop. *)
Definition merge_transactions (existing incoming : list Transaction)
  : list Transaction :=
  let existing_ids := map tx_id existing in
  fold_left
    (fun transactions tx =>
       if existsb (String.eqb (tx_id tx)) existing_ids then transactions
       else transactions ++ [tx])
    incoming existing.

(** The loop of lines 355 and 356. *)
Definition merge_accounts (existing incoming : dict Account) : dict Account :=
  fold_left (fun accounts item => setitem (fst item) (snd item) accounts)
    (items incoming) existing.

(** Lines 348 to 360 on the loaded state. *)
Definition sync_merge (env : TurnEnv) (state : AgentState)
  (request : SyncRequest) : option AgentState :=
  let state :=
    set_transactions
      (merge_transactions (transactions state) (sync_transactions request))
      state in
  let state :=
    set_accounts (merge_accounts (accounts state) (sync_accounts request))
      state in
  match calculate_snapshot (now env) state with
  | None => None
  | Some snapshot =>
      Some (set_last_updated (utcnow env) (set_snapshot snapshot state))
  end.

(** [sync_data(request)] up to the call of [save_state] (line 363): the
    state handed to it, of which the response reports the snapshot and
    the number of transactions.  The save itself is not part of the
    embedding. *)
Definition sync_data (env : TurnEnv) (loaded : option AgentState)
  (request : SyncRequest) : option AgentState :=
  sync_merge env
    (load_or_create (utcnow env) (sync_thread_id request) loaded) request.

(** [len(state["transactions"])] of the response. *)
Definition transaction_count (state : AgentState) : nat :=
  List.length (transactions state).

(** One request against the stored session of a thread, every save
    being accepted: a failed turn stores nothing, so the next request
    loads what was stored before. *)
Definition chat_request (thread : string) (stored : option AgentState)
  (turn : TurnEnv * string) : option AgentState :=
  match
    chat (fst turn) stored
      {| chat_thread_id := thread; chat_message := snd turn |}
  with
  | Some state => Some state
  | None => stored
  end.

(** The stored session after a sequence of requests on a new thread. *)
Definition conversation (thread : string) (turns : list (TurnEnv * string))
  : option AgentState :=
  fold_left (chat_request thread) turns None.

(* ================================================================== *)
(** * Specification-side definitions *)
(* ================================================================== *)

(** The balance under a name, 0 for a name not yet in the mapping. *)
Definition balance_of (account_name : string) (d : dict Account) : num :=
  match get account_name d with
  | Some a => balance a
  | None => zero
  end.

(** The sum of all balances of a mapping. *)
Definition sum_balances (d : dict Account) : num :=
  fold_right (fun item total => balance (snd item) + total) zero d.

(** A running total as the loops of the code build it: from 0.0, adding
    in the order of iteration. *)
Definition running_total (xs : list num) : num :=
  fold_left num_add xs zero.

(** The year of a transaction is [y]. *)
Definition dated_in (y : Z) (tx : Transaction) : bool :=
  match fromisoformat (remove_char "Z" (timestamp tx)) with
  | Some tx_date => (year tx_date =? y)%Z
  | None => false
  end.

(** The year-to-date total of a category, in the words of the
    specification: the amounts of the transactions of the year that carry
    the category. *)
Definition spec_ytd_total (y : Z) (cat : string) (txs : list Transaction)
  : num :=
  running_total
    (map amount (filter (fun tx => dated_in y tx && (category tx =? cat)) txs)).

(** The classes of the specification, by the stored name and the type. *)
Definition is_investment_account (item : string * Account) : bool :=
  (acc_type (snd item) =? "asset") && is_investment_name (fst item).

Definition is_cash_account (item : string * Account) : bool :=
  (acc_type (snd item) =? "asset") && negb (is_investment_name (fst item)).

Definition is_liability_account (item : string * Account) : bool :=
  acc_type (snd item) =? "liability".

Definition spec_total (class : string * Account -> bool) (d : dict Account)
  : num :=
  running_total (map (fun item => balance (snd item)) (filter class d)).

(** The magnitude of a number. *)
Definition magnitude (x : num) : num :=
  if zero >? x then zero - x else x.

(** Total liabilities with every liability taken as a positive magnitude. *)
Definition spec_liabilities_as_magnitudes (d : dict Account) : num :=
  running_total
    (map (fun item => magnitude (balance (snd item)))
       (filter is_liability_account d)).

Definition is_complete (state : AgentState) : bool :=
  match user_profile state with
  | Some p => setup_complete p
  | None => false
  end.

(** No two transactions of a history share an id. *)
Definition distinct_ids (txs : list Transaction) : Prop :=
  NoDup (map tx_id txs).

(** ** The answers of the wizard, in the words of the specification *)

Definition no_digit (s : string) : bool :=
  forallb (fun c => negb (is_digit c)) (list_ascii_of_string s).

Definition starts_with_digit (s : string) : bool :=
  match s with
  | String c _ => is_digit c
  | EmptyString => false
  end.

(** The number that a run of digits writes: each digit counts for the
    power of ten of its place. *)
Fixpoint positional_value (s : string) : Z :=
  match s with
  | EmptyString => 0%Z
  | String c r =>
      (digit_value c * 10 ^ Z.of_nat (length r) + positional_value r)%Z
  end.

(** [n] is the first integer of the answer: 0 for an answer without a
    digit; otherwise the number written by the first run of digits, the
    digits after what holds none and up to the first character that is
    none, and 0 again when that run is longer than [int] reads. *)
Definition first_integer (answer : string) (n : Z) : Prop :=
  (no_digit answer = true -> n = 0%Z)
  /\ (forall before digits rest : string,
        answer = (before ++ digits ++ rest)%string ->
        no_digit before = true ->
        digits <> EmptyString ->
        all_digits digits = true ->
        starts_with_digit rest = false ->
        n = if (int_max_str_digits <? length digits)%nat then 0%Z
            else positional_value digits).

Definition is_numeric_char (c : ascii) : bool :=
  is_digit c || Ascii.eqb c ".".

(** The answer after the stripping of what is neither digit nor dot. *)
Definition numeric_part (answer : string) : string :=
  string_of_list_ascii (filter is_numeric_char (list_ascii_of_string answer)).

Definition count_dots (s : string) : nat :=
  List.length (filter (Ascii.eqb ".") (list_ascii_of_string s)).

(** A text of digits and dots parses as a decimal when it holds a digit
    and at most one dot. *)
Definition parses_as_decimal (s : string) : bool :=
  negb (no_digit s) && (count_dots s <=? 1)%nat.

(** [x] is the income read from the answer: with [kept] the answer
    stripped of what is neither digit nor dot, 0.0 when [kept] does not
    parse as a decimal, and otherwise the number that its digits write,
    divided by ten for every digit after the dot. *)
Definition decimal_reading (answer : string) (x : num) : Prop :=
  let kept := numeric_part answer in
  (parses_as_decimal kept = false -> x = zero)
  /\ (kept <> EmptyString -> all_digits kept = true ->
      x = num_of_decimal (positional_value kept) 0)
  /\ (forall whole fraction : string,
        kept = (whole ++ "." ++ fraction)%string ->
        all_digits whole = true -> all_digits fraction = true ->
        (whole ++ fraction)%string <> EmptyString ->
        x = num_of_decimal (positional_value (whole ++ fraction)%string)
              (length fraction)).

Definition no_comma (s : string) : bool :=
  forallb (fun c => negb (Ascii.eqb c ",")) (list_ascii_of_string s).

Definition all_space (s : string) : bool :=
  forallb is_space (list_ascii_of_string s).

Definition starts_with_space (s : string) : bool :=
  match s with
  | String c _ => is_space c
  | EmptyString => false
  end.

Fixpoint ends_with_space (s : string) : bool :=
  match s with
  | EmptyString => false
  | String c EmptyString => is_space c
  | String _ r => ends_with_space r
  end.

(** [core] is [s] without the white space around it. *)
Definition stripped (s core : string) : Prop :=
  exists before after : string,
    s = (before ++ core ++ after)%string
    /\ all_space before = true
    /\ all_space after = true
    /\ starts_with_space core = false
    /\ ends_with_space core = false.

(** [stored] lists the parts of the answer that its commas separate, in
    order, each without the white space around it. *)
Definition comma_separated (answer : string) (stored : list string) : Prop :=
  forall parts : list string,
    parts <> [] ->
    forallb no_comma parts = true ->
    answer = String.concat "," parts ->
    Forall2 stripped parts stored.

(** What the answer to question [k] leaves in the profile.  The fields
    that are parsed are described for ASCII answers. *)
Definition field_of_step (k : nat) (answer : string) (p : UserProfile)
  : Prop :=
  match k with
  | 0 => tax_residency p = answer
  | 1 => filing_status p = answer
  | 2 => is_ascii answer = true -> first_integer answer (dependents p)
  | 3 => is_ascii answer = true ->
         comma_separated answer (income_sources p)
  | 4 => is_ascii answer = true ->
         decimal_reading answer (annual_income_estimate p)
  | 5 => is_ascii answer = true ->
         comma_separated answer (retirement_accounts p)
  | 6 => is_ascii answer = true ->
         comma_separated answer (investment_accounts p)
  | 7 => primary_bank p = answer /\ setup_complete p = true
  | _ => True
  end.

(** The profile without what step [k] stores: two profiles with the same
    rest differ in the field of the step at most. *)
Definition without_field (k : nat) (p : UserProfile) : UserProfile :=
  {| tax_residency := if (k =? 0)%nat then EmptyString else tax_residency p;
     filing_status := if (k =? 1)%nat then EmptyString else filing_status p;
     dependents := if (k =? 2)%nat then 0%Z else dependents p;
     income_sources := if (k =? 3)%nat then [] else income_sources p;
     annual_income_estimate :=
       if (k =? 4)%nat then zero else annual_income_estimate p;
     retirement_accounts :=
       if (k =? 5)%nat then [] else retirement_accounts p;
     investment_accounts :=
       if (k =? 6)%nat then [] else investment_accounts p;
     primary_bank := if (k =? 7)%nat then EmptyString else primary_bank p;
     setup_complete := if (k =? 7)%nat then false else setup_complete p |}.

(** ** Auxiliary definitions of the proofs *)



(** The mapping after the two insertions of lines 395 to 399. *)
Definition with_both_accounts (from_acc to_acc category : string)
  (accounts : dict Account) : dict Account :=
  let accounts :=
    if mem from_acc accounts then accounts
    else setitem from_acc (new_account from_acc "asset") accounts in
  if mem to_acc accounts then accounts
  else
    let type := if category =? "expense" then "expense" else "asset" in
    setitem to_acc (new_account to_acc type) accounts.

Definition debit (amount : num) (a : Account) : Account :=
  set_balance (balance a - amount) a.

Definition credit (amount : num) (a : Account) : Account :=
  set_balance (balance a + amount) a.

(** What follows the longest prefix of digits. *)
Fixpoint drop_digits (s : string) : string :=
  match s with
  | EmptyString => EmptyString
  | String c r => if is_digit c then drop_digits r else s
  end.

(** The ids that the merge loop compares with. *)
Definition known_id (existing : list Transaction) (tx : Transaction) : bool :=
  existsb (String.eqb (tx_id tx)) (map tx_id existing).

(* ================================================================== *)
(** * More of [agent/graph.py] and [backend/main.py] *)
(* ================================================================== *)

(** ** [call_openrouter] *)

Definition MODELS : list string := [
  "x-ai/grok-4.1-fast";
  "anthropic/claude-3.5-sonnet";
  "anthropic/claude-3-opus"
].

(** [call_openrouter(messages, tools, model_index)] with [remaining]
    models left to try; [post model] is the decoded reply of the request
    sent for [model], [None] for whatever exception the request raises.
    With no model left the call raises. *)
Fixpoint call_openrouter_from {R : Type} (remaining : nat)
  (post : string -> option R) (model_index : nat) : option R :=
  match remaining with
  | O => None
  | S remaining' =>
      let model := nth model_index MODELS EmptyString in
      match post model with
      | Some response => Some response
      | None => call_openrouter_from remaining' post (model_index + 1)
      end
  end.

Definition call_openrouter {R : Type} (post : string -> option R)
  (model_index : nat) : option R :=
  call_openrouter_from (List.length MODELS - model_index) post model_index.

(** ** [get_monthly_data], after the query *)

(** A row of the query: the month of [strftime('%m', timestamp)] ([None]
    for SQL NULL), the category and the sum of the amounts. *)
Record MonthRow : Type := {
  row_month : option string;
  row_category : string;
  row_total : num
}.

(** A value of [monthly_data]. *)
Record MonthTotals : Type := {
  month_income : num;
  month_expense : num
}.

(** An entry of the result. *)
Record MonthEntry : Type := {
  entry_month : string;
  entry_income : num;
  entry_expenses : num
}.

(** [str(i)] *)
Definition str_of_nat (i : nat) : string :=
  NilZero.string_of_uint (Nat.to_uint i).

Fixpoint zeros (n : nat) : string :=
  match n with
  | O => EmptyString
  | S n' => String "0" (zeros n')
  end.

(** [s.zfill(width)] for a numeral without sign. *)
Definition zfill (width : nat) (s : string) : string :=
  zeros (width - String.length s) ++ s.

Definition month_key (i : nat) : string := zfill 2 (str_of_nat i).

(** [{str(i).zfill(2): {"income": 0, "expense": 0} for i in range(1, 13)}] *)
Definition empty_monthly_data : dict MonthTotals :=
  map (fun i => (month_key i, {| month_income := zero; month_expense := zero |}))
    (seq 1 12).

(** One round of the loop over the rows; [None] is the [KeyError] of a
    month that is no key of [monthly_data]. *)
Definition record_row (monthly_data : option (dict MonthTotals))
  (row : MonthRow) : option (dict MonthTotals) :=
  match monthly_data with
  | None => None
  | Some d =>
      if row_category row =? "income" then
        match row_month row with
        | Some m =>
            if mem m d
            then Some (modify m
                         (fun t => {| month_income := row_total row;
                                      month_expense := month_expense t |}) d)
            else None
        | None => None
        end
      else if row_category row =? "expense" then
        match row_month row with
        | Some m =>
            if mem m d
            then Some (modify m
                         (fun t => {| month_income := month_income t;
                                      month_expense := row_total row |}) d)
            else None
        | None => None
        end
      else Some d
  end.

Definition month_names : list string :=
  ["Jan"; "Feb"; "Mar"; "Apr"; "May"; "Jun";
   "Jul"; "Aug"; "Sep"; "Oct"; "Nov"; "Dec"].

(** The loop over [enumerate(month_names, 1)]. *)
Fixpoint month_entries (d : dict MonthTotals) (i : nat) (names : list string)
  : option (list MonthEntry) :=
  match names with
  | [] => Some []
  | month_name :: rest =>
      match get (month_key i) d with
      | None => None
      | Some t =>
          match month_entries d (i + 1) rest with
          | None => None
          | Some result =>
              Some ({| entry_month := month_name;
                       entry_income := month_income t;
                       entry_expenses := month_expense t |} :: result)
          end
      end
  end.

(** [get_monthly_data(thread_id, year)] on the rows that the query
    returns: the twelve entries and the year; [now] is [datetime.now()],
    read when no year (or the year 0) is given. *)
Definition get_monthly_data (now : datetime) (year : option Z)
  (rows : list MonthRow) : option (list MonthEntry * Z) :=
  let year :=
    match year with
    | None => Ledger.year now
    | Some y => if (y =? 0)%Z then Ledger.year now else y
    end in
  match fold_left record_row rows (Some empty_monthly_data) with
  | None => None
  | Some monthly_data =>
      match month_entries monthly_data 1 month_names with
      | None => None
      | Some result => Some (result, year)
      end
  end.

(* ================================================================== *)
(** * More specification-side definitions *)
(* ================================================================== *)

(** The names under which accounts are stored, in order. *)
Definition names_of (d : dict Account) : list string := map fst d.

(** Every account is stored under the name it carries. *)
Definition stored_under_own_name (d : dict Account) : Prop :=
  Forall (fun item => name (snd item) = fst item) d.

(** The transaction that an add_transaction call makes. *)
Definition made_transaction (ev : ToolCallEvent) : list Transaction :=
  match call ev with
  | CallAddTransaction args =>
      [add_transaction_made
         (add_transaction (call_uuid ev) (call_utcnow ev) args)]
  | _ => []
  end.

(** The transactions that the tool calls of a reply make, in call order. *)
Definition made_transactions (calls : list ToolCallEvent) : list Transaction :=
  flat_map made_transaction calls.

Definition is_balance_update (ev : ToolCallEvent) : bool :=
  match call ev with
  | CallUpdateBalance _ => true
  | _ => false
  end.

(** Every tool call of the first reply of the turn passes [ok]. *)
Definition turn_ok (ok : ToolCallEvent -> bool) (env : TurnEnv) : bool :=
  match llm_first env with
  | Some message => forallb ok (tool_calls message)
  | None => true
  end.

(** The first reply of the turn asks for no [update_balance]. *)
Definition no_balance_update (env : TurnEnv) : bool :=
  turn_ok (fun ev => negb (is_balance_update ev)) env.

(** The effect of one tool call on the balance [b] of the account
    [account_name]: an add_transaction debits, then credits; an
    update_balance on the account replaces the balance; the other tools
    leave it. *)
Definition call_on (account_name : string) (b : num) (ev : ToolCallEvent)
  : num :=
  match call ev with
  | CallAddTransaction args =>
      let b :=
        if arg_account_from args =? account_name
        then b - arg_amount args else b in
      if arg_account_to args =? account_name
      then b + arg_amount args else b
  | CallUpdateBalance args =>
      if arg_account_name args =? account_name
      then arg_new_balance args else b
  | CallOther _ => b
  end.

(** Every time stamp of a history is an ISO date. *)
Definition well_dated (txs : list Transaction) : Prop :=
  Forall (fun tx => fromisoformat (remove_char "Z" (timestamp tx)) <> None) txs.

(** The reply of the wizard to the answer of step [k]. *)
Definition next_prompt (k : nat) : string :=
  if (k + 1 <? List.length SETUP_QUESTIONS)%nat
  then "Got it! " ++ nth (k + 1) SETUP_QUESTIONS EmptyString
  else setup_complete_message.

(** The months that [monthly_data] has a key for. *)
Definition is_month_key (m : option string) : bool :=
  match m with
  | Some key => existsb (String.eqb key) (map month_key (seq 1 12))
  | None => false
  end.

(** A row that the loop looks up. *)
Definition row_is_recorded (row : MonthRow) : bool :=
  (row_category row =? "income") || (row_category row =? "expense").

(** The row is of the category [cat] and of the month [key]. *)
Definition row_is_for (cat key : string) (row : MonthRow) : bool :=
  (row_category row =? cat)
  && match row_month row with
     | Some m => m =? key
     | None => false
     end.

(** The total of a month and a category, in the words of the loop: the
    total of the last row for them, 0 without one. *)
Definition last_total (cat key : string) (rows : list MonthRow) : num :=
  fold_left
    (fun total row => if row_is_for cat key row then row_total row else total)
    rows zero.

Definition spec_monthly_data (rows : list MonthRow) : dict MonthTotals :=
  map (fun i =>
         (month_key i,
          {| month_income := last_total "income" (month_key i) rows;
             month_expense := last_total "expense" (month_key i) rows |}))
    (seq 1 12).

(** The twelve entries that the rows stand for. *)
Definition spec_month_entries (rows : list MonthRow) : list MonthEntry :=
  map (fun i =>
         {| entry_month := nth (i - 1) month_names EmptyString;
            entry_income := last_total "income" (month_key i) rows;
            entry_expenses := last_total "expense" (month_key i) rows |})
    (seq 1 12).

(** The loop over the rows reads the month of income and expense rows
    only: those rows need a month from 01 to 12. *)
Definition row_is_accepted (row : MonthRow) : bool :=
  negb (row_is_recorded row) || is_month_key (row_month row).

End Model.

End Ledger.

(* ================================================================== *)
(** * Sample inputs, on IEEE doubles and on exact rationals *)
(* ================================================================== *)

Module Samples.

Import PyStr PyDict Ledger.

(** [datetime.fromisoformat] on the four time stamps that the runs below
    pass to it (each run uses these stamps only). *)
Definition fromisoformat (s : string) : option datetime :=
  if s =? "2025-12-31T23:59:59" then Some {| year := 2025; month := 12 |}
  else if s =? "2026-01-15T09:30:00" then Some {| year := 2026; month := 1 |}
  else if s =? "2026-03-01T10:00:00" then Some {| year := 2026; month := 3 |}
  else if s =? "2026-06-30T18:45:00" then Some {| year := 2026; month := 6 |}
  else None.

Definition november_2026 : datetime := {| year := 2026; month := 11 |}.

(** A new thread, on doubles. *)
Definition new_state : @AgentState float :=
  set_thread_id "t1" (create_default_state "2026-01-01T00:00:00").

Definition transaction_of (id stamp : string) (x : float) (cat : string)
  : @Transaction float :=
  {| tx_id := id; timestamp := stamp; description := "entry";
     amount := x; account_from := "Checking"; account_to := "Other";
     category := cat; subcategory := None; cost_basis := None;
     asset_type := None; quantity := None; encrypted_data := None |}.

Definition account_of {num : Type} (n t : string) (b : num) : @Account num :=
  {| name := n; acc_type := t; balance := b; currency := "USD";
     updated_at := None |}.

Definition transfer_args {num : Type} (what : string) (x : num)
  (from_acc to_acc cat : string) : @AddTransactionArgs num :=
  {| arg_description := what; arg_amount := x;
     arg_account_from := from_acc; arg_account_to := to_acc;
     arg_category := cat; arg_subcategory := None; arg_cost_basis := None;
     arg_asset_type := None; arg_quantity := None |}.

Definition add_event {num : Type} (args : @AddTransactionArgs num)
  : @ToolCallEvent num :=
  {| call := CallAddTransaction args; call_uuid := "u1";
     call_utcnow := "2026-03-01T10:00:00" |}.

Definition dinner : @AddTransactionArgs float :=
  transfer_args "dinner" 50%float "Checking" "Dining" "expense".

Definition dinner_exact : @AddTransactionArgs Qc :=
  transfer_args "dinner" (Q2Qc 50) "Checking" "Dining" "expense".

Definition new_state_exact : @AgentState Qc :=
  set_thread_id "t1" (create_default_state "2026-01-01T00:00:00").

Definition to_itself : @AddTransactionArgs float :=
  transfer_args "move" 50%float "Checking" "Checking" "transfer".

Definition refund : @AddTransactionArgs float :=
  transfer_args "refund" (-5)%float "Checking" "Dining" "expense".

Definition nothing : @AddTransactionArgs float :=
  transfer_args "nothing" 0%float "Checking" "Dining" "expense".

Definition unbounded : @AddTransactionArgs float :=
  transfer_args "unbounded" infinity "Checking" "Dining" "expense".

(** A ledger of one account that holds 0.1, and a move of 1e20 out of
    it, to another account or to itself. *)
Definition tenth_state : @AgentState float :=
  set_accounts [ ("Checking", account_of "Checking" "asset" 0.1%float) ]
    new_state.

Definition large_move : @AddTransactionArgs float :=
  transfer_args "move" 1e20%float "Checking" "Savings" "transfer".

Definition large_move_to_itself : @AddTransactionArgs float :=
  transfer_args "move" 1e20%float "Checking" "Checking" "transfer".

(** A year with 10000 of income and 2000 of expenses, and entries that do
    not count: a transfer, an investment and an income of the year
    before. *)
Definition year_state : @AgentState float :=
  set_transactions
    [ transaction_of "a" "2026-01-15T09:30:00" 10000%float "income";
      transaction_of "b" "2026-03-01T10:00:00Z" 2000%float "expense";
      transaction_of "c" "2026-03-01T10:00:00" 50%float "transfer";
      transaction_of "d" "2026-06-30T18:45:00" 70%float "investment";
      transaction_of "e" "2025-12-31T23:59:59" 999%float "income" ]
    new_state.

Definition year_snapshot : @FinancialSnapshot float :=
  {| total_cash := 0%float; total_investments := 0%float;
     total_liabilities := 0%float; net_worth := 0%float;
     ytd_income := 10000%float; ytd_expenses := 2000%float;
     estimated_tax_liability := 2156%float;
     monthly_burn_rate := (2000 / 11)%float |}.

(** A ledger with cash, two investment accounts, a liability and an
    income account. *)
Definition mixed_state : @AgentState float :=
  set_accounts
    [ ("Checking", account_of "Checking" "asset" 1000%float);
      ("My STOCKS", account_of "My STOCKS" "asset" 500%float);
      ("Crypto Fund", account_of "Crypto Fund" "asset" 200%float);
      ("Amex", account_of "Amex" "liability" 300%float);
      ("Salary", account_of "Salary" "income" 0%float) ]
    new_state.

Definition mixed_snapshot : @FinancialSnapshot float :=
  {| total_cash := 1000%float; total_investments := 700%float;
     total_liabilities := 300%float; net_worth := 1400%float;
     ytd_income := 0%float; ytd_expenses := 0%float;
     estimated_tax_liability := 0%float; monthly_burn_rate := 0%float |}.

(** A card account in credit: a liability with a balance of -500. *)
Definition overpaid_state : @AgentState float :=
  set_accounts [ ("Amex", account_of "Amex" "liability" (-500)%float) ]
    new_state.

Definition complete_profile : @UserProfile float :=
  {| tax_residency := "UK"; filing_status := "Single"; dependents := 0;
     income_sources := ["salary"]; annual_income_estimate := 75000%float;
     retirement_accounts := ["none"]; investment_accounts := ["none"];
     primary_bank := "Chase"; setup_complete := true |}.

(** A thread whose setup is over, with the user's message appended. *)
Definition ready_state : @AgentState float :=
  set_messages [ {| role := "user"; content := "Paid $50 for dinner" |} ]
    (set_setup_step 8 (set_user_profile (Some complete_profile) new_state)).

(** A turn in which the model asks for the dinner transaction and then
    answers. *)
Definition dinner_turn : @TurnEnv float :=
  {| now := november_2026;
     utcnow := "2026-11-03T12:00:00";
     llm_first :=
       Some {| msg_content := ContentNull;
               tool_calls := [ add_event dinner ] |};
     llm_final :=
       Some {| msg_content := ContentText "Recorded."; tool_calls := [] |} |}.

Definition after_dinner : @AgentState float :=
  Eval vm_compute in
    match graph_invoke fromisoformat dinner_turn ready_state with
    | Some state => state
    | None => ready_state
    end.

(** A sync of January: one expense of 120. *)
Definition january_sync : @TurnEnv float :=
  {| now := {| year := 2026; month := 1 |};
     utcnow := "2026-01-20T10:00:00";
     llm_first := None; llm_final := None |}.

Definition january_batch : @SyncRequest float :=
  {| sync_thread_id := "t1";
     sync_transactions :=
       [ transaction_of "a" "2026-01-15T09:30:00" 120%float "expense" ];
     sync_accounts := [] |}.

(** The first chat message of the thread, in February. *)
Definition february_turn : @TurnEnv float :=
  {| now := {| year := 2026; month := 2 |};
     utcnow := "2026-02-10T09:00:00";
     llm_first := None; llm_final := None |}.

Definition february_message : MessageRequest :=
  {| chat_thread_id := "t1"; chat_message := "US - California" |}.

(** A batch that carries the same transaction twice. *)
Definition repeated_batch : @SyncRequest float :=
  {| sync_thread_id := "t1";
     sync_transactions :=
       [ transaction_of "a" "2026-01-15T09:30:00" 120%float "expense";
         transaction_of "a" "2026-01-15T09:30:00" 120%float "expense" ];
     sync_accounts := [] |}.

Definition after_january_sync : @AgentState float :=
  Eval vm_compute in
    match sync_merge fromisoformat january_sync new_state january_batch with
    | Some state => state
    | None => new_state
    end.


(** ** Calls of the snapshot calculator *)

Definition march_2026 : datetime := {| year := 2026; month := 3 |}.
Definition november_2027 : datetime := {| year := 2027; month := 11 |}.
Definition january_2026 : datetime := {| year := 2026; month := 1 |}.
Definition february_2026 : datetime := {| year := 2026; month := 2 |}.
Definition december_2026 : datetime := {| year := 2026; month := 12 |}.
Definition january_2027 : datetime := {| year := 2027; month := 1 |}.

(** The call on the ledger of the year, in November 2026. *)
Definition november_call : @World float string :=
  {| the_state := year_state;
     clock := fun _ => november_2026;
     clock_reads := 0;
     globals := "first process" |}.

(** Another call on the same ledger: other messages, another step,
    another process, and a clock that is read in March 2026 first and
    in November 2027 next. *)
Definition other_call : @World float string :=
  {| the_state :=
       set_last_updated "2026-11-02T07:00:00"
         (set_setup_step 3
            (set_messages [ {| role := "user"; content := "hello" |} ]
               year_state));
     clock := fun n => match n with
                       | O => march_2026
                       | _ => november_2027
                       end;
     clock_reads := 0;
     globals := "second process" |}.

(** Calls on the thread synced in January, at three clocks: one that
    stands in January 2026, one that stands in February 2026, and one
    that passes from December 2026 to January 2027 during the call. *)
Definition call_at (readings : nat -> datetime) : @World float string :=
  {| the_state := after_january_sync;
     clock := readings;
     clock_reads := 0;
     globals := "process" |}.

Definition over_new_year (n : nat) : datetime :=
  match n with
  | O => december_2026
  | _ => january_2027
  end.

(** ** A whole thread *)

(** A turn in which the model records a salary and asks for a report. *)
Definition paycheck_turn : @TurnEnv float :=
  {| now := november_2026;
     utcnow := "2026-11-03T12:05:00";
     llm_first :=
       Some {| msg_content := ContentNull;
               tool_calls :=
                 [ {| call :=
                        CallAddTransaction
                          (transfer_args "salary" 3000%float
                             "Salary" "Checking" "income");
                      call_uuid := "u2";
                      call_utcnow := "2026-06-30T18:45:00" |};
                   {| call := CallOther "generate_report";
                      call_uuid := "u3";
                      call_utcnow := "2026-06-30T18:45:00" |} ] |};
     llm_final :=
       Some {| msg_content := ContentText "Salary recorded.";
               tool_calls := [] |} |}.

(** A turn in which the model sets Checking to the balance of the bank
    statement and then records a lunch. *)
Definition reconcile_turn : @TurnEnv float :=
  {| now := november_2026;
     utcnow := "2026-11-03T12:10:00";
     llm_first :=
       Some {| msg_content := ContentNull;
               tool_calls :=
                 [ {| call :=
                        CallUpdateBalance
                          {| arg_account_name := "Checking";
                             arg_new_balance := 1000%float;
                             arg_account_type := None;
                             arg_currency := None |};
                      call_uuid := "u4";
                      call_utcnow := "2026-06-30T18:45:00" |};
                   {| call :=
                        CallAddTransaction
                          (transfer_args "lunch" 25%float
                             "Checking" "Dining" "expense");
                      call_uuid := "u5";
                      call_utcnow := "2026-06-30T18:45:00" |} ] |};
     llm_final :=
       Some {| msg_content := ContentText "Done."; tool_calls := [] |} |}.

Definition after_reconcile : @AgentState float :=
  Eval vm_compute in
    match process_message fromisoformat reconcile_turn after_dinner with
    | Some state => state
    | None => after_dinner
    end.

Definition after_paycheck : @AgentState float :=
  Eval vm_compute in
    match graph_invoke fromisoformat paycheck_turn after_dinner with
    | Some state => state
    | None => after_dinner
    end.

Definition eight_answers : list string :=
  [ "US - California"; "Single"; "none"; "W-2 employment, investments";
    "75000"; "401k, IRA"; "none"; "Chase" ].

(** Eight answers, then the dinner and the salary. *)
Definition thread_turns : list (@TurnEnv float * string) :=
  map (fun a => (february_turn, a)) eight_answers
  ++ [ (dinner_turn, "Paid $50 for dinner");
       (paycheck_turn, "Got my salary") ].

Definition thread_state : @AgentState float :=
  Eval vm_compute in
    match conversation fromisoformat "t1" thread_turns with
    | Some state => state
    | None => new_state
    end.

(** The same thread in exact arithmetic. *)
Definition answer_turn_exact : @TurnEnv Qc :=
  {| now := {| year := 2026; month := 2 |};
     utcnow := "2026-02-10T09:00:00";
     llm_first := None; llm_final := None |}.

Definition dinner_turn_exact : @TurnEnv Qc :=
  {| now := november_2026;
     utcnow := "2026-11-03T12:00:00";
     llm_first :=
       Some {| msg_content := ContentNull;
               tool_calls := [ add_event dinner_exact ] |};
     llm_final :=
       Some {| msg_content := ContentText "Recorded."; tool_calls := [] |} |}.

Definition paycheck_turn_exact : @TurnEnv Qc :=
  {| now := november_2026;
     utcnow := "2026-11-03T12:05:00";
     llm_first :=
       Some {| msg_content := ContentNull;
               tool_calls :=
                 [ {| call :=
                        CallAddTransaction
                          (transfer_args "salary" (Q2Qc 3000)
                             "Salary" "Checking" "income");
                      call_uuid := "u2";
                      call_utcnow := "2026-06-30T18:45:00" |} ] |};
     llm_final :=
       Some {| msg_content := ContentText "Salary recorded.";
               tool_calls := [] |} |}.

Definition thread_turns_exact : list (@TurnEnv Qc * string) :=
  map (fun a => (answer_turn_exact, a)) eight_answers
  ++ [ (dinner_turn_exact, "Paid $50 for dinner");
       (paycheck_turn_exact, "Got my salary") ].

(** ** A chat request on a complete thread *)

Definition dinner_request : MessageRequest :=
  {| chat_thread_id := "t1"; chat_message := "Paid $50 for dinner" |}.

Definition complete_thread : @AgentState float :=
  set_setup_step 8 (set_user_profile (Some complete_profile) new_state).

Definition after_dinner_request : @AgentState float :=
  Eval vm_compute in
    match chat fromisoformat dinner_turn (Some complete_thread) dinner_request
    with
    | Some state => state
    | None => complete_thread
    end.

(** ** A sync with accounts *)

(** A sync that sends the bank's balance of Checking and a new card. *)
Definition march_batch : @SyncRequest float :=
  {| sync_thread_id := "t1";
     sync_transactions :=
       [ transaction_of "m1" "2026-03-01T10:00:00" 30%float "expense" ];
     sync_accounts :=
       [ ("Checking", account_of "Checking" "asset" 900%float);
         ("Amex", account_of "Amex" "liability" 300%float) ] |}.

(** A sync that sends again the transaction stored in January, with a
    time stamp that is no date, and nothing else. *)
Definition resent_batch : @SyncRequest float :=
  {| sync_thread_id := "t1";
     sync_transactions :=
       [ transaction_of "a" "yesterday" 120%float "expense" ];
     sync_accounts := [] |}.

Definition nothing_new : @SyncRequest float :=
  {| sync_thread_id := "t1"; sync_transactions := []; sync_accounts := [] |}.

(** A ledger with an asset stored under STOC and the Kelvin sign, which
    [str.lower] turns into k. *)
Definition kelvin_state : @AgentState float :=
  set_accounts
    [ ("STOCK", account_of "STOCK" "asset" 40%float);
      ("Checking", account_of "Checking" "asset" 2%float) ]
    new_state.

Definition after_march_sync : @AgentState float :=
  Eval vm_compute in
    match sync_merge fromisoformat january_sync after_dinner march_batch with
    | Some state => state
    | None => after_dinner
    end.

End Samples.

(* ================================================================== *)
(** * Properties *)
(* ================================================================== *)

Module LedgerFacts.

Import PyStr PyDict Ledger.
Local Open Scope num_scope.

Section Facts.

Context {num : Type} `{Number num}.

Variable fromisoformat : string -> option datetime.

(** The model at this arithmetic and this reading of ISO dates. *)
Local Abbreviation Transaction := (@Ledger.Transaction num).
Local Abbreviation Account := (@Ledger.Account num).
Local Abbreviation UserProfile := (@Ledger.UserProfile num).
Local Abbreviation FinancialSnapshot := (@Ledger.FinancialSnapshot num).
Local Abbreviation AgentState := (@Ledger.AgentState num).
Local Abbreviation AddTransactionArgs := (@Ledger.AddTransactionArgs num).
Local Abbreviation TurnEnv := (@Ledger.TurnEnv num).
Local Abbreviation SyncRequest := (@Ledger.SyncRequest num).
Local Abbreviation transaction_step := (Ledger.transaction_step fromisoformat).
Local Abbreviation calculate_snapshot := (Ledger.calculate_snapshot fromisoformat).
Local Abbreviation calculate_snapshot_call :=
  (Ledger.calculate_snapshot_call fromisoformat).
Local Abbreviation dated_in := (Ledger.dated_in fromisoformat).
Local Abbreviation spec_ytd_total := (Ledger.spec_ytd_total fromisoformat).
Local Abbreviation process_message := (Ledger.process_message fromisoformat).
Local Abbreviation graph_invoke := (Ledger.graph_invoke fromisoformat).
Local Abbreviation chat := (Ledger.chat fromisoformat).
Local Abbreviation chat_request := (Ledger.chat_request fromisoformat).
Local Abbreviation conversation := (Ledger.conversation fromisoformat).
Local Abbreviation sync_merge := (Ledger.sync_merge fromisoformat).
Local Abbreviation sync_data := (Ledger.sync_data fromisoformat).

(* ================================================================== *)
(** * Properties of the snapshot calculator *)
(* ================================================================== *)

Lemma asset_is_not_liability : forall t : string,
  (t =? "asset") = true -> (t =? "liability") = false.
Proof.
  intros t Ht. apply String.eqb_eq in Ht. subst t. reflexivity.
Qed.

Lemma income_is_not_expense : forall c : string,
  (c =? "income") = true -> (c =? "expense") = false.
Proof.
  intros c Hc. apply String.eqb_eq in Hc. subst c. reflexivity.
Qed.

(** The loop over the accounts keeps three running totals, one per class. *)
Lemma account_loop_totals : forall (d : dict Account) (c i l : num),
  fold_left account_step d (c, i, l)
  = (fold_left num_add
       (map (fun item => balance (snd item)) (filter is_cash_account d)) c,
     fold_left num_add
       (map (fun item => balance (snd item)) (filter is_investment_account d)) i,
     fold_left num_add
       (map (fun item => balance (snd item)) (filter is_liability_account d)) l).
Proof.
  induction d as [|[k a] d IH]; intros c i l; [reflexivity|].
  cbn [fold_left filter]. unfold account_step at 2.
  unfold is_cash_account, is_investment_account, is_liability_account.
  cbn [fst snd].
  destruct (acc_type a =? "asset") eqn:Hasset.
  - rewrite (asset_is_not_liability _ Hasset).
    destruct (is_investment_name k); cbn [andb negb map fold_left]; apply IH.
  - destruct (acc_type a =? "liability");
      cbn [andb negb map fold_left]; apply IH.
Qed.

Lemma transaction_loop_raises : forall (y : Z) (txs : list Transaction),
  fold_left (transaction_step y) txs None = None.
Proof.
  induction txs as [|tx txs IH]; [reflexivity | exact IH].
Qed.

(** The loop over the transactions keeps two running totals, of the
    income and of the expenses dated in the year. *)
Lemma transaction_loop_totals :
  forall (y : Z) (txs : list Transaction) (i e i' e' : num),
  fold_left (transaction_step y) txs (Some (i, e)) = Some (i', e') ->
  i' = fold_left num_add
         (map amount
            (filter (fun tx => dated_in y tx && (category tx =? "income")) txs))
         i
  /\ e' = fold_left num_add
            (map amount
               (filter (fun tx => dated_in y tx && (category tx =? "expense"))
                  txs))
            e.
Proof.
  induction txs as [|tx txs IH]; intros i e i' e' Hrun.
  - inversion Hrun. split; reflexivity.
  - cbn [fold_left filter] in *. unfold Ledger.transaction_step at 2 in Hrun.
    unfold Ledger.dated_in.
    destruct (fromisoformat (remove_char "Z" (timestamp tx))) as [d|].
    2: { rewrite transaction_loop_raises in Hrun. discriminate. }
    destruct (year d =? y)%Z.
    + destruct (category tx =? "income") eqn:Hinc.
      * rewrite (income_is_not_expense _ Hinc).
        cbn [andb map fold_left]. apply IH. exact Hrun.
      * destruct (category tx =? "expense");
          cbn [andb map fold_left]; apply IH; exact Hrun.
    + cbn [andb]. apply IH. exact Hrun.
Qed.

(** The loop over the transactions ends normally exactly when every time
    stamp is an ISO date. *)
Lemma transaction_loop_returns :
  forall (y : Z) (txs : list Transaction) (acc : num * num),
  Forall (fun tx => fromisoformat (remove_char "Z" (timestamp tx)) <> None) txs ->
  exists totals, fold_left (transaction_step y) txs (Some acc) = Some totals.
Proof.
  induction txs as [|tx txs IH]; intros [i e] Hall.
  - eexists. reflexivity.
  - inversion Hall as [|? ? Htx Hrest]; subst.
    cbn [fold_left]. unfold Ledger.transaction_step at 2.
    destruct (fromisoformat (remove_char "Z" (timestamp tx))) as [d|];
      [|contradiction].
    destruct (year d =? y)%Z; [|apply IH; exact Hrest].
    destruct (category tx =? "income"); [apply IH; exact Hrest|].
    destruct (category tx =? "expense"); apply IH; exact Hrest.
Qed.

(** Every field of a returned snapshot, in terms of the ledger and the
    clock. *)
Lemma calculate_snapshot_fields :
  forall (now : datetime) (state : AgentState) (snap : FinancialSnapshot),
  calculate_snapshot now state = Some snap ->
  total_cash snap = spec_total is_cash_account (accounts state)
  /\ total_investments snap = spec_total is_investment_account (accounts state)
  /\ total_liabilities snap = spec_total is_liability_account (accounts state)
  /\ net_worth snap
     = total_cash snap + total_investments snap - total_liabilities snap
  /\ ytd_income snap = spec_ytd_total (year now) "income" (transactions state)
  /\ ytd_expenses snap = spec_ytd_total (year now) "expense" (transactions state)
  /\ estimated_tax_liability snap
     = (let taxable := ytd_income snap - ytd_expenses snap * num_of_decimal 1 1 in
        if taxable >? zero then taxable * num_of_decimal 22 2 else zero)
  /\ monthly_burn_rate snap
     = ytd_expenses snap / num_of_Z (Z.max 1 (month now)).
Proof.
  intros now state snap Hsnap. unfold Ledger.calculate_snapshot in Hsnap.
  unfold items in Hsnap. rewrite account_loop_totals in Hsnap.
  destruct (fold_left (transaction_step (year now)) (transactions state)
              (Some (zero, zero))) as [[i e]|] eqn:Hloop; [|discriminate].
  apply transaction_loop_totals in Hloop. destruct Hloop as [Hi He].
  inversion Hsnap; subst snap; clear Hsnap. cbn.
  unfold spec_total, Ledger.spec_ytd_total, running_total.
  rewrite <- Hi, <- He. repeat split; reflexivity.
Qed.

(** The snapshot is returned whenever every time stamp of the history is
    an ISO date. *)
Lemma calculate_snapshot_returns :
  forall (now : datetime) (state : AgentState),
  Forall (fun tx => fromisoformat (remove_char "Z" (timestamp tx)) <> None)
    (transactions state) ->
  exists snap, calculate_snapshot now state = Some snap.
Proof.
  intros now state Hall. unfold Ledger.calculate_snapshot.
  destruct (fold_left account_step (items (accounts state)) (zero, zero, zero))
    as [[c i] l].
  destruct (transaction_loop_returns (year now) _ (zero, zero) Hall)
    as [[yi ye] Hrun].
  rewrite Hrun. eexists. reflexivity.
Qed.

(** The snapshot reads the accounts, the transactions and the clock, and
    nothing else of the state. *)
Lemma calculate_snapshot_reads_ledger :
  forall (now : datetime) (s1 s2 : AgentState),
  accounts s1 = accounts s2 ->
  transactions s1 = transactions s2 ->
  calculate_snapshot now s1 = calculate_snapshot now s2.
Proof.
  intros now s1 s2 Hacc Htx. unfold Ledger.calculate_snapshot.
  rewrite Hacc, Htx. reflexivity.
Qed.

(** C3. The tax estimate of a snapshot is 22% of
    [taxable = ytd_income - ytd_expenses * 0.1] when [taxable > 0] and 0
    otherwise; in particular it is 0 whenever [taxable] is not positive.
    (The worked figure, 10000 and 2000 giving 2156.0, is the run
    [Runs.tax_estimate_of_10000_and_2000] on doubles.) *)
Theorem tax_estimate_formula :
  forall (now : datetime) (state : AgentState) (snap : FinancialSnapshot),
  calculate_snapshot now state = Some snap ->
  let taxable := ytd_income snap - ytd_expenses snap * num_of_decimal 1 1 in
  estimated_tax_liability snap
  = (if taxable >? zero then taxable * num_of_decimal 22 2 else zero)
  /\ ((taxable >? zero) = false -> estimated_tax_liability snap = zero).
Proof.
  intros now state snap Hsnap taxable.
  destruct (calculate_snapshot_fields _ _ _ Hsnap)
    as (_ & _ & _ & _ & _ & _ & Htax & _).
  split.
  - exact Htax.
  - intros Hneg. rewrite Htax. unfold taxable in Hneg. cbv zeta.
    rewrite Hneg. reflexivity.
Qed.

(** A transaction of another year, or of a category that is neither
    income nor expense, leaves the running totals as they are. *)
Lemma transaction_step_skips :
  forall (y : Z) (tx : Transaction) (d : datetime) (acc : num * num),
  fromisoformat (remove_char "Z" (timestamp tx)) = Some d ->
  year d <> y \/ (category tx <> "income" /\ category tx <> "expense") ->
  transaction_step y (Some acc) tx = Some acc.
Proof.
  intros y tx d [i e] Hd Hskip. unfold Ledger.transaction_step. rewrite Hd.
  destruct (year d =? y)%Z eqn:Hy; [|reflexivity].
  apply Z.eqb_eq in Hy.
  destruct Hskip as [Hyear|[Hinc Hexp]]; [contradiction|].
  apply String.eqb_neq in Hinc, Hexp. rewrite Hinc, Hexp. reflexivity.
Qed.

Lemma transaction_loop_prefix :
  forall (y : Z) (txs1 txs2 : list Transaction) (acc : option (num * num))
         (totals : num * num),
  fold_left (transaction_step y) (txs1 ++ txs2) acc = Some totals ->
  exists mid, fold_left (transaction_step y) txs1 acc = Some mid.
Proof.
  intros y txs1 txs2 acc totals Hrun. rewrite fold_left_app in Hrun.
  destruct (fold_left (transaction_step y) txs1 acc) as [mid|].
  - exists mid. reflexivity.
  - rewrite transaction_loop_raises in Hrun. discriminate.
Qed.

(** C4. In a returned snapshot, [ytd_income] is the running total of the
    amounts of exactly the transactions dated in the year of the clock
    whose category is income, and [ytd_expenses] likewise for expense; a
    transaction of a prior (or any other) year, and a transaction whose
    category is transfer, investment or anything but income and expense,
    counts in neither: without it the snapshot is the same. *)
Theorem ytd_totals_by_year_and_category :
  forall (now : datetime) (state : AgentState) (snap : FinancialSnapshot),
  calculate_snapshot now state = Some snap ->
  ytd_income snap = spec_ytd_total (year now) "income" (transactions state)
  /\ ytd_expenses snap
     = spec_ytd_total (year now) "expense" (transactions state)
  /\ (forall (txs1 txs2 : list Transaction) (tx : Transaction),
        transactions state = txs1 ++ tx :: txs2 ->
        dated_in (year now) tx = false
        \/ (category tx <> "income" /\ category tx <> "expense") ->
        calculate_snapshot now (set_transactions (txs1 ++ txs2) state)
        = Some snap).
Proof.
  intros now state snap Hsnap.
  destruct (calculate_snapshot_fields _ _ _ Hsnap)
    as (_ & _ & _ & _ & Hinc & Hexp & _).
  split; [exact Hinc|]. split; [exact Hexp|].
  intros txs1 txs2 tx Hsplit Hskip.
  rewrite <- Hsnap. unfold Ledger.calculate_snapshot. cbn [accounts transactions set_transactions].
  rewrite Hsplit.
  assert (Hsame :
    fold_left (transaction_step (year now)) (txs1 ++ tx :: txs2)
      (Some (zero, zero))
    = fold_left (transaction_step (year now)) (txs1 ++ txs2)
        (Some (zero, zero))).
  { unfold Ledger.calculate_snapshot in Hsnap. rewrite Hsplit in Hsnap.
    destruct (fold_left account_step (items (accounts state))
                (zero, zero, zero)) as [[c i] l].
    destruct (fold_left (transaction_step (year now)) (txs1 ++ tx :: txs2)
                (Some (zero, zero))) as [totals|] eqn:Hrun; [|discriminate].
    rewrite <- Hrun. rewrite !fold_left_app.
    destruct (transaction_loop_prefix _ _ _ _ _ Hrun) as [[mi me] Hmid].
    rewrite Hmid. cbn [fold_left].
    rewrite fold_left_app, Hmid in Hrun. cbn [fold_left] in Hrun.
    destruct (fromisoformat (remove_char "Z" (timestamp tx))) as [d|] eqn:Hd.
    - rewrite (transaction_step_skips _ _ d (mi, me) Hd); [reflexivity|].
      destruct Hskip as [Hyear|Hcat]; [left|right; exact Hcat].
      unfold Ledger.dated_in in Hyear. rewrite Hd in Hyear.
      apply Z.eqb_neq. exact Hyear.
    - unfold Ledger.transaction_step at 2 in Hrun. rewrite Hd in Hrun.
      rewrite transaction_loop_raises in Hrun. discriminate. }
  rewrite Hsame. reflexivity.
Qed.

(** The call at a clock that gives the same reading twice is the
    function [calculate_snapshot] at that reading. *)
Lemma calculate_snapshot_call_at :
  forall (Globals : Type) (w : @World num Globals) (now : datetime),
  clock w (clock_reads w) = now ->
  clock w (S (clock_reads w)) = now ->
  fst (calculate_snapshot_call w) = calculate_snapshot now (the_state w).
Proof.
  intros Globals w now Hbefore Hafter.
  unfold Ledger.calculate_snapshot_call, Ledger.calculate_snapshot, datetime_now.
  cbn [the_state clock clock_reads globals]. rewrite Hbefore.
  destruct (fold_left account_step (items (accounts (the_state w)))
              (zero, zero, zero)) as [[c i] l].
  destruct (fold_left (transaction_step (year now))
              (transactions (the_state w)) (Some (zero, zero)))
    as [[yi ye]|]; [|reflexivity].
  cbn [the_state clock clock_reads globals fst]. rewrite Hafter. reflexivity.
Qed.

(** C7, as the code has it.  [calculate_snapshot] has no parameter for
    the date: it reads the system clock itself, for the year before the
    loops and for the month after them.  Its result is determined by the
    accounts and the transactions of the state and by those two
    readings: two calls on states with the same ledger, at clocks whose
    first readings agree on the year and whose second readings agree on
    the month, return the same result (the same snapshot, or the same
    failure), whatever the rest of the state, the rest of the process
    and the later readings are.  The call writes nothing: the state and
    the rest of the process are as before, and the clock has been read
    twice when a snapshot is returned, once when the call raises.  At a
    clock that gives one date at both readings the result is
    [calculate_snapshot] at that date. *)
Theorem snapshot_call_reads_ledger_and_clock :
  forall (Globals : Type) (w1 w2 : @World num Globals),
  accounts (the_state w1) = accounts (the_state w2) ->
  transactions (the_state w1) = transactions (the_state w2) ->
  year (clock w1 (clock_reads w1)) = year (clock w2 (clock_reads w2)) ->
  month (clock w1 (S (clock_reads w1)))
  = month (clock w2 (S (clock_reads w2))) ->
  fst (calculate_snapshot_call w1) = fst (calculate_snapshot_call w2)
  /\ the_state (snd (calculate_snapshot_call w1)) = the_state w1
  /\ globals (snd (calculate_snapshot_call w1)) = globals w1
  /\ clock (snd (calculate_snapshot_call w1)) = clock w1
  /\ clock_reads (snd (calculate_snapshot_call w1))
     = (match fst (calculate_snapshot_call w1) with
        | Some _ => 2
        | None => 1
        end + clock_reads w1)%nat
  /\ (forall now : datetime,
        clock w1 (clock_reads w1) = now ->
        clock w1 (S (clock_reads w1)) = now ->
        fst (calculate_snapshot_call w1)
        = calculate_snapshot now (the_state w1)).
Proof.
  intros Globals w1 w2 Hacc Htx Hyear Hmonth.
  assert (Hcall :
    fst (calculate_snapshot_call w1) = fst (calculate_snapshot_call w2)
    /\ the_state (snd (calculate_snapshot_call w1)) = the_state w1
    /\ globals (snd (calculate_snapshot_call w1)) = globals w1
    /\ clock (snd (calculate_snapshot_call w1)) = clock w1
    /\ clock_reads (snd (calculate_snapshot_call w1))
       = (match fst (calculate_snapshot_call w1) with
          | Some _ => 2
          | None => 1
          end + clock_reads w1)%nat).
  { unfold Ledger.calculate_snapshot_call, datetime_now.
    cbn [the_state clock clock_reads globals].
    rewrite <- Hacc, <- Htx, <- Hyear.
    destruct (fold_left account_step (items (accounts (the_state w1)))
                (zero, zero, zero)) as [[c i] l].
    destruct (fold_left (transaction_step (year (clock w1 (clock_reads w1))))
                (transactions (the_state w1)) (Some (zero, zero)))
      as [[yi ye]|];
      cbn [the_state clock clock_reads globals fst snd].
    - rewrite Hmonth. repeat split; reflexivity.
    - repeat split; reflexivity. }
  destruct Hcall as (Hsame & Hstate & Hglobals & Hclock & Hreads).
  repeat split; try assumption.
  intros now Hbefore Hafter. apply calculate_snapshot_call_at; assumption.
Qed.

(** C8, as the code has it.  An asset account goes to [total_investments]
    exactly when the name it is stored under contains invest, stock or
    crypto in any letter case, and to [total_cash] otherwise; the balance
    of every liability account is added to [total_liabilities] as it
    stands, with its sign; and [net_worth] is cash plus investments minus
    liabilities. *)
Theorem snapshot_classification :
  forall (now : datetime) (state : AgentState) (snap : FinancialSnapshot),
  calculate_snapshot now state = Some snap ->
  total_investments snap = spec_total is_investment_account (accounts state)
  /\ total_cash snap = spec_total is_cash_account (accounts state)
  /\ total_liabilities snap
     = spec_total is_liability_account (accounts state)
  /\ net_worth snap
     = total_cash snap + total_investments snap - total_liabilities snap.
Proof.
  intros now state snap Hsnap.
  destruct (calculate_snapshot_fields _ _ _ Hsnap)
    as (Hcash & Hinv & Hliab & Hnet & _).
  repeat split; assumption.
Qed.

(* ================================================================== *)
(** * Properties of the setup wizard *)
(* ================================================================== *)

Lemma set_messages_same : forall state : AgentState,
  set_messages (messages state) state = state.
Proof.
  intros []. reflexivity.
Qed.

(** C10. Once [setup_step] has reached the number of questions, the
    wizard returns the state as it was: no message, no change of the
    profile or of the step. *)
Theorem handle_setup_after_completion :
  forall state : AgentState,
  (8 <= setup_step state)%nat ->
  handle_setup state = state.
Proof.
  intros state Hstep. unfold handle_setup.
  replace (setup_step state <? List.length SETUP_QUESTIONS)%nat with false.
  - apply set_messages_same.
  - symmetry. apply Nat.ltb_ge. exact Hstep.
Qed.

(** ** The parsers of the answers *)

Lemma list_ascii_app : forall a b : string,
  list_ascii_of_string (a ++ b)%string
  = list_ascii_of_string a ++ list_ascii_of_string b.
Proof.
  induction a as [|c a IH]; intros b; [reflexivity|].
  cbn. rewrite IH. reflexivity.
Qed.

Lemma length_list_ascii : forall s : string,
  List.length (list_ascii_of_string s) = String.length s.
Proof.
  induction s as [|c s IH]; [reflexivity|]. cbn. rewrite IH. reflexivity.
Qed.

Lemma string_length_app : forall a b : string,
  String.length (a ++ b)%string = (String.length a + String.length b)%nat.
Proof.
  induction a as [|c a IH]; intros b; [reflexivity|].
  cbn. rewrite IH. reflexivity.
Qed.

Lemma all_digits_cons : forall (c : ascii) (s : string),
  all_digits (String c s) = is_digit c && all_digits s.
Proof.
  reflexivity.
Qed.

Lemma no_digit_cons : forall (c : ascii) (s : string),
  no_digit (String c s) = negb (is_digit c) && no_digit s.
Proof.
  reflexivity.
Qed.

(** The value of a run of digits read from the left is its positional
    value. *)
Lemma fold_digits_positional : forall (s : string) (acc : Z),
  fold_left (fun acc c => (10 * acc + digit_value c)%Z)
    (list_ascii_of_string s) acc
  = (acc * 10 ^ Z.of_nat (String.length s) + positional_value s)%Z.
Proof.
  induction s as [|c s IH]; intros acc.
  - cbn. ring.
  - cbn [list_ascii_of_string fold_left positional_value String.length].
    rewrite IH, Nat2Z.inj_succ, Z.pow_succ_r by apply Nat2Z.is_nonneg.
    ring.
Qed.

Lemma digits_value_positional : forall s : string,
  digits_value s = positional_value s.
Proof.
  intros s. unfold digits_value. rewrite fold_digits_positional. ring.
Qed.

Lemma re_search_no_digit : forall s : string,
  no_digit s = true -> re_search_digits s = None.
Proof.
  induction s as [|c s IH]; [reflexivity|].
  rewrite no_digit_cons. intros Hno. apply andb_true_iff in Hno.
  destruct Hno as [Hc Hs]. cbn [re_search_digits].
  destruct (is_digit c); [discriminate | exact (IH Hs)].
Qed.

Lemma take_digits_app : forall digits rest : string,
  all_digits digits = true ->
  starts_with_digit rest = false ->
  take_digits (digits ++ rest) = digits.
Proof.
  induction digits as [|c digits IH]; intros rest Hall Hrest.
  - destruct rest as [|d rest]; [reflexivity|].
    cbn in *. rewrite Hrest. reflexivity.
  - rewrite all_digits_cons in Hall. apply andb_true_iff in Hall.
    destruct Hall as [Hc Hall]. cbn [append take_digits]. rewrite Hc.
    rewrite (IH rest Hall Hrest). reflexivity.
Qed.

Lemma re_search_found : forall before digits rest : string,
  no_digit before = true ->
  digits <> EmptyString ->
  all_digits digits = true ->
  starts_with_digit rest = false ->
  re_search_digits (before ++ digits ++ rest) = Some digits.
Proof.
  induction before as [|c before IH]; intros digits rest Hno Hne Hall Hrest.
  - cbn [append]. destruct digits as [|d digits]; [contradiction|].
    pose proof Hall as Hd. rewrite all_digits_cons in Hd.
    apply andb_true_iff in Hd. destruct Hd as [Hd _].
    change ((String d digits ++ rest)%string)
      with (String d (digits ++ rest)%string).
    cbn [re_search_digits]. rewrite Hd.
    change (String d (digits ++ rest)%string)
      with ((String d digits ++ rest)%string).
    rewrite (take_digits_app _ _ Hall Hrest). reflexivity.
  - rewrite no_digit_cons in Hno. apply andb_true_iff in Hno.
    destruct Hno as [Hc Hno]. cbn [append re_search_digits].
    destruct (is_digit c); [discriminate|].
    apply IH; assumption.
Qed.

(** The dependents that the wizard stores are the first integer of the
    answer. *)
Lemma parse_dependents_first_integer : forall answer : string,
  first_integer answer (parse_dependents answer).
Proof.
  intros answer. split.
  - intros Hno. unfold parse_dependents.
    rewrite (re_search_no_digit _ Hno). reflexivity.
  - intros before digits rest Hanswer Hno Hne Hall Hrest. subst answer.
    unfold parse_dependents.
    rewrite (re_search_found _ _ _ Hno Hne Hall Hrest).
    unfold py_int. destruct digits as [|d digits]; [contradiction|].
    rewrite Hall.
    destruct (int_max_str_digits <? String.length (String d digits))%nat;
      [reflexivity | apply digits_value_positional].
Qed.

Lemma re_sub_numeric_part : forall s : string,
  re_sub_non_numeric s = numeric_part s.
Proof.
  induction s as [|c s IH]; [reflexivity|].
  unfold numeric_part in *. cbn [re_sub_non_numeric list_ascii_of_string filter].
  unfold is_numeric_char at 1.
  destruct (is_digit c || Ascii.eqb c "."); cbn [string_of_list_ascii];
    rewrite IH; reflexivity.
Qed.

Lemma take_digits_all : forall s : string,
  all_digits s = true -> take_digits s = s.
Proof.
  induction s as [|c s IH]; intros Hall; [reflexivity|].
  rewrite all_digits_cons in Hall. apply andb_true_iff in Hall.
  destruct Hall as [Hc Hall]. cbn [take_digits].
  rewrite Hc, (IH Hall). reflexivity.
Qed.

Lemma substring_all : forall s : string,
  substring 0 (String.length s) s = s.
Proof.
  induction s as [|c s IH]; [reflexivity|]. cbn. rewrite IH. reflexivity.
Qed.

Lemma substring_after : forall a b : string,
  substring (String.length a)
    (String.length (a ++ b)%string - String.length a) (a ++ b)%string
  = b.
Proof.
  induction a as [|c a IH]; intros b.
  - cbn [append String.length]. rewrite Nat.sub_0_r. apply substring_all.
  - cbn [append String.length substring]. rewrite Nat.sub_succ. apply IH.
Qed.

Lemma decimal_of_digits : forall s : string,
  s <> EmptyString -> all_digits s = true ->
  decimal_of_string s = Some (positional_value s, 0%nat).
Proof.
  intros s Hne Hall. unfold decimal_of_string.
  rewrite (take_digits_all s Hall).
  replace (substring (String.length s) (String.length s - String.length s) s)
    with EmptyString.
  - destruct s as [|c s]; [contradiction|].
    rewrite digits_value_positional. reflexivity.
  - pose proof (substring_after s EmptyString) as Hsub.
    assert (Hnil : (s ++ EmptyString)%string = s).
    { clear. induction s as [|c s IH]; [reflexivity|].
      cbn. rewrite IH. reflexivity. }
    rewrite Hnil in Hsub. symmetry. exact Hsub.
Qed.

Lemma decimal_of_whole_and_fraction : forall whole fraction : string,
  all_digits whole = true -> all_digits fraction = true ->
  (whole ++ fraction)%string <> EmptyString ->
  decimal_of_string (whole ++ "." ++ fraction)
  = Some (positional_value (whole ++ fraction)%string,
          String.length fraction).
Proof.
  intros whole fraction Hwhole Hfraction Hne. unfold decimal_of_string.
  rewrite (take_digits_app whole ("." ++ fraction) Hwhole eq_refl).
  rewrite substring_after.
  change ("." ++ fraction)%string with (String "." fraction).
  cbn [Ascii.eqb Bool.eqb andb]. rewrite Hfraction. cbn [andb].
  assert (Hlen : (String.length whole + String.length fraction =? 0)%nat
                 = false).
  { apply Nat.eqb_neq. intros Hzero.
    destruct whole; [|discriminate]. destruct fraction; [|discriminate].
    apply Hne. reflexivity. }
  rewrite Hlen. cbn [negb]. rewrite digits_value_positional. reflexivity.
Qed.

Lemma take_drop_digits : forall s : string,
  s = (take_digits s ++ drop_digits s)%string.
Proof.
  induction s as [|c s IH]; [reflexivity|].
  cbn [take_digits drop_digits]. destruct (is_digit c); [|reflexivity].
  cbn [append]. rewrite <- IH. reflexivity.
Qed.

Lemma all_digits_take : forall s : string,
  all_digits (take_digits s) = true.
Proof.
  induction s as [|c s IH]; [reflexivity|].
  cbn [take_digits]. destruct (is_digit c) eqn:Hc; [|reflexivity].
  rewrite all_digits_cons, Hc, IH. reflexivity.
Qed.

Lemma drop_digits_head : forall s : string,
  starts_with_digit (drop_digits s) = false.
Proof.
  induction s as [|c s IH]; [reflexivity|].
  cbn [drop_digits]. destruct (is_digit c) eqn:Hc; [exact IH|].
  cbn. exact Hc.
Qed.

Lemma substring_drop_digits : forall s : string,
  substring (String.length (take_digits s))
    (String.length s - String.length (take_digits s)) s
  = drop_digits s.
Proof.
  induction s as [|c s IH]; [reflexivity|].
  cbn [take_digits drop_digits]. destruct (is_digit c).
  - cbn [String.length substring]. rewrite Nat.sub_succ. exact IH.
  - cbn [String.length]. rewrite Nat.sub_0_r.
    apply (substring_all (String c s)).
Qed.

Lemma no_digit_app : forall a b : string,
  no_digit (a ++ b) = no_digit a && no_digit b.
Proof.
  intros a b. unfold no_digit. rewrite list_ascii_app. apply forallb_app.
Qed.

Lemma count_dots_app : forall a b : string,
  count_dots (a ++ b) = (count_dots a + count_dots b)%nat.
Proof.
  intros a b. unfold count_dots.
  rewrite list_ascii_app, filter_app. apply length_app.
Qed.

Lemma count_dots_digits : forall s : string,
  all_digits s = true -> count_dots s = 0%nat.
Proof.
  induction s as [|c s IH]; [reflexivity|].
  rewrite all_digits_cons. intros Hall. apply andb_true_iff in Hall.
  destruct Hall as [Hc Hall]. unfold count_dots in *.
  cbn [list_ascii_of_string filter].
  destruct (Ascii.eqb_spec "."%char c) as [Heq|_]; [|exact (IH Hall)].
  subst c. discriminate Hc.
Qed.

Lemma no_digit_digits : forall s : string,
  s <> EmptyString -> all_digits s = true -> no_digit s = false.
Proof.
  intros [|c s] Hne Hall; [contradiction|].
  rewrite all_digits_cons in Hall. apply andb_true_iff in Hall.
  rewrite no_digit_cons. destruct Hall as [Hc _]. rewrite Hc. reflexivity.
Qed.

Lemma numeric_part_numeric : forall answer : string,
  forallb is_numeric_char (list_ascii_of_string (numeric_part answer)) = true.
Proof.
  intros answer. unfold numeric_part.
  rewrite list_ascii_of_string_of_list_ascii.
  induction (list_ascii_of_string answer) as [|c l IH]; [reflexivity|].
  cbn [filter]. destruct (is_numeric_char c) eqn:Hc; [|exact IH].
  cbn [forallb]. rewrite Hc, IH. reflexivity.
Qed.

(** [float] on a text of digits and dots, by its digits and what follows
    them. *)
Lemma decimal_of_string_parts : forall s : string,
  decimal_of_string s
  = match drop_digits s with
    | EmptyString =>
        match take_digits s with
        | EmptyString => None
        | _ => Some (digits_value (take_digits s), 0%nat)
        end
    | String c fraction =>
        if Ascii.eqb c "." && all_digits fraction
           && negb (String.length (take_digits s) + String.length fraction
                    =? 0)%nat
        then Some (digits_value (take_digits s ++ fraction),
                   String.length fraction)
        else None
    end.
Proof.
  intros s. unfold decimal_of_string. rewrite substring_drop_digits.
  reflexivity.
Qed.

(** A text of digits and dots that does not parse as a decimal is empty
    or refused by [float]. *)
Lemma decimal_of_string_refused : forall s : string,
  forallb is_numeric_char (list_ascii_of_string s) = true ->
  parses_as_decimal s = false ->
  s = EmptyString \/ decimal_of_string s = None.
Proof.
  intros s Hnumeric Hparses. rewrite decimal_of_string_parts.
  pose proof (take_drop_digits s) as Hsplit.
  pose proof (all_digits_take s) as Hwhole.
  pose proof (drop_digits_head s) as Hhead.
  destruct (drop_digits s) as [|c fraction] eqn:Hdrop.
  - destruct (take_digits s) as [|d whole] eqn:Htake.
    + left. exact Hsplit.
    + exfalso. unfold parses_as_decimal in Hparses.
      assert (Hs : s = String d whole).
      { rewrite Hsplit. clear. induction (String d whole) as [|e r IH];
          [reflexivity|]. cbn. rewrite IH. reflexivity. }
      assert (Hdigit : no_digit (String d whole) = false)
        by (apply no_digit_digits; [discriminate | exact Hwhole]).
      rewrite Hs, Hdigit, (count_dots_digits _ Hwhole) in Hparses.
      discriminate Hparses.
  - right.
    destruct (Ascii.eqb c "." && all_digits fraction
              && negb (String.length (take_digits s) + String.length fraction
                       =? 0)%nat) eqn:Hok; [|reflexivity].
    exfalso. apply andb_true_iff in Hok. destruct Hok as [Hok Hlen].
    apply andb_true_iff in Hok. destruct Hok as [Hdot Hfraction].
    apply Ascii.eqb_eq in Hdot. subst c.
    unfold parses_as_decimal in Hparses.
    rewrite Hsplit in Hparses.
    change (String "." fraction) with ("." ++ fraction)%string in Hparses.
    rewrite !no_digit_app, !count_dots_app in Hparses.
    rewrite (count_dots_digits _ Hwhole), (count_dots_digits _ Hfraction)
      in Hparses.
    cbn [count_dots list_ascii_of_string filter Ascii.eqb Bool.eqb
         List.length Nat.add Nat.leb andb] in Hparses.
    rewrite andb_true_r in Hparses. apply negb_false_iff in Hparses.
    apply andb_true_iff in Hparses. destruct Hparses as [Hno_whole Hno].
    apply andb_true_iff in Hno. destruct Hno as [_ Hno_fraction].
    apply negb_true_iff, Nat.eqb_neq in Hlen. apply Hlen.
    destruct (take_digits s) as [|d whole].
    + destruct fraction as [|d fraction]; [reflexivity|].
      rewrite no_digit_digits in Hno_fraction;
        [discriminate Hno_fraction | discriminate | exact Hfraction].
    + rewrite no_digit_digits in Hno_whole;
        [discriminate Hno_whole | discriminate | exact Hwhole].
Qed.

(** The income that the wizard stores is the decimal reading of the
    answer. *)
Lemma parse_annual_income_reading : forall answer : string,
  decimal_reading answer (parse_annual_income answer).
Proof.
  intros answer. unfold decimal_reading, parse_annual_income, py_float.
  rewrite re_sub_numeric_part. cbv zeta.
  split; [|split].
  - intros Hparses.
    destruct (decimal_of_string_refused _ (numeric_part_numeric answer)
                Hparses) as [Hempty|Hrefused].
    + rewrite Hempty. reflexivity.
    + rewrite Hrefused. destruct (numeric_part answer); reflexivity.
  - intros Hne Hall. rewrite (decimal_of_digits _ Hne Hall).
    destruct (numeric_part answer); [contradiction | reflexivity].
  - intros whole fraction Hkept Hwhole Hfraction Hne.
    rewrite Hkept, (decimal_of_whole_and_fraction _ _ Hwhole Hfraction Hne).
    destruct (whole ++ "." ++ fraction)%string eqn:Hshape; [|reflexivity].
    destruct whole; discriminate Hshape.
Qed.

Lemma no_comma_cons : forall (c : ascii) (s : string),
  no_comma (String c s) = negb (Ascii.eqb c ",") && no_comma s.
Proof.
  reflexivity.
Qed.

Lemma split_no_comma : forall s : string,
  no_comma s = true -> split "," s = [s].
Proof.
  induction s as [|c s IH]; [reflexivity|].
  rewrite no_comma_cons. intros Hno. apply andb_true_iff in Hno.
  destruct Hno as [Hc Hno]. cbn [split].
  destruct (Ascii.eqb c ","); [discriminate|].
  rewrite (IH Hno). reflexivity.
Qed.

Lemma split_at_comma : forall s rest : string,
  no_comma s = true ->
  split "," (s ++ "," ++ rest) = s :: split "," rest.
Proof.
  induction s as [|c s IH]; intros rest; [reflexivity|].
  rewrite no_comma_cons. intros Hno. apply andb_true_iff in Hno.
  destruct Hno as [Hc Hno]. cbn [append split].
  destruct (Ascii.eqb c ","); [discriminate|].
  change (String "," rest) with ("," ++ rest)%string.
  rewrite (IH rest Hno). reflexivity.
Qed.

(** Splitting at the commas gives back the parts that commas join. *)
Lemma split_concat : forall parts : list string,
  parts <> [] ->
  forallb no_comma parts = true ->
  split "," (String.concat "," parts) = parts.
Proof.
  induction parts as [|part rest IH]; intros Hne Hno; [contradiction|].
  cbn [forallb] in Hno. apply andb_true_iff in Hno.
  destruct Hno as [Hpart Hrest].
  destruct rest as [|next rest].
  - cbn [String.concat]. apply split_no_comma. exact Hpart.
  - change (String.concat "," (part :: next :: rest))
      with (part ++ "," ++ String.concat "," (next :: rest))%string.
    rewrite (split_at_comma _ _ Hpart), IH; [reflexivity | discriminate |].
    exact Hrest.
Qed.

Lemma lstrip_parts : forall s : string,
  exists before : string,
    s = (before ++ lstrip s)%string
    /\ all_space before = true
    /\ starts_with_space (lstrip s) = false.
Proof.
  induction s as [|c s IH].
  - exists EmptyString. repeat split.
  - cbn [lstrip]. destruct (is_space c) eqn:Hc.
    + destruct IH as (before & Hs & Hbefore & Hhead).
      exists (String c before). split; [|split].
      * cbn [append]. rewrite <- Hs. reflexivity.
      * unfold all_space in *. cbn [list_ascii_of_string forallb].
        rewrite Hc, Hbefore. reflexivity.
      * exact Hhead.
    + exists EmptyString. repeat split. cbn. exact Hc.
Qed.

Lemma rstrip_parts : forall s : string,
  exists after : string,
    s = (rstrip s ++ after)%string
    /\ all_space after = true
    /\ ends_with_space (rstrip s) = false
    /\ (starts_with_space s = false -> starts_with_space (rstrip s) = false).
Proof.
  induction s as [|c s IH].
  - exists EmptyString. repeat split.
  - destruct IH as (after & Hs & Hafter & Hlast & _). cbn [rstrip].
    destruct (rstrip s) as [|d core] eqn:Hcore.
    + cbn [append] in Hs. subst after.
      destruct (is_space c) eqn:Hc.
      * exists (String c s). split; [reflexivity|]. split; [|split].
        -- unfold all_space in *. cbn [list_ascii_of_string forallb].
           rewrite Hc, Hafter. reflexivity.
        -- reflexivity.
        -- intros _. reflexivity.
      * exists s. split; [reflexivity|]. split; [exact Hafter|].
        split; [cbn; exact Hc | intros _; cbn; exact Hc].
    + exists after. split; [|split; [exact Hafter | split]].
      * change ((String c (String d core) ++ after)%string)
          with (String c (String d core ++ after)%string).
        rewrite <- Hs. reflexivity.
      * exact Hlast.
      * intros Hhead. exact Hhead.
Qed.

(** [strip] removes the white space around a text, and nothing else. *)
Lemma strip_stripped : forall s : string, stripped s (strip s).
Proof.
  intros s. unfold stripped, strip.
  destruct (lstrip_parts s) as (before & Hs & Hbefore & Hhead).
  destruct (rstrip_parts (lstrip s)) as (after & Hcore & Hafter & Hlast & Hkeep).
  exists before, after. split; [|split; [exact Hbefore | split]].
  - rewrite <- Hcore. exact Hs.
  - exact Hafter.
  - split; [exact (Hkeep Hhead) | exact Hlast].
Qed.

(** The list that the wizard stores holds the parts of the answer. *)
Lemma comma_list_separated : forall answer : string,
  comma_separated answer (comma_list answer).
Proof.
  intros answer parts Hne Hno Hanswer. subst answer. unfold comma_list.
  rewrite (split_concat _ Hne Hno). clear Hne Hno.
  induction parts as [|part rest IH]; constructor;
    [apply strip_stripped | exact IH].
Qed.

(** What [store_answer] leaves in the profile: the field of the step, as
    the specification words it, and the other fields as they were. *)
Lemma store_answer_field :
  forall (k : nat) (answer : string) (p : UserProfile),
  (k < 8)%nat ->
  field_of_step k answer (store_answer k answer p)
  /\ without_field k (store_answer k answer p) = without_field k p.
Proof.
  intros k answer p Hk.
  do 8 (destruct k as [|k];
        [split; [cbn [field_of_step store_answer tax_residency filing_status
                      dependents income_sources annual_income_estimate
                      retirement_accounts investment_accounts primary_bank
                      setup_complete];
                 try reflexivity; try (split; reflexivity);
                 intros _;
                 first [ apply parse_dependents_first_integer
                       | apply comma_list_separated
                       | apply parse_annual_income_reading ]
                | reflexivity ]
        |]).
  lia.
Qed.

(** One step of the wizard on a state whose last message is the user's
    answer: the answer is stored in the field of the step and the step
    advances by one, whatever the answer. *)
Lemma handle_setup_stores_answer :
  forall (state : AgentState) (m : Message),
  (setup_step state < 8)%nat ->
  last_message (messages state) = Some m ->
  role m = "user" ->
  setup_step (handle_setup state) = S (setup_step state)
  /\ user_profile (handle_setup state)
     = Some (store_answer (setup_step state) (content m)
               (match user_profile state with
                | Some p => p
                | None => default_profile
                end)).
Proof.
  intros state m Hstep Hlast Hrole. unfold handle_setup, user_answered.
  replace (setup_step state <? List.length SETUP_QUESTIONS)%nat with true
    by (symmetry; apply Nat.ltb_lt; exact Hstep).
  rewrite Hlast, Hrole. cbn [String.eqb Ascii.eqb Bool.eqb].
  destruct (setup_step state + 1 <? List.length SETUP_QUESTIONS)%nat;
    cbn [set_messages set_setup_step set_user_profile setup_step user_profile];
    (split; [apply Nat.add_1_r | reflexivity]).
Qed.

Lemma last_message_app : forall (l : list Message) (m : Message),
  last_message (l ++ [m]) = Some m.
Proof.
  intros l m. unfold last_message. rewrite rev_unit. reflexivity.
Qed.





(* ================================================================== *)
(** * Properties of the ledger postings *)
(* ================================================================== *)

Lemma get_setitem_same : forall (V : Type) (k : string) (v : V) (d : dict V),
  get k (setitem k v d) = Some v.
Proof.
  intros V k v d. induction d as [|[k' v'] r IH]; cbn.
  - rewrite String.eqb_refl. reflexivity.
  - destruct (k' =? k) eqn:Hk; cbn.
    + rewrite String.eqb_refl. reflexivity.
    + rewrite Hk. exact IH.
Qed.

Lemma get_setitem_other :
  forall (V : Type) (k k' : string) (v : V) (d : dict V),
  k <> k' -> get k (setitem k' v d) = get k d.
Proof.
  intros V k k' v d Hne. induction d as [|[k0 v0] r IH]; cbn.
  - destruct (k' =? k) eqn:Hk; [|reflexivity].
    apply String.eqb_eq in Hk. congruence.
  - destruct (k0 =? k') eqn:Hk0; cbn.
    + apply String.eqb_eq in Hk0. subst k0.
      destruct (k' =? k) eqn:Hk; [|reflexivity].
      apply String.eqb_eq in Hk. congruence.
    + destruct (k0 =? k); [reflexivity | exact IH].
Qed.

Lemma get_modify_same :
  forall (V : Type) (k : string) (f : V -> V) (d : dict V),
  get k (modify k f d) = option_map f (get k d).
Proof.
  intros V k f d. induction d as [|[k' v'] r IH]; cbn; [reflexivity|].
  destruct (k' =? k) eqn:Hk; cbn; rewrite Hk; [reflexivity | exact IH].
Qed.

Lemma get_modify_other :
  forall (V : Type) (k k' : string) (f : V -> V) (d : dict V),
  k <> k' -> get k (modify k' f d) = get k d.
Proof.
  intros V k k' f d Hne. induction d as [|[k0 v0] r IH]; cbn; [reflexivity|].
  destruct (k0 =? k') eqn:Hk0; cbn.
  - apply String.eqb_eq in Hk0. subst k0.
    destruct (k' =? k) eqn:Hk; [|reflexivity].
    apply String.eqb_eq in Hk. congruence.
  - destruct (k0 =? k); [reflexivity | exact IH].
Qed.

Lemma post_transaction_steps :
  forall (from_acc to_acc : string) (amount : num) (category : string)
         (d : dict Account),
  post_transaction from_acc to_acc amount category d
  = modify to_acc (credit amount)
      (modify from_acc (debit amount)
         (with_both_accounts from_acc to_acc category d)).
Proof.
  reflexivity.
Qed.

(** An insertion of a new account changes no balance read through
    [balance_of], and keeps every stored account. *)
Lemma balance_of_ensure :
  forall (k k' type : string) (d : dict Account),
  balance_of k
    (if mem k' d then d else setitem k' (new_account k' type) d)
  = balance_of k d.
Proof.
  intros k k' type d. unfold balance_of, mem.
  destruct (get k' d) as [a|] eqn:Hk'; [reflexivity|].
  destruct (String.eqb_spec k k') as [Heq|Hne].
  - subst k'. rewrite get_setitem_same, Hk'. reflexivity.
  - rewrite get_setitem_other by exact Hne. reflexivity.
Qed.

Lemma get_ensure_present :
  forall (k type : string) (d : dict Account),
  get k (if mem k d then d else setitem k (new_account k type) d) <> None.
Proof.
  intros k type d. unfold mem. destruct (get k d) eqn:Hk.
  - rewrite Hk. discriminate.
  - rewrite get_setitem_same. discriminate.
Qed.

Lemma get_ensure_other :
  forall (k k' type : string) (d : dict Account),
  get k d <> None ->
  get k (if mem k' d then d else setitem k' (new_account k' type) d) = get k d.
Proof.
  intros k k' type d Hk. unfold mem.
  destruct (get k' d) eqn:Hk'; [reflexivity|].
  apply get_setitem_other. intros Heq. subst k'. contradiction.
Qed.

(** After the insertions both accounts are stored. *)
Lemma with_both_accounts_present :
  forall (from_acc to_acc category : string) (d : dict Account),
  get from_acc (with_both_accounts from_acc to_acc category d) <> None
  /\ get to_acc (with_both_accounts from_acc to_acc category d) <> None.
Proof.
  intros from_acc to_acc category d. unfold with_both_accounts. split.
  - rewrite get_ensure_other; apply get_ensure_present.
  - apply get_ensure_present.
Qed.

Lemma balance_of_with_both_accounts :
  forall (k from_acc to_acc category : string) (d : dict Account),
  balance_of k (with_both_accounts from_acc to_acc category d)
  = balance_of k d.
Proof.
  intros k from_acc to_acc category d. unfold with_both_accounts.
  rewrite !balance_of_ensure. reflexivity.
Qed.

Lemma balance_of_modify_other :
  forall (k k' : string) (f : Account -> Account) (d : dict Account),
  k <> k' -> balance_of k (modify k' f d) = balance_of k d.
Proof.
  intros k k' f d Hne. unfold balance_of.
  rewrite get_modify_other by exact Hne. reflexivity.
Qed.

Lemma balance_of_debit :
  forall (k : string) (amount : num) (d : dict Account),
  get k d <> None ->
  balance_of k (modify k (debit amount) d) = balance_of k d - amount.
Proof.
  intros k amount d Hk. unfold balance_of. rewrite get_modify_same.
  destruct (get k d) as [a|]; [reflexivity | contradiction].
Qed.

Lemma balance_of_credit :
  forall (k : string) (amount : num) (d : dict Account),
  get k d <> None ->
  balance_of k (modify k (credit amount) d) = balance_of k d + amount.
Proof.
  intros k amount d Hk. unfold balance_of. rewrite get_modify_same.
  destruct (get k d) as [a|]; [reflexivity | contradiction].
Qed.

Lemma get_modify_present :
  forall (k k' : string) (f : Account -> Account) (d : dict Account),
  get k d <> None -> get k (modify k' f d) <> None.
Proof.
  intros k k' f d Hk. destruct (String.eqb_spec k k') as [Heq|Hne].
  - subst k'. rewrite get_modify_same. destruct (get k d); [discriminate|].
    contradiction.
  - rewrite get_modify_other by exact Hne. exact Hk.
Qed.

(** The balances of a posting between two different accounts: the
    debited account loses [amount], the credited account gains it, every
    other balance stays.  This holds in any arithmetic. *)
Lemma post_transaction_balances :
  forall (from_acc to_acc : string) (amount : num) (category : string)
         (d : dict Account),
  from_acc <> to_acc ->
  balance_of from_acc (post_transaction from_acc to_acc amount category d)
  = balance_of from_acc d - amount
  /\ balance_of to_acc (post_transaction from_acc to_acc amount category d)
     = balance_of to_acc d + amount.
Proof.
  intros from_acc to_acc amount category d Hne.
  rewrite post_transaction_steps.
  destruct (with_both_accounts_present from_acc to_acc category d)
    as [Hfrom Hto].
  split.
  - rewrite balance_of_modify_other by exact Hne.
    rewrite balance_of_debit by exact Hfrom.
    rewrite balance_of_with_both_accounts. reflexivity.
  - rewrite balance_of_credit by (apply get_modify_present; exact Hto).
    rewrite balance_of_modify_other by (intros Heq; apply Hne; symmetry; exact Heq).
    rewrite balance_of_with_both_accounts. reflexivity.
Qed.

Lemma post_transaction_frame :
  forall (k from_acc to_acc : string) (amount : num) (category : string)
         (d : dict Account),
  k <> from_acc -> k <> to_acc ->
  balance_of k (post_transaction from_acc to_acc amount category d)
  = balance_of k d.
Proof.
  intros k from_acc to_acc amount category d Hfrom Hto.
  rewrite post_transaction_steps.
  rewrite !balance_of_modify_other by assumption.
  apply balance_of_with_both_accounts.
Qed.

(** The balance of any name after a posting, in any arithmetic: the
    debit first, then the credit. *)
Lemma post_transaction_posting :
  forall (k from_acc to_acc : string) (amount : num) (category : string)
         (d : dict Account),
  balance_of k (post_transaction from_acc to_acc amount category d)
  = (let b := balance_of k d in
     let b := if from_acc =? k then b - amount else b in
     if to_acc =? k then b + amount else b).
Proof.
  intros k from_acc to_acc amount category d. cbv zeta.
  destruct (String.eqb_spec from_acc k) as [Hfrom|Hfrom];
    destruct (String.eqb_spec to_acc k) as [Hto|Hto].
  - subst from_acc to_acc. rewrite post_transaction_steps.
    destruct (with_both_accounts_present k k category d) as [Hpresent _].
    rewrite balance_of_credit by (apply get_modify_present; exact Hpresent).
    rewrite balance_of_debit by exact Hpresent.
    rewrite balance_of_with_both_accounts. reflexivity.
  - subst from_acc.
    apply (post_transaction_balances k to_acc amount category d).
    intros Heq. apply Hto. symmetry. exact Heq.
  - subst to_acc.
    apply (post_transaction_balances from_acc k amount category d).
    exact Hfrom.
  - apply post_transaction_frame; intros Heq; [apply Hfrom | apply Hto];
      symmetry; exact Heq.
Qed.

(** ** Conservation, in exact arithmetic *)

Section Exact.

Context {exact_arithmetic : ExactNumber num}.

Lemma num_add_zero_r : forall x : num, x + zero = x.
Proof.
  intros x. rewrite num_add_comm. apply num_add_zero_l.
Qed.

Lemma num_add_swap : forall x y z : num, (x + y) + z = (x + z) + y.
Proof.
  intros x y z.
  rewrite <- (num_add_assoc x y z), (num_add_comm y z).
  apply num_add_assoc.
Qed.

Lemma num_add_cancel_r : forall a b y : num, a + y = b + y -> a = b.
Proof.
  intros a b y Hab.
  assert (Hinv : forall x : num, (x + y) + (zero - y) = x).
  { intros x. rewrite <- num_add_assoc, (num_add_comm y), num_sub_add.
    apply num_add_zero_r. }
  rewrite <- (Hinv a), <- (Hinv b), Hab. reflexivity.
Qed.

Lemma sum_balances_cons :
  forall (k : string) (v : Account) (d : dict Account),
  sum_balances ((k, v) :: d) = balance v + sum_balances d.
Proof.
  reflexivity.
Qed.

Lemma sum_balances_setitem_new :
  forall (k : string) (v : Account) (d : dict Account),
  get k d = None ->
  sum_balances (setitem k v d) = sum_balances d + balance v.
Proof.
  intros k v d. induction d as [|[k' v'] r IH]; cbn [get setitem]; intros Hk.
  - rewrite sum_balances_cons. unfold sum_balances at 1 2. cbn [fold_right].
    rewrite num_add_zero_r, num_add_zero_l. reflexivity.
  - destruct (k' =? k); [discriminate|].
    rewrite !sum_balances_cons, (IH Hk). apply num_add_assoc.
Qed.

Lemma sum_balances_modify :
  forall (k : string) (f : Account -> Account) (d : dict Account)
         (a : Account),
  get k d = Some a ->
  sum_balances (modify k f d) + balance a = sum_balances d + balance (f a).
Proof.
  intros k f d a. induction d as [|[k' v'] r IH]; cbn [get modify];
    intros Hk; [discriminate|].
  destruct (k' =? k); rewrite !sum_balances_cons.
  - inversion Hk; subst v'.
    rewrite (num_add_swap (balance (f a))), (num_add_swap (balance a)).
    rewrite (num_add_comm (balance (f a)) (balance a)). reflexivity.
  - rewrite <- !num_add_assoc, (IH Hk). reflexivity.
Qed.

Lemma sum_balances_debit :
  forall (k : string) (amount : num) (d : dict Account),
  get k d <> None ->
  sum_balances (modify k (debit amount) d) + amount = sum_balances d.
Proof.
  intros k amount d Hk. destruct (get k d) as [a|] eqn:Ha; [|contradiction].
  pose proof (sum_balances_modify k (debit amount) d a Ha) as Hsum.
  cbn [debit set_balance balance] in Hsum.
  apply (num_add_cancel_r _ _ (balance a)).
  rewrite num_add_swap, Hsum, <- num_add_assoc, num_sub_add. reflexivity.
Qed.

Lemma sum_balances_credit :
  forall (k : string) (amount : num) (d : dict Account),
  get k d <> None ->
  sum_balances (modify k (credit amount) d) = sum_balances d + amount.
Proof.
  intros k amount d Hk. destruct (get k d) as [a|] eqn:Ha; [|contradiction].
  pose proof (sum_balances_modify k (credit amount) d a Ha) as Hsum.
  cbn [credit set_balance balance] in Hsum.
  apply (num_add_cancel_r _ _ (balance a)).
  rewrite Hsum, (num_add_comm (balance a) amount). apply num_add_assoc.
Qed.

Lemma sum_balances_ensure :
  forall (k type : string) (d : dict Account),
  sum_balances (if mem k d then d else setitem k (new_account k type) d)
  = sum_balances d.
Proof.
  intros k type d. unfold mem. destruct (get k d) eqn:Hk; [reflexivity|].
  rewrite (sum_balances_setitem_new _ _ _ Hk). apply num_add_zero_r.
Qed.

(** A posting leaves the sum of all balances as it was. *)
Lemma post_transaction_conserves :
  forall (from_acc to_acc : string) (amount : num) (category : string)
         (d : dict Account),
  sum_balances (post_transaction from_acc to_acc amount category d)
  = sum_balances d.
Proof.
  intros from_acc to_acc amount category d.
  rewrite post_transaction_steps.
  destruct (with_both_accounts_present from_acc to_acc category d)
    as [Hfrom Hto].
  rewrite sum_balances_credit by (apply get_modify_present; exact Hto).
  rewrite sum_balances_debit by exact Hfrom.
  unfold with_both_accounts. rewrite !sum_balances_ensure. reflexivity.
Qed.

(** A posting from an account to itself leaves its balance as it was. *)
Lemma post_transaction_to_itself :
  forall (acc : string) (amount : num) (category : string)
         (d : dict Account),
  balance_of acc (post_transaction acc acc amount category d)
  = balance_of acc d.
Proof.
  intros acc amount category d. rewrite post_transaction_steps.
  destruct (with_both_accounts_present acc acc category d) as [Hfrom _].
  rewrite balance_of_credit by (apply get_modify_present; exact Hfrom).
  rewrite balance_of_debit by exact Hfrom.
  rewrite balance_of_with_both_accounts. apply num_sub_add.
Qed.

End Exact.


(** C1, as the code has it.  The add_transaction path appends the
    transaction and posts it.  In any arithmetic, doubles included:
    between two different accounts the debited balance becomes
    [balance - amount] and the credited balance [balance + amount] (0
    being the balance of an account not yet stored), from an account to
    itself the balance becomes [(balance - amount) + amount], and no
    other balance moves.  In exact arithmetic the balance of an account
    posted to itself is as before, and the sum of all balances is
    unchanged in every case. *)
Theorem double_entry_posting :
  forall (state : AgentState) (uuid utcnow : string)
         (args : AddTransactionArgs),
  let from_acc := arg_account_from args in
  let to_acc := arg_account_to args in
  let amount := arg_amount args in
  let state' :=
    apply_tool_call state
      {| call := CallAddTransaction args;
         call_uuid := uuid; call_utcnow := utcnow |} in
  (from_acc <> to_acc ->
     balance_of from_acc (accounts state')
     = balance_of from_acc (accounts state) - amount
     /\ balance_of to_acc (accounts state')
        = balance_of to_acc (accounts state) + amount)
  /\ (from_acc = to_acc ->
        balance_of from_acc (accounts state')
        = (balance_of from_acc (accounts state) - amount) + amount)
  /\ (forall other : string,
        other <> from_acc -> other <> to_acc ->
        balance_of other (accounts state')
        = balance_of other (accounts state))
  /\ transactions state'
     = transactions state
       ++ [add_transaction_made (add_transaction uuid utcnow args)]
  /\ (ExactNumber num ->
        (from_acc = to_acc ->
           balance_of from_acc (accounts state')
           = balance_of from_acc (accounts state))
        /\ sum_balances (accounts state') = sum_balances (accounts state)).
Proof.
  intros state uuid utcnow args from_acc to_acc amount state'.
  unfold state', apply_tool_call.
  cbn [call call_uuid call_utcnow add_success add_transaction accounts
       set_accounts set_transactions transactions].
  fold from_acc to_acc amount.
  split; [|split; [|split; [|split]]].
  - intros Hne. apply post_transaction_balances. exact Hne.
  - intros Heq. rewrite <- Heq, post_transaction_posting.
    cbv zeta. rewrite String.eqb_refl. reflexivity.
  - intros other Hfrom Hto. apply post_transaction_frame; assumption.
  - reflexivity.
  - intros exact_arithmetic. split.
    + intros Heq. rewrite <- Heq. apply post_transaction_to_itself.
    + apply post_transaction_conserves.
Qed.

(** C2, as the code has it.  [add_transaction] checks nothing: for every
    amount, positive or not, finite or not, it reports success, and the
    add_transaction path of [process_message] appends the transaction to
    the history and posts it to the accounts. *)
Theorem add_transaction_accepts_every_amount :
  forall (state : AgentState) (uuid utcnow : string)
         (args : AddTransactionArgs),
  let state' :=
    apply_tool_call state
      {| call := CallAddTransaction args;
         call_uuid := uuid; call_utcnow := utcnow |} in
  add_success (add_transaction uuid utcnow args) = true
  /\ amount (add_transaction_made (add_transaction uuid utcnow args))
     = arg_amount args
  /\ transactions state'
     = transactions state
       ++ [add_transaction_made (add_transaction uuid utcnow args)]
  /\ accounts state'
     = post_transaction (arg_account_from args) (arg_account_to args)
         (arg_amount args) (arg_category args) (accounts state)
  /\ get (arg_account_from args) (accounts state') <> None
  /\ get (arg_account_to args) (accounts state') <> None.
Proof.
  intros state uuid utcnow args state'.
  unfold state', apply_tool_call.
  cbn [call call_uuid call_utcnow add_success add_transaction accounts
       set_accounts set_transactions transactions add_transaction_made amount].
  repeat split.
  - rewrite post_transaction_steps.
    destruct (with_both_accounts_present (arg_account_from args)
                (arg_account_to args) (arg_category args) (accounts state))
      as [Hfrom _].
    do 2 apply get_modify_present. exact Hfrom.
  - rewrite post_transaction_steps.
    destruct (with_both_accounts_present (arg_account_from args)
                (arg_account_to args) (arg_category args) (accounts state))
      as [_ Hto].
    do 2 apply get_modify_present. exact Hto.
Qed.

(* ================================================================== *)
(** * Properties of a turn *)
(* ================================================================== *)

(** The wizard touches the messages, the profile and the step only. *)
Lemma handle_setup_frame : forall state : AgentState,
  snapshot (handle_setup state) = snapshot state
  /\ last_updated (handle_setup state) = last_updated state
  /\ accounts (handle_setup state) = accounts state
  /\ transactions (handle_setup state) = transactions state.
Proof.
  intros state. unfold handle_setup.
  destruct (setup_step state <? List.length SETUP_QUESTIONS)%nat;
    [destruct (user_answered (messages state));
       [destruct (setup_step state + 1 <? List.length SETUP_QUESTIONS)%nat|]|];
    cbn; repeat split; reflexivity.
Qed.

(** A turn of transaction processing that returns ends on a snapshot of
    the ledger it leaves, and on the time of the turn. *)
Lemma process_message_ends_fresh :
  forall (env : TurnEnv) (state state' : AgentState),
  process_message env state = Some state' ->
  calculate_snapshot (now env) state' = Some (snapshot state')
  /\ last_updated state' = utcnow env.
Proof.
  intros env state state' Hrun. unfold Ledger.process_message in Hrun.
  destruct (calculate_snapshot (now env) state) as [snap0|]; [|discriminate].
  destruct (llm_first env) as [message|]; [|discriminate].
  match type of Hrun with
  | match ?after with _ => _ end = _ =>
      destruct after as [[st final]|]; [|discriminate]
  end.
  destruct (calculate_snapshot (now env) st) as [snap|] eqn:Hsnap;
    [|discriminate].
  destruct (msg_content final); try discriminate;
    inversion Hrun; subst state'; cbn; (split; [|reflexivity]);
    rewrite <- Hsnap; apply calculate_snapshot_reads_ledger; reflexivity.
Qed.

(** C9, as the code has it.  After the transaction-processing path of a
    turn that returns, the state holds the snapshot recomputed from the
    ledger it ends with, and [last_updated] is the time of the turn.  The
    Setup Wizard path recomputes nothing: snapshot, [last_updated],
    accounts and transactions are what they were before the turn. *)
Theorem turn_snapshot_and_time_stamp :
  forall (env : TurnEnv) (state state' : AgentState),
  graph_invoke env state = Some state' ->
  (should_setup state = "setup" ->
     snapshot state' = snapshot state
     /\ last_updated state' = last_updated state
     /\ accounts state' = accounts state
     /\ transactions state' = transactions state)
  /\ (should_setup state <> "setup" ->
        calculate_snapshot (now env) state' = Some (snapshot state')
        /\ last_updated state' = utcnow env).
Proof.
  intros env state state' Hturn. unfold Ledger.graph_invoke in Hturn. split.
  - intros Hroute. rewrite Hroute in Hturn. cbn in Hturn.
    inversion Hturn; subst state'. apply handle_setup_frame.
  - intros Hroute. apply String.eqb_neq in Hroute. rewrite Hroute in Hturn.
    apply (process_message_ends_fresh env state state' Hturn).
Qed.

(* ================================================================== *)
(** * Properties of the sync merge *)
(* ================================================================== *)

Lemma merge_loop_appends :
  forall (ids : list string) (incoming acc : list Transaction),
  fold_left
    (fun transactions tx =>
       if existsb (String.eqb (tx_id tx)) ids then transactions
       else transactions ++ [tx])
    incoming acc
  = acc ++ filter (fun tx => negb (existsb (String.eqb (tx_id tx)) ids))
             incoming.
Proof.
  intros ids incoming. induction incoming as [|tx rest IH]; intros acc.
  - cbn. rewrite app_nil_r. reflexivity.
  - cbn [fold_left filter]. rewrite IH.
    destruct (existsb (String.eqb (tx_id tx)) ids); cbn [negb].
    + reflexivity.
    + rewrite <- app_assoc. reflexivity.
Qed.

(** The merged history: the old one, then the incoming transactions whose
    id was not in the old one. *)
Lemma merge_transactions_appends :
  forall existing incoming : list Transaction,
  merge_transactions existing incoming
  = existing ++ filter (fun tx => negb (known_id existing tx)) incoming.
Proof.
  intros existing incoming. unfold merge_transactions.
  apply merge_loop_appends.
Qed.

Lemma known_id_app_l :
  forall (l1 l2 : list Transaction) (tx : Transaction),
  known_id l1 tx = true -> known_id (l1 ++ l2) tx = true.
Proof.
  intros l1 l2 tx Hin. unfold known_id in *.
  rewrite map_app, existsb_app, Hin. reflexivity.
Qed.

Lemma known_id_in :
  forall (l : list Transaction) (tx : Transaction),
  In tx l -> known_id l tx = true.
Proof.
  intros l tx Hin. unfold known_id. apply existsb_exists.
  exists (tx_id tx). split.
  - apply in_map. exact Hin.
  - apply String.eqb_refl.
Qed.

Lemma filter_nothing :
  forall (A : Type) (f : A -> bool) (l : list A),
  (forall x, In x l -> f x = false) -> filter f l = [].
Proof.
  intros A f l. induction l as [|x r IH]; intros Hall; [reflexivity|].
  cbn [filter]. rewrite (Hall x (or_introl eq_refl)).
  apply IH. intros y Hy. apply Hall. right. exact Hy.
Qed.

(** A second merge of the same batch appends nothing. *)
Lemma merge_transactions_twice :
  forall existing incoming : list Transaction,
  merge_transactions (merge_transactions existing incoming) incoming
  = merge_transactions existing incoming.
Proof.
  intros existing incoming.
  rewrite (merge_transactions_appends (merge_transactions existing incoming)).
  rewrite merge_transactions_appends.
  set (merged := existing ++ _).
  assert (Hnone : filter (fun tx => negb (known_id merged tx)) incoming = []).
  { apply filter_nothing. intros tx Hin. apply negb_false_iff.
    unfold merged.
    destruct (known_id existing tx) eqn:Hknown.
    - apply known_id_app_l. exact Hknown.
    - apply known_id_in. apply in_or_app. right.
      apply filter_In. split; [exact Hin|]. rewrite Hknown. reflexivity. }
  rewrite Hnone. apply app_nil_r.
Qed.

Lemma setitem_get_same : forall (V : Type) (k : string) (v : V) (d : dict V),
  get k d = Some v -> setitem k v d = d.
Proof.
  intros V k v d. induction d as [|[k' v'] r IH]; cbn [get setitem];
    intros Hk; [discriminate|].
  destruct (k' =? k) eqn:Hkk.
  - apply String.eqb_eq in Hkk. inversion Hk. subst. reflexivity.
  - rewrite (IH Hk). reflexivity.
Qed.

Lemma merge_accounts_cons :
  forall (d : dict Account) (k : string) (v : Account) (inc : dict Account),
  merge_accounts d ((k, v) :: inc) = merge_accounts (setitem k v d) inc.
Proof.
  reflexivity.
Qed.

Lemma get_merge_accounts_other :
  forall (k : string) (inc d : dict Account),
  ~ In k (map fst inc) -> get k (merge_accounts d inc) = get k d.
Proof.
  intros k inc. induction inc as [|[k0 v0] rest IH]; intros d Hout;
    [reflexivity|].
  rewrite merge_accounts_cons, IH.
  - apply get_setitem_other. intros Heq. apply Hout. left. symmetry. exact Heq.
  - intros Hin. apply Hout. right. exact Hin.
Qed.

(** With one entry per name, the merged mapping holds every incoming
    account under its name. *)
Lemma get_merge_accounts_in :
  forall (inc d : dict Account) (k : string) (v : Account),
  NoDup (map fst inc) -> In (k, v) inc ->
  get k (merge_accounts d inc) = Some v.
Proof.
  induction inc as [|[k0 v0] rest IH]; intros d k v Hnodup Hin;
    [contradiction|].
  cbn [map fst] in Hnodup. inversion Hnodup as [|? ? Hout Hrest]; subst.
  rewrite merge_accounts_cons. destruct Hin as [Heq|Hin].
  - inversion Heq; subst. rewrite get_merge_accounts_other by exact Hout.
    apply get_setitem_same.
  - apply IH; assumption.
Qed.

Lemma merge_accounts_fixed :
  forall inc d : dict Account,
  (forall k v, In (k, v) inc -> get k d = Some v) ->
  merge_accounts d inc = d.
Proof.
  induction inc as [|[k0 v0] rest IH]; intros d Hall; [reflexivity|].
  rewrite merge_accounts_cons.
  rewrite (setitem_get_same _ k0 v0 d) by (apply Hall; left; reflexivity).
  apply IH. intros k v Hin. apply Hall. right. exact Hin.
Qed.

(** A second merge of the same accounts changes nothing. *)
Lemma merge_accounts_twice :
  forall d inc : dict Account,
  NoDup (map fst inc) ->
  merge_accounts (merge_accounts d inc) inc = merge_accounts d inc.
Proof.
  intros d inc Hnodup. apply merge_accounts_fixed.
  intros k v Hin. apply get_merge_accounts_in; assumption.
Qed.

(** X1. Merging the batch that was just merged, at the same clock reading,
    returns the state as it is: the same history, the same accounts, the
    same snapshot. *)
Lemma sync_merge_idempotent :
  forall (env : TurnEnv) (state merged : AgentState) (request : SyncRequest),
  NoDup (map fst (sync_accounts request)) ->
  sync_merge env state request = Some merged ->
  sync_merge env merged request = Some merged
  /\ transaction_count merged
     = List.length
         (transactions state
          ++ filter (fun tx => negb (known_id (transactions state) tx))
               (sync_transactions request)).
Proof.
  intros env state merged request Hnodup Hmerge.
  unfold Ledger.sync_merge in Hmerge.
  match type of Hmerge with
  | match calculate_snapshot _ ?st with _ => _ end = _ =>
      set (st1 := st) in *;
      destruct (calculate_snapshot (now env) st1) as [snap|] eqn:Hsnap;
      [|discriminate]
  end.
  inversion Hmerge; subst merged; clear Hmerge. split.
  - unfold Ledger.sync_merge.
    cbn [transactions accounts set_transactions set_accounts set_snapshot
         set_last_updated st1].
    rewrite merge_transactions_twice, (merge_accounts_twice _ _ Hnodup).
    match goal with
    | |- match calculate_snapshot _ ?st with _ => _ end = _ =>
        replace (calculate_snapshot (now env) st) with (Some snap)
          by (rewrite <- Hsnap; apply calculate_snapshot_reads_ledger;
              reflexivity)
    end.
    reflexivity.
  - unfold transaction_count.
    cbn [transactions accounts set_transactions set_accounts set_snapshot
         set_last_updated st1].
    rewrite merge_transactions_appends. reflexivity.
Qed.

Lemma NoDup_ids_filter :
  forall (f : Transaction -> bool) (l : list Transaction),
  NoDup (map tx_id l) -> NoDup (map tx_id (filter f l)).
Proof.
  intros f l. induction l as [|tx rest IH]; intros Hnodup; [constructor|].
  cbn [map] in Hnodup. inversion Hnodup as [|? ? Hout Hrest]; subst.
  cbn [filter]. destruct (f tx); [|apply IH; exact Hrest].
  cbn [map]. constructor; [|apply IH; exact Hrest].
  intros Hin. apply Hout. apply in_map_iff in Hin.
  destruct Hin as (tx' & Hid & Hin'). apply filter_In in Hin'.
  rewrite <- Hid. apply in_map. apply Hin'.
Qed.

(** X2. A batch without a repeated id, merged into a history without one,
    leaves a history without one. *)
Lemma merge_transactions_distinct :
  forall existing incoming : list Transaction,
  distinct_ids existing ->
  distinct_ids incoming ->
  distinct_ids (merge_transactions existing incoming).
Proof.
  intros existing incoming Hold Hnew. unfold distinct_ids in *.
  rewrite merge_transactions_appends, map_app.
  apply NoDup_app; [exact Hold | apply NoDup_ids_filter; exact Hnew|].
  intros id Hin Hin'. apply in_map_iff in Hin'.
  destruct Hin' as (tx & Hid & Hfiltered). apply filter_In in Hfiltered.
  destruct Hfiltered as [_ Hunknown]. apply negb_true_iff in Hunknown.
  unfold known_id in Hunknown.
  assert (Hknown : existsb (String.eqb (tx_id tx)) (map tx_id existing) = true).
  { apply existsb_exists. exists id. split; [exact Hin|].
    rewrite Hid. apply String.eqb_refl. }
  rewrite Hknown in Hunknown. discriminate.
Qed.

(* ================================================================== *)
(** * More properties of a turn *)
(* ================================================================== *)

Local Abbreviation ToolCallEvent := (@Ledger.ToolCallEvent num).
Local Abbreviation LLMMessage := (@Ledger.LLMMessage num).
Local Abbreviation MonthRow := (@Ledger.MonthRow num).
Local Abbreviation MonthTotals := (@Ledger.MonthTotals num).
Local Abbreviation MonthEntry := (@Ledger.MonthEntry num).
Local Abbreviation well_dated := (Ledger.well_dated fromisoformat).

(** A tool call reads and writes the ledger only. *)
Lemma apply_tool_call_ledger :
  forall (s1 s2 : AgentState) (ev : ToolCallEvent),
  accounts s1 = accounts s2 ->
  transactions s1 = transactions s2 ->
  accounts (apply_tool_call s1 ev) = accounts (apply_tool_call s2 ev)
  /\ transactions (apply_tool_call s1 ev)
     = transactions (apply_tool_call s2 ev).
Proof.
  intros s1 s2 ev Hacc Htx. unfold apply_tool_call.
  destruct (call ev) as [args|args|other]; cbn; rewrite ?Hacc, ?Htx;
    split; reflexivity.
Qed.

Lemma tool_loop_ledger :
  forall (calls : list ToolCallEvent) (s1 s2 : AgentState),
  accounts s1 = accounts s2 ->
  transactions s1 = transactions s2 ->
  accounts (fold_left apply_tool_call calls s1)
  = accounts (fold_left apply_tool_call calls s2)
  /\ transactions (fold_left apply_tool_call calls s1)
     = transactions (fold_left apply_tool_call calls s2).
Proof.
  induction calls as [|ev rest IH]; intros s1 s2 Hacc Htx;
    [split; assumption|].
  cbn [fold_left].
  destruct (apply_tool_call_ledger s1 s2 ev Hacc Htx) as [Hacc' Htx'].
  apply IH; assumption.
Qed.

(** A tool call leaves the rest of the state alone. *)
Lemma apply_tool_call_frame :
  forall (s : AgentState) (ev : ToolCallEvent),
  messages (apply_tool_call s ev) = messages s
  /\ user_profile (apply_tool_call s ev) = user_profile s
  /\ setup_step (apply_tool_call s ev) = setup_step s
  /\ thread_id (apply_tool_call s ev) = thread_id s
  /\ pending_sync (apply_tool_call s ev) = pending_sync s.
Proof.
  intros s ev. unfold apply_tool_call.
  destruct (call ev) as [args|args|other]; cbn; repeat split; reflexivity.
Qed.

Lemma tool_loop_frame :
  forall (calls : list ToolCallEvent) (s : AgentState),
  messages (fold_left apply_tool_call calls s) = messages s
  /\ user_profile (fold_left apply_tool_call calls s) = user_profile s
  /\ setup_step (fold_left apply_tool_call calls s) = setup_step s
  /\ thread_id (fold_left apply_tool_call calls s) = thread_id s
  /\ pending_sync (fold_left apply_tool_call calls s) = pending_sync s.
Proof.
  induction calls as [|ev rest IH]; intros s; [repeat split; reflexivity|].
  cbn [fold_left].
  destruct (IH (apply_tool_call s ev)) as (Hm & Hp & Hs & Ht & Hq).
  destruct (apply_tool_call_frame s ev) as (Hm' & Hp' & Hs' & Ht' & Hq').
  rewrite Hm, Hp, Hs, Ht, Hq. repeat split; assumption.
Qed.

Lemma apply_tool_call_transactions :
  forall (s : AgentState) (ev : ToolCallEvent),
  transactions (apply_tool_call s ev) = transactions s ++ made_transaction ev.
Proof.
  intros s ev. unfold apply_tool_call, made_transaction.
  destruct (call ev) as [args|args|other]; cbn;
    rewrite ?app_nil_r; reflexivity.
Qed.

Lemma tool_loop_transactions :
  forall (calls : list ToolCallEvent) (s : AgentState),
  transactions (fold_left apply_tool_call calls s)
  = transactions s ++ made_transactions calls.
Proof.
  induction calls as [|ev rest IH]; intros s.
  - cbn. rewrite app_nil_r. reflexivity.
  - cbn [fold_left]. rewrite IH, apply_tool_call_transactions.
    unfold made_transactions. cbn [flat_map]. rewrite app_assoc. reflexivity.
Qed.

(** The end of [process_message], from the second snapshot on. *)
Lemma process_message_tail :
  forall (env : TurnEnv) (messages0 : list Message) (st state' : AgentState)
         (final : LLMMessage),
  match calculate_snapshot (now env) st with
  | None => None
  | Some snapshot =>
      let state := set_snapshot snapshot st in
      let reply :=
        match msg_content final with
        | ContentAbsent => Some default_reply
        | ContentText text => Some text
        | ContentNull => None
        end in
      match reply with
      | None => None
      | Some assistant_content =>
          let messages :=
            messages0
            ++ [assistant (assistant_content ++ snapshot_display snapshot)] in
          let state := set_messages messages state in
          Some (set_last_updated (utcnow env) state)
      end
  end = Some state' ->
  exists reply : string,
    accounts state' = accounts st
    /\ transactions state' = transactions st
    /\ messages state'
       = messages0 ++ [assistant (reply ++ snapshot_display (snapshot state'))]
    /\ user_profile state' = user_profile st
    /\ setup_step state' = setup_step st
    /\ thread_id state' = thread_id st
    /\ pending_sync state' = pending_sync st.
Proof.
  intros env messages0 st state' final Hrun.
  destruct (calculate_snapshot (now env) st) as [snap|]; [|discriminate].
  cbv zeta in Hrun.
  destruct (msg_content final) as [| |text]; try discriminate;
    inversion Hrun; subst state'; cbn;
    [exists default_reply | exists text]; repeat split; reflexivity.
Qed.

(** What a turn of transaction processing that returns has done: the
    tool calls of the first reply ran on the ledger, one message was
    added, and the snapshot and the time stamp were set. *)
Lemma process_message_result :
  forall (env : TurnEnv) (state state' : AgentState),
  process_message env state = Some state' ->
  exists (message : LLMMessage) (reply : string),
    llm_first env = Some message
    /\ accounts state'
       = accounts (fold_left apply_tool_call (tool_calls message) state)
    /\ transactions state'
       = transactions (fold_left apply_tool_call (tool_calls message) state)
    /\ messages state'
       = messages state
         ++ [assistant (reply ++ snapshot_display (snapshot state'))]
    /\ user_profile state' = user_profile state
    /\ setup_step state' = setup_step state
    /\ thread_id state' = thread_id state
    /\ pending_sync state' = pending_sync state.
Proof.
  intros env state state' Hrun. unfold Ledger.process_message in Hrun.
  destruct (calculate_snapshot (now env) state) as [snap0|]; [|discriminate].
  destruct (llm_first env) as [message|]; [|discriminate].
  exists message.
  set (s0 := set_snapshot snap0 state) in *.
  destruct (tool_loop_ledger (tool_calls message) s0 state eq_refl eq_refl)
    as [Hacc Htx].
  destruct (tool_loop_frame (tool_calls message) s0)
    as (Hm & Hp & Hs & Ht & Hq).
  destruct (tool_calls message) as [|ev rest].
  - apply process_message_tail in Hrun.
    destruct Hrun as (reply & H1 & H2 & H3 & H4 & H5 & H6 & H7).
    exists reply. repeat split; assumption.
  - destruct (llm_final env) as [final|]; [|discriminate].
    apply process_message_tail in Hrun.
    destruct Hrun as (reply & H1 & H2 & H3 & H4 & H5 & H6 & H7).
    exists reply. rewrite H1, H2, H4, H5, H6, H7, Hacc, Htx, Hp, Hs, Ht, Hq.
    repeat split; try reflexivity. exact H3.
Qed.

Lemma process_message_history :
  forall (env : TurnEnv) (state state' : AgentState),
  process_message env state = Some state' ->
  exists message : LLMMessage,
    llm_first env = Some message
    /\ transactions state'
       = transactions state ++ made_transactions (tool_calls message).
Proof.
  intros env state state' Hrun.
  destruct (process_message_result env state state' Hrun)
    as (message & reply & Hfirst & _ & Htx & _).
  exists message. split; [exact Hfirst|].
  rewrite Htx. apply tool_loop_transactions.
Qed.

(** X3. A turn of transaction processing that returns extends the
    history by exactly the transactions of the add_transaction calls of
    the model's first reply, in call order; nothing is removed or
    reordered, and no other tool adds to it. *)
Theorem processing_turn_extends_history :
  forall (env : TurnEnv) (state state' : AgentState),
  process_message env state = Some state' ->
  exists message : LLMMessage,
    llm_first env = Some message
    /\ transactions state'
       = transactions state ++ made_transactions (tool_calls message).
Proof.
  exact process_message_history.
Qed.

(** X4. A turn of transaction processing that returns adds exactly one
    message, the assistant's reply followed by the snapshot line of the
    snapshot it stores, and leaves the profile, the setup step, the
    thread id and the pending sync list as they were. *)
Theorem processing_turn_frame :
  forall (env : TurnEnv) (state state' : AgentState),
  process_message env state = Some state' ->
  (exists reply : string,
     messages state'
     = messages state
       ++ [assistant (reply ++ snapshot_display (snapshot state'))])
  /\ user_profile state' = user_profile state
  /\ setup_step state' = setup_step state
  /\ thread_id state' = thread_id state
  /\ pending_sync state' = pending_sync state.
Proof.
  intros env state state' Hrun.
  destruct (process_message_result env state state' Hrun)
    as (message & reply & _ & _ & _ & Hm & Hp & Hs & Ht & Hq).
  split; [exists reply; exact Hm|]. repeat split; assumption.
Qed.

(* ================================================================== *)
(** * Invariants of the ledger of a thread *)
(* ================================================================== *)

Section LedgerInvariant.

(** A property [P] of the ledger that every tool call accepted by [ok]
    keeps. *)
Variable P : dict Account -> list Transaction -> Prop.
Variable ok : ToolCallEvent -> bool.

Hypothesis tool_call_keeps :
  forall (s : AgentState) (ev : ToolCallEvent),
  ok ev = true ->
  P (accounts s) (transactions s) ->
  P (accounts (apply_tool_call s ev)) (transactions (apply_tool_call s ev)).

Lemma tool_loop_keeps :
  forall (calls : list ToolCallEvent) (s : AgentState),
  forallb ok calls = true ->
  P (accounts s) (transactions s) ->
  P (accounts (fold_left apply_tool_call calls s))
    (transactions (fold_left apply_tool_call calls s)).
Proof.
  induction calls as [|ev rest IH]; intros s Hok HP; [exact HP|].
  cbn [forallb] in Hok. apply andb_true_iff in Hok. destruct Hok as [Hev Hrest].
  cbn [fold_left]. apply IH; [exact Hrest|].
  apply tool_call_keeps; assumption.
Qed.

Lemma graph_invoke_keeps :
  forall (env : TurnEnv) (s s' : AgentState),
  turn_ok ok env = true ->
  P (accounts s) (transactions s) ->
  graph_invoke env s = Some s' ->
  P (accounts s') (transactions s').
Proof.
  intros env s s' Hok HP Hturn. unfold Ledger.graph_invoke in Hturn.
  destruct (should_setup s =? "setup").
  - inversion Hturn; subst s'.
    destruct (handle_setup_frame s) as (_ & _ & Hacc & Htx).
    rewrite Hacc, Htx. exact HP.
  - destruct (process_message_result env s s' Hturn)
      as (message & reply & Hfirst & Hacc & Htx & _).
    rewrite Hacc, Htx. apply tool_loop_keeps; [|exact HP].
    unfold turn_ok in Hok. rewrite Hfirst in Hok. exact Hok.
Qed.

Hypothesis empty_ledger : P [] [].

(** The property holds of whatever a run of chat requests on a new
    thread has stored. *)
Lemma conversation_keeps :
  forall (thread : string) (turns : list (TurnEnv * string))
         (s : AgentState),
  forallb (fun turn => turn_ok ok (fst turn)) turns = true ->
  conversation thread turns = Some s ->
  P (accounts s) (transactions s).
Proof.
  intros thread turns s Hok Hrun. unfold Ledger.conversation in Hrun.
  assert (Hgen :
    forall (turns : list (TurnEnv * string)) (stored : option AgentState),
    forallb (fun turn => turn_ok ok (fst turn)) turns = true ->
    match stored with
    | Some s0 => P (accounts s0) (transactions s0)
    | None => True
    end ->
    match fold_left (chat_request thread) turns stored with
    | Some s1 => P (accounts s1) (transactions s1)
    | None => True
    end).
  { clear turns s Hok Hrun.
    induction turns as [|[env a] rest IH]; intros stored Hok Hstored;
      [exact Hstored|].
    cbn [forallb fst] in Hok. apply andb_true_iff in Hok.
    destruct Hok as [Henv Hrest].
    cbn [fold_left]. apply IH; [exact Hrest|].
    unfold Ledger.chat_request, Ledger.chat. cbn [fst snd chat_thread_id chat_message].
    match goal with
    | |- match match graph_invoke env ?st with _ => _ end with _ => _ end =>
        destruct (graph_invoke env st) as [s1|] eqn:Hturn; [|exact Hstored];
        apply (graph_invoke_keeps env st s1 Henv); [|exact Hturn]
    end.
    destruct stored as [s0|]; cbn; [exact Hstored | exact empty_ledger]. }
  specialize (Hgen turns None Hok I). rewrite Hrun in Hgen. exact Hgen.
Qed.

End LedgerInvariant.

(** ** The account mapping *)

Lemma names_of_setitem :
  forall (k : string) (v : Account) (d : dict Account),
  names_of (setitem k v d)
  = names_of d ++ (if mem k d then [] else [k]).
Proof.
  intros k v d. unfold names_of, mem.
  induction d as [|[k' v'] r IH]; cbn [setitem get map fst app].
  - reflexivity.
  - destruct (k' =? k) eqn:Hk.
    + apply String.eqb_eq in Hk. subst k'. cbn [map fst].
      rewrite app_nil_r. reflexivity.
    + cbn [map fst]. rewrite IH. reflexivity.
Qed.

Lemma names_of_modify :
  forall (k : string) (f : Account -> Account) (d : dict Account),
  names_of (modify k f d) = names_of d.
Proof.
  intros k f d. unfold names_of.
  induction d as [|[k' v'] r IH]; cbn [modify map fst]; [reflexivity|].
  destruct (k' =? k); cbn [map fst]; [reflexivity|].
  rewrite IH. reflexivity.
Qed.

Lemma get_none_not_in :
  forall (k : string) (d : dict Account),
  get k d = None -> ~ In k (names_of d).
Proof.
  intros k d. unfold names_of.
  induction d as [|[k' v'] r IH]; cbn [get map fst In]; intros Hk Hin;
    [exact Hin|].
  destruct (k' =? k) eqn:Hkk; [discriminate|].
  apply String.eqb_neq in Hkk. destruct Hin as [Heq|Hin]; [contradiction|].
  exact (IH Hk Hin).
Qed.

(** An assignment keeps every name in its place and adds a new name at
    the end. *)
Lemma names_of_setitem_extends :
  forall (k : string) (v : Account) (d : dict Account),
  exists added, names_of (setitem k v d) = names_of d ++ added
                /\ (NoDup (names_of d) -> NoDup (names_of d ++ added)).
Proof.
  intros k v d. rewrite names_of_setitem. unfold mem.
  destruct (get k d) eqn:Hk.
  - exists []. split; [reflexivity|]. rewrite app_nil_r. auto.
  - exists [k]. split; [reflexivity|]. intros Hnodup.
    apply NoDup_app; [exact Hnodup | repeat constructor; intros []|].
    intros x Hin [Hx|[]]. subst x. exact (get_none_not_in k d Hk Hin).
Qed.

Lemma own_name_setitem :
  forall (k : string) (v : Account) (d : dict Account),
  name v = k ->
  stored_under_own_name d -> stored_under_own_name (setitem k v d).
Proof.
  intros k v d Hname. unfold stored_under_own_name.
  induction d as [|[k' v'] r IH]; cbn [setitem]; intros Hall.
  - repeat constructor. exact Hname.
  - inversion_clear Hall as [|? ? Hhead Htail].
    destruct (k' =? k); constructor; auto.
Qed.

Lemma own_name_modify :
  forall (k : string) (f : Account -> Account) (d : dict Account),
  (forall a, name (f a) = name a) ->
  stored_under_own_name d -> stored_under_own_name (modify k f d).
Proof.
  intros k f d Hf. unfold stored_under_own_name.
  induction d as [|[k' v'] r IH]; cbn [modify]; intros Hall; [constructor|].
  inversion Hall as [|? ? Hhead Htail]; subst. cbn [fst snd] in Hhead.
  destruct (k' =? k); constructor; cbn [fst snd]; auto.
  rewrite Hf. exact Hhead.
Qed.

(** The names after a posting: the old ones in place, then the debited
    and the credited account if they are new. *)
Lemma names_of_post_transaction :
  forall (from_acc to_acc : string) (amount : num) (category : string)
         (d : dict Account),
  exists added,
    names_of (post_transaction from_acc to_acc amount category d)
    = names_of d ++ added
    /\ (NoDup (names_of d) -> NoDup (names_of d ++ added)).
Proof.
  intros from_acc to_acc amount category d.
  rewrite post_transaction_steps, !names_of_modify.
  unfold with_both_accounts.
  set (d1 := if mem from_acc d then d
             else setitem from_acc (new_account from_acc "asset") d).
  assert (H1 : exists added, names_of d1 = names_of d ++ added
                 /\ (NoDup (names_of d) -> NoDup (names_of d ++ added))).
  { unfold d1. destruct (mem from_acc d).
    - exists []. rewrite app_nil_r. auto.
    - apply names_of_setitem_extends. }
  destruct H1 as (added1 & Hnames1 & Hnodup1).
  destruct (mem to_acc d1).
  - exists added1. split; assumption.
  - destruct (names_of_setitem_extends to_acc
                (new_account to_acc
                   (if category =? "expense" then "expense" else "asset")) d1)
      as (added2 & Hnames2 & Hnodup2).
    exists (added1 ++ added2). rewrite Hnames2, Hnames1, <- app_assoc.
    split; [reflexivity|]. intros Hnodup. rewrite app_assoc, <- Hnames1.
    apply Hnodup2. rewrite Hnames1. apply Hnodup1. exact Hnodup.
Qed.

Lemma own_name_post_transaction :
  forall (from_acc to_acc : string) (amount : num) (category : string)
         (d : dict Account),
  stored_under_own_name d ->
  stored_under_own_name (post_transaction from_acc to_acc amount category d).
Proof.
  intros from_acc to_acc amount category d Hown.
  rewrite post_transaction_steps.
  do 2 (apply own_name_modify; [reflexivity|]).
  unfold with_both_accounts.
  assert (H1 : stored_under_own_name
                 (if mem from_acc d then d
                  else setitem from_acc (new_account from_acc "asset") d)).
  { destruct (mem from_acc d); [exact Hown|].
    apply own_name_setitem; [reflexivity | exact Hown]. }
  match goal with
  | |- stored_under_own_name (if mem to_acc ?d1 then _ else _) =>
      destruct (mem to_acc d1); [exact H1|]
  end.
  apply own_name_setitem; [reflexivity | exact H1].
Qed.

(** A tool call keeps every stored name in its place; new names go last. *)
Lemma names_of_apply_tool_call :
  forall (s : AgentState) (ev : ToolCallEvent),
  exists added,
    names_of (accounts (apply_tool_call s ev))
    = names_of (accounts s) ++ added
    /\ (NoDup (names_of (accounts s))
        -> NoDup (names_of (accounts s) ++ added)).
Proof.
  intros s ev. unfold apply_tool_call.
  destruct (call ev) as [args|args|other]; cbn.
  - apply names_of_post_transaction.
  - apply names_of_setitem_extends.
  - exists []. rewrite app_nil_r. auto.
Qed.

Lemma names_of_tool_loop :
  forall (calls : list ToolCallEvent) (s : AgentState),
  exists added,
    names_of (accounts (fold_left apply_tool_call calls s))
    = names_of (accounts s) ++ added
    /\ (NoDup (names_of (accounts s))
        -> NoDup (names_of (accounts s) ++ added)).
Proof.
  induction calls as [|ev rest IH]; intros s.
  - exists []. cbn [fold_left]. rewrite app_nil_r. auto.
  - cbn [fold_left].
    destruct (names_of_apply_tool_call s ev) as (added1 & Hnames1 & Hnodup1).
    destruct (IH (apply_tool_call s ev)) as (added2 & Hnames2 & Hnodup2).
    exists (added1 ++ added2). rewrite Hnames2, Hnames1, <- app_assoc.
    split; [reflexivity|]. intros Hnodup. rewrite app_assoc, <- Hnames1.
    apply Hnodup2. rewrite Hnames1. apply Hnodup1. exact Hnodup.
Qed.

(** X5. A turn never removes or moves an account: the names stored
    before the turn are stored after it, in the same places, new names
    follow them, and a mapping with one entry per name stays so. *)
Theorem turn_keeps_accounts :
  forall (env : TurnEnv) (state state' : AgentState),
  graph_invoke env state = Some state' ->
  exists added : list string,
    names_of (accounts state') = names_of (accounts state) ++ added
    /\ (NoDup (names_of (accounts state))
        -> NoDup (names_of (accounts state'))).
Proof.
  intros env state state' Hturn. unfold Ledger.graph_invoke in Hturn.
  destruct (should_setup state =? "setup").
  - inversion Hturn; subst state'.
    destruct (handle_setup_frame state) as (_ & _ & Hacc & _).
    rewrite Hacc. exists []. rewrite app_nil_r. auto.
  - destruct (process_message_result env state state' Hturn)
      as (message & reply & _ & Hacc & _).
    rewrite Hacc.
    destruct (names_of_tool_loop (tool_calls message) state)
      as (added & Hnames & Hnodup).
    exists added. rewrite Hnames. split; [reflexivity | exact Hnodup].
Qed.

Lemma own_name_apply_tool_call :
  forall (s : AgentState) (ev : ToolCallEvent),
  stored_under_own_name (accounts s) ->
  stored_under_own_name (accounts (apply_tool_call s ev)).
Proof.
  intros s ev Hown. unfold apply_tool_call.
  destruct (call ev) as [args|args|other]; cbn.
  - apply own_name_post_transaction. exact Hown.
  - apply own_name_setitem; [reflexivity | exact Hown].
  - exact Hown.
Qed.

Lemma forallb_always :
  forall (A : Type) (l : list A), forallb (fun _ => true) l = true.
Proof.
  intros A l. induction l as [|x r IH]; [reflexivity | exact IH].
Qed.

(** X6. In a thread fed by chat requests only, the account mapping is
    well formed whatever the model asks for: one entry per name, and
    every account is stored under the name it carries, so that the
    snapshot classes read the account's own name. *)
Theorem chat_thread_accounts_are_well_formed :
  forall (thread : string) (turns : list (TurnEnv * string))
         (state : AgentState),
  conversation thread turns = Some state ->
  NoDup (names_of (accounts state))
  /\ stored_under_own_name (accounts state).
Proof.
  intros thread turns state Hrun.
  apply (conversation_keeps
           (fun d _ => NoDup (names_of d) /\ stored_under_own_name d)
           (fun _ => true)) with (thread := thread) (turns := turns).
  - intros s ev _ [Hnodup Hown]. split.
    + destruct (names_of_apply_tool_call s ev) as (added & Hnames & Hkeep).
      rewrite Hnames. apply Hkeep. exact Hnodup.
    + apply own_name_apply_tool_call. exact Hown.
  - split; constructor.
  - clear Hrun. induction turns as [|[env a] rest IH]; [reflexivity|].
    cbn [forallb fst]. unfold turn_ok at 1.
    destruct (llm_first env) as [message|];
      [rewrite forallb_always|]; exact IH.
  - exact Hrun.
Qed.

(** ** Balances and history *)

(** The balance of any name after one tool call. *)
Lemma balance_of_apply_tool_call :
  forall (s : AgentState) (ev : ToolCallEvent) (k : string),
  balance_of k (accounts (apply_tool_call s ev))
  = call_on k (balance_of k (accounts s)) ev.
Proof.
  intros s ev k. unfold apply_tool_call, call_on.
  destruct (call ev) as [args|args|other].
  - cbn [add_success add_transaction accounts set_accounts set_transactions].
    apply post_transaction_posting.
  - cbn [update_success update_balance update_account name accounts
         set_accounts].
    unfold balance_of.
    destruct (String.eqb_spec (arg_account_name args) k) as [Heq|Hne].
    + subst k. rewrite get_setitem_same. reflexivity.
    + rewrite get_setitem_other
        by (intros Heq; apply Hne; symmetry; exact Heq).
      reflexivity.
  - reflexivity.
Qed.

Lemma balance_of_tool_loop :
  forall (calls : list ToolCallEvent) (s : AgentState) (k : string),
  balance_of k (accounts (fold_left apply_tool_call calls s))
  = fold_left (call_on k) calls (balance_of k (accounts s)).
Proof.
  induction calls as [|ev rest IH]; intros s k; [reflexivity|].
  cbn [fold_left]. rewrite IH, balance_of_apply_tool_call. reflexivity.
Qed.

(** X7. In a turn of transaction processing that returns, the balance of
    every account is its balance before the turn run through the tool
    calls of the model's first reply, in call order: an add_transaction
    subtracts its amount if the account is the debited one and then adds
    it if the account is the credited one, an update_balance on the
    account replaces the balance, and no other call changes it (an
    account that is not stored counting as 0).  Nothing else of the turn
    moves a balance, in any arithmetic. *)
Theorem turn_balances_follow_the_tool_calls :
  forall (env : TurnEnv) (state state' : AgentState),
  process_message env state = Some state' ->
  exists message : LLMMessage,
    llm_first env = Some message
    /\ forall k : string,
         balance_of k (accounts state')
         = fold_left (call_on k) (tool_calls message)
             (balance_of k (accounts state)).
Proof.
  intros env state state' Hrun.
  destruct (process_message_result env state state' Hrun)
    as (message & reply & Hfirst & Hacc & _).
  exists message. split; [exact Hfirst|].
  intros k. rewrite Hacc. apply balance_of_tool_loop.
Qed.

Section ExactInvariant.

Context {exact_arithmetic : ExactNumber num}.

Lemma sum_balances_apply_tool_call :
  forall (s : AgentState) (ev : ToolCallEvent),
  negb (is_balance_update ev) = true ->
  sum_balances (accounts (apply_tool_call s ev)) = sum_balances (accounts s).
Proof.
  intros s ev Hok. unfold apply_tool_call, is_balance_update in *.
  destruct (call ev) as [args|args|other]; cbn in *;
    [|discriminate | reflexivity].
  apply post_transaction_conserves.
Qed.

(** X8. In exact arithmetic, the balances of a thread fed by chat
    requests in which the model never calls update_balance always sum
    to 0: every posting takes from one account what it gives to
    another. *)
Theorem chat_thread_balances_sum_to_zero :
  forall (thread : string) (turns : list (TurnEnv * string))
         (state : AgentState),
  forallb (fun turn => no_balance_update (fst turn)) turns = true ->
  conversation thread turns = Some state ->
  sum_balances (accounts state) = zero.
Proof.
  intros thread turns state Hok Hrun.
  apply (conversation_keeps
           (fun d _ => sum_balances d = zero)
           (fun ev => negb (is_balance_update ev)))
    with (thread := thread) (turns := turns).
  - intros s ev Hev Hsum. rewrite sum_balances_apply_tool_call; assumption.
  - reflexivity.
  - exact Hok.
  - exact Hrun.
Qed.

End ExactInvariant.

(** ** The update_balance path *)

(** X9. An update_balance call replaces the whole record stored under
    the account's name by a new one with the given balance, the given
    type or asset and the given currency or USD: nothing of the earlier
    record (its type, its currency) survives.  The other accounts, the
    order of the names and the history stay as they were; a new name
    goes last. *)
Theorem update_balance_replaces_the_account :
  forall (state : AgentState) (uuid utcnow : string)
         (args : @UpdateBalanceArgs num),
  let state' :=
    apply_tool_call state
      {| call := CallUpdateBalance args;
         call_uuid := uuid; call_utcnow := utcnow |} in
  get (arg_account_name args) (accounts state')
  = Some {| name := arg_account_name args;
            acc_type := match arg_account_type args with
                        | Some t => t
                        | None => "asset"
                        end;
            balance := arg_new_balance args;
            currency := match arg_currency args with
                        | Some c => c
                        | None => "USD"
                        end;
            updated_at := Some utcnow |}
  /\ (forall k : string,
        k <> arg_account_name args ->
        get k (accounts state') = get k (accounts state))
  /\ names_of (accounts state')
     = names_of (accounts state)
       ++ (if mem (arg_account_name args) (accounts state)
           then [] else [arg_account_name args])
  /\ transactions state' = transactions state.
Proof.
  intros state uuid utcnow args state'. unfold state', apply_tool_call.
  cbn [call call_utcnow update_success update_balance update_account name
       accounts transactions set_accounts].
  split; [apply get_setitem_same|].
  split; [intros k Hk; apply get_setitem_other; exact Hk|].
  split; [apply names_of_setitem | reflexivity].
Qed.

(** ** The setup through the chat endpoint *)

Lemma next_prompt_is_not_the_welcome :
  forall k : nat, next_prompt k <> welcome_message.
Proof.
  intros k. unfold next_prompt, welcome_message.
  destruct (k + 1 <? List.length SETUP_QUESTIONS)%nat; cbn; discriminate.
Qed.

(** X10. A chat request on a thread whose setup is not over (fewer than
    eight answers) always takes the message for the answer to the
    current question, the first message of a new thread included: the
    turn advances the step by one, adds the user's message and one
    reply, the next question after Got it! or the completion message,
    never the welcome message with the first question, and changes the
    field of the step and no other field of the profile.  The residency,
    the filing status and the bank are the message as given (the bank
    with the mark of completion); for an ASCII message the dependents
    are its first integer, the income its decimal reading and the lists
    its parts between commas. *)
Theorem chat_setup_turn_takes_the_message_as_answer :
  forall (env : TurnEnv) (stored : option AgentState)
         (request : MessageRequest),
  let state0 := load_or_create (utcnow env) (chat_thread_id request) stored in
  let before :=
    match user_profile state0 with
    | Some p => p
    | None => default_profile
    end in
  should_setup state0 = "setup" ->
  (setup_step state0 < 8)%nat ->
  exists (state : AgentState) (p : UserProfile),
    chat env stored request = Some state
    /\ messages state
       = messages state0
         ++ [ {| role := "user"; content := chat_message request |};
              assistant (next_prompt (setup_step state0)) ]
    /\ next_prompt (setup_step state0) <> welcome_message
    /\ setup_step state = S (setup_step state0)
    /\ user_profile state = Some p
    /\ field_of_step (setup_step state0) (chat_message request) p
    /\ without_field (setup_step state0) p
       = without_field (setup_step state0) before.
Proof.
  intros env stored request state0 before Hroute Hstep.
  unfold Ledger.chat, Ledger.graph_invoke. fold state0.
  set (m := {| role := "user"; content := chat_message request |}).
  set (s1 := set_messages (messages state0 ++ [m]) state0).
  assert (Hroute1 : should_setup s1 = "setup") by exact Hroute.
  rewrite Hroute1. cbn [String.eqb Ascii.eqb Bool.eqb].
  eexists. eexists. split; [reflexivity|].
  assert (Hlast : last_message (messages s1) = Some m)
    by (unfold s1; cbn [messages set_messages]; apply last_message_app).
  destruct (handle_setup_stores_answer s1 m Hstep Hlast eq_refl)
    as [Hnext Hstore].
  destruct (store_answer_field (setup_step state0) (chat_message request)
              before Hstep) as [Hfield Hrest].
  split; [|split; [apply next_prompt_is_not_the_welcome|split; [|split]]].
  - unfold handle_setup, user_answered. rewrite Hlast.
    replace (setup_step s1 <? List.length SETUP_QUESTIONS)%nat with true
      by (symmetry; apply Nat.ltb_lt; exact Hstep).
    cbn [role m String.eqb Ascii.eqb Bool.eqb]. unfold next_prompt.
    change (setup_step s1) with (setup_step state0).
    destruct (setup_step state0 + 1 <? List.length SETUP_QUESTIONS)%nat;
      cbn [messages set_messages s1]; rewrite <- app_assoc; reflexivity.
  - exact Hnext.
  - exact Hstore.
  - split; [exact Hfield | exact Hrest].
Qed.

(** X11. Once the profile is complete, chat requests leave the profile
    and the setup step as they are: every later turn goes to transaction
    processing. *)
Theorem completed_setup_is_stable :
  forall (env : TurnEnv) (stored state : AgentState)
         (request : MessageRequest),
  is_complete stored = true ->
  chat env (Some stored) request = Some state ->
  user_profile state = user_profile stored
  /\ setup_step state = setup_step stored
  /\ is_complete state = true.
Proof.
  intros env stored state request Hcomplete Hchat.
  unfold Ledger.chat, Ledger.graph_invoke in Hchat.
  cbn [load_or_create] in Hchat.
  set (s1 := set_messages _ stored) in Hchat.
  assert (Hroute : should_setup s1 = "process").
  { unfold should_setup, s1. cbn [user_profile set_messages].
    unfold is_complete in Hcomplete.
    destruct (user_profile stored) as [p|]; [|discriminate].
    rewrite Hcomplete. reflexivity. }
  rewrite Hroute in Hchat. cbn [String.eqb Ascii.eqb Bool.eqb] in Hchat.
  destruct (process_message_result env s1 state Hchat)
    as (message & reply & _ & _ & _ & _ & Hprofile & Hstep & _).
  unfold is_complete. rewrite Hprofile, Hstep.
  repeat split; try reflexivity. exact Hcomplete.
Qed.

(** ** Time stamps *)

Lemma transaction_loop_well_dated :
  forall (y : Z) (txs : list Transaction) (acc : option (num * num))
         (totals : num * num),
  fold_left (transaction_step y) txs acc = Some totals ->
  well_dated txs.
Proof.
  intros y txs. induction txs as [|tx rest IH]; intros acc totals Hrun;
    [constructor|].
  cbn [fold_left] in Hrun.
  destruct acc as [[i e]|];
    [|rewrite transaction_loop_raises in Hrun; discriminate].
  constructor.
  - intros Hbad. unfold Ledger.transaction_step at 2 in Hrun.
    rewrite Hbad in Hrun. rewrite transaction_loop_raises in Hrun.
    discriminate.
  - exact (IH _ _ Hrun).
Qed.

Lemma calculate_snapshot_well_dated :
  forall (now : datetime) (state : AgentState),
  (exists snap, calculate_snapshot now state = Some snap)
  <-> well_dated (transactions state).
Proof.
  intros now state. split.
  - intros [snap Hsnap]. unfold Ledger.calculate_snapshot in Hsnap.
    destruct (fold_left account_step (items (accounts state))
                (zero, zero, zero)) as [[c i] l].
    destruct (fold_left (transaction_step (year now)) (transactions state)
                (Some (zero, zero))) as [totals|] eqn:Hrun; [|discriminate].
    exact (transaction_loop_well_dated _ _ _ _ Hrun).
  - apply calculate_snapshot_returns.
Qed.

(** X12. The snapshot is computed exactly when every time stamp of the
    history is an ISO date (after the removal of every Z): one
    transaction with another time stamp, of whatever year or category,
    makes the call raise, at every clock reading and whatever the
    accounts are. *)
Theorem snapshot_needs_every_time_stamp :
  forall (now : datetime) (state : AgentState),
  (exists snap, calculate_snapshot now state = Some snap)
  <-> well_dated (transactions state).
Proof.
  exact calculate_snapshot_well_dated.
Qed.

Lemma well_dated_app :
  forall txs1 txs2 : list Transaction,
  well_dated (txs1 ++ txs2) <-> well_dated txs1 /\ well_dated txs2.
Proof.
  intros txs1 txs2. unfold Ledger.well_dated. apply Forall_app.
Qed.

(** On replies that are decoded, a turn of transaction processing
    returns exactly when the four conditions below hold. *)
Lemma process_message_returns_iff :
  forall (env : TurnEnv) (state : AgentState),
  (exists state', process_message env state = Some state')
  <-> (well_dated (transactions state)
       /\ exists message final : LLMMessage,
            llm_first env = Some message
            /\ well_dated (made_transactions (tool_calls message))
            /\ match tool_calls message with
               | [] => final = message
               | _ :: _ => llm_final env = Some final
               end
            /\ msg_content final <> ContentNull).
Proof.
  intros env state. split.
  - intros [state' Hrun].
    destruct (process_message_history env state state' Hrun)
      as (message & Hfirst & Htx).
    destruct (process_message_ends_fresh env state state' Hrun) as [Hsnap _].
    assert (Hdated : well_dated (transactions state'))
      by (apply (calculate_snapshot_well_dated (now env));
          exists (snapshot state'); exact Hsnap).
    rewrite Htx in Hdated. apply well_dated_app in Hdated.
    destruct Hdated as [Hold Hnew]. split; [exact Hold|].
    exists message. unfold Ledger.process_message in Hrun.
    destruct (calculate_snapshot (now env) state) as [snap0|]; [|discriminate].
    rewrite Hfirst in Hrun.
    destruct (tool_calls message) as [|ev rest] eqn:Hcalls.
    + exists message. repeat split; try assumption.
      destruct (calculate_snapshot (now env) (set_snapshot snap0 state));
        [|discriminate].
      destruct (msg_content message); [discriminate| |discriminate].
      discriminate.
    + destruct (llm_final env) as [final|]; [|discriminate].
      exists final. repeat split; try assumption.
      match type of Hrun with
      | match calculate_snapshot ?n ?st with _ => _ end = _ =>
          destruct (calculate_snapshot n st); [|discriminate]
      end.
      destruct (msg_content final); [discriminate| |discriminate].
      discriminate.
  - intros (Hold & message & final & Hfirst & Hnew & Hfinal & Hcontent).
    unfold Ledger.process_message.
    destruct (proj2 (calculate_snapshot_well_dated (now env) state) Hold)
      as [snap0 Hsnap0].
    rewrite Hsnap0, Hfirst.
    set (s0 := set_snapshot snap0 state).
    assert (Hafter :
      forall st : AgentState,
      transactions st = transactions state ++ made_transactions (tool_calls message) ->
      exists state',
        match calculate_snapshot (now env) st with
        | None => None
        | Some snapshot =>
            let state1 := set_snapshot snapshot st in
            let reply :=
              match msg_content final with
              | ContentAbsent => Some default_reply
              | ContentText text => Some text
              | ContentNull => None
              end in
            match reply with
            | None => None
            | Some assistant_content =>
                let messages1 :=
                  messages state
                  ++ [assistant (assistant_content ++ snapshot_display snapshot)] in
                let state2 := set_messages messages1 state1 in
                Some (set_last_updated (utcnow env) state2)
            end
        end = Some state').
    { intros st Htx.
      destruct (proj2 (calculate_snapshot_well_dated (now env) st))
        as [snap Hsnap].
      { rewrite Htx. apply well_dated_app. split; assumption. }
      rewrite Hsnap. cbv zeta.
      destruct (msg_content final); [|contradiction Hcontent; reflexivity|];
        eexists; reflexivity. }
    destruct (tool_calls message) as [|ev rest] eqn:Hcalls.
    + subst final. apply (Hafter s0). cbn. rewrite app_nil_r. reflexivity.
    + rewrite Hfinal.
      apply (Hafter (fold_left apply_tool_call (ev :: rest) s0)).
      rewrite tool_loop_transactions. reflexivity.
Qed.

(** X13. A turn of transaction processing returns only if: every time
    stamp of the stored history is an ISO date; the first request to
    the model is answered; every transaction made by its add_transaction
    calls carries an ISO date; and the answer that ends the turn (the
    first one when it holds no tool call, else the answer to the second
    request) does not hold a null content.  When one of these fails the
    turn raises: one stored time stamp that is no ISO date makes every
    later turn of the thread fail, whatever the model replies. *)
Theorem processing_turn_returns_only_if :
  forall (env : TurnEnv) (state state' : AgentState),
  process_message env state = Some state' ->
  well_dated (transactions state)
  /\ exists message final : LLMMessage,
       llm_first env = Some message
       /\ well_dated (made_transactions (tool_calls message))
       /\ match tool_calls message with
          | [] => final = message
          | _ :: _ => llm_final env = Some final
          end
       /\ msg_content final <> ContentNull.
Proof.
  intros env state state' Hrun.
  apply (proj1 (process_message_returns_iff env state)).
  exists state'. exact Hrun.
Qed.

(* ================================================================== *)
(** * More properties of the sync merge *)
(* ================================================================== *)

(** What a sync that returns has done. *)
Lemma sync_merge_result :
  forall (env : TurnEnv) (state state' : AgentState) (request : SyncRequest),
  sync_merge env state request = Some state' ->
  accounts state' = merge_accounts (accounts state) (sync_accounts request)
  /\ transactions state'
     = merge_transactions (transactions state) (sync_transactions request)
  /\ calculate_snapshot (now env) state' = Some (snapshot state')
  /\ last_updated state' = utcnow env
  /\ messages state' = messages state
  /\ user_profile state' = user_profile state
  /\ setup_step state' = setup_step state
  /\ thread_id state' = thread_id state.
Proof.
  intros env state state' request Hmerge. unfold Ledger.sync_merge in Hmerge.
  match type of Hmerge with
  | match calculate_snapshot _ ?st with _ => _ end = _ =>
      destruct (calculate_snapshot (now env) st) as [snap|] eqn:Hsnap;
      [|discriminate]
  end.
  inversion Hmerge; subst state'; cbn.
  repeat split; try reflexivity.
  rewrite <- Hsnap. apply calculate_snapshot_reads_ledger; reflexivity.
Qed.

(** X14. A sync overwrites accounts by name, last write wins: after a
    sync that returns, every account of the request is stored exactly as
    sent (balance, type and all), whatever was stored under that name,
    and every other account is untouched; balances are not recomputed
    from the transactions.  The sync leaves the messages, the profile
    and the setup step alone and, unlike a setup turn, stores the
    snapshot of the merged ledger and the time of the sync. *)
Theorem sync_overwrites_accounts_by_name :
  forall (env : TurnEnv) (state state' : AgentState) (request : SyncRequest),
  NoDup (names_of (sync_accounts request)) ->
  sync_merge env state request = Some state' ->
  (forall (k : string) (v : Account),
     In (k, v) (sync_accounts request) -> get k (accounts state') = Some v)
  /\ (forall k : string,
        ~ In k (names_of (sync_accounts request)) ->
        get k (accounts state') = get k (accounts state))
  /\ messages state' = messages state
  /\ user_profile state' = user_profile state
  /\ setup_step state' = setup_step state
  /\ calculate_snapshot (now env) state' = Some (snapshot state')
  /\ last_updated state' = utcnow env.
Proof.
  intros env state state' request Hnodup Hmerge.
  destruct (sync_merge_result env state state' request Hmerge)
    as (Hacc & _ & Hsnap & Hstamp & Hm & Hp & Hs & _).
  rewrite Hacc. split; [|split].
  - intros k v Hin. apply get_merge_accounts_in; assumption.
  - intros k Hout. apply get_merge_accounts_other. exact Hout.
  - repeat split; assumption.
Qed.

(** Up to the save, a sync on typed records returns exactly when the
    time stamps of the merged history are ISO dates. *)
Lemma sync_merge_returns_iff :
  forall (env : TurnEnv) (state : AgentState) (request : SyncRequest),
  (exists state', sync_merge env state request = Some state')
  <-> (well_dated (transactions state)
       /\ well_dated
            (filter (fun tx => negb (known_id (transactions state) tx))
               (sync_transactions request))).
Proof.
  intros env state request.
  rewrite <- well_dated_app, <- merge_transactions_appends.
  unfold Ledger.sync_merge.
  match goal with
  | |- (exists _, match calculate_snapshot _ ?st with _ => _ end = _) <-> _ =>
      set (merged := st);
      change (merge_transactions (transactions state)
                (sync_transactions request))
        with (transactions merged)
  end.
  rewrite <- (calculate_snapshot_well_dated (now env) merged).
  split.
  - intros [state' Hmerge].
    destruct (calculate_snapshot (now env) merged) as [snap|];
      [exists snap; reflexivity | discriminate].
  - intros [snap Hsnap]. rewrite Hsnap. eexists. reflexivity.
Qed.

Lemma filter_twice :
  forall (A : Type) (f : A -> bool) (l : list A),
  filter f (filter f l) = filter f l.
Proof.
  intros A f l. induction l as [|x r IH]; [reflexivity|].
  cbn [filter]. destruct (f x) eqn:Hx; [|exact IH].
  cbn [filter]. rewrite Hx, IH. reflexivity.
Qed.

(** X15. Of an incoming transaction whose id is already stored a sync
    reads the id and nothing else: leaving these transactions out of
    the request changes nothing of the outcome, the same state or the
    same failure.  A sync that returns has an ISO date in every time
    stamp of the stored history and of the incoming transactions that
    it adds. *)
Theorem sync_reads_new_transactions_only :
  forall (env : TurnEnv) (state : AgentState) (request : SyncRequest),
  let added :=
    filter (fun tx => negb (known_id (transactions state) tx))
      (sync_transactions request) in
  sync_merge env state request
  = sync_merge env state
      {| sync_thread_id := sync_thread_id request;
         sync_transactions := added;
         sync_accounts := sync_accounts request |}
  /\ (forall state' : AgentState,
        sync_merge env state request = Some state' ->
        well_dated (transactions state) /\ well_dated added).
Proof.
  intros env state request added. split.
  - unfold Ledger.sync_merge. cbn [sync_transactions sync_accounts].
    rewrite !merge_transactions_appends. unfold added.
    rewrite filter_twice. reflexivity.
  - intros state' Hmerge.
    apply (proj1 (sync_merge_returns_iff env state request)).
    exists state'. exact Hmerge.
Qed.

(* ================================================================== *)
(** * The fallback over the models *)
(* ================================================================== *)

Lemma call_openrouter_from_first_success :
  forall (R : Type) (post : string -> option R) (remaining index : nat),
  match call_openrouter_from remaining post index with
  | Some response =>
      exists j : nat,
        (index <= j < index + remaining)%nat
        /\ post (nth j MODELS EmptyString) = Some response
        /\ (forall i : nat,
              (index <= i < j)%nat -> post (nth i MODELS EmptyString) = None)
  | None =>
      forall j : nat,
        (index <= j < index + remaining)%nat ->
        post (nth j MODELS EmptyString) = None
  end.
Proof.
  intros R post remaining. induction remaining as [|remaining IH];
    intros index; cbn [call_openrouter_from].
  - intros j Hj. lia.
  - destruct (post (nth index MODELS EmptyString)) as [response|] eqn:Hpost.
    + exists index. split; [lia|]. split; [exact Hpost|]. intros i Hi. lia.
    + specialize (IH (index + 1)%nat).
      destruct (call_openrouter_from remaining post (index + 1))
        as [response|].
      * destruct IH as (j & Hj & Hfound & Hbefore). exists j.
        split; [lia|]. split; [exact Hfound|]. intros i Hi.
        destruct (Nat.eq_dec i index) as [Heq|Hne];
          [subst i; exact Hpost | apply Hbefore; lia].
      * intros j Hj.
        destruct (Nat.eq_dec j index) as [Heq|Hne];
          [subst j; exact Hpost | apply IH; lia].
Qed.

(** X16. The call to the model tries the three models in the order of
    the list, starting at [model_index], and returns the reply of the
    first request that succeeds; no later model is asked.  It raises
    exactly when every request from [model_index] on fails, at once when
    [model_index] is 3 or more. *)
Theorem call_openrouter_returns_the_first_success :
  forall (R : Type) (post : string -> option R) (model_index : nat),
  match call_openrouter post model_index with
  | Some response =>
      exists j : nat,
        (model_index <= j < 3)%nat
        /\ post (nth j MODELS EmptyString) = Some response
        /\ (forall i : nat,
              (model_index <= i < j)%nat ->
              post (nth i MODELS EmptyString) = None)
  | None =>
      forall j : nat,
        (model_index <= j < 3)%nat ->
        post (nth j MODELS EmptyString) = None
  end.
Proof.
  intros R post model_index. unfold call_openrouter.
  pose proof (call_openrouter_from_first_success R post
                (List.length MODELS - model_index) model_index) as Hfrom.
  cbn [List.length MODELS] in *.
  destruct (call_openrouter_from (3 - model_index) post model_index)
    as [response|].
  - destruct Hfrom as (j & Hj & Hfound & Hbefore). exists j.
    split; [lia|]. split; assumption.
  - intros j Hj. apply Hfrom. lia.
Qed.

(* ================================================================== *)
(** * The monthly figures *)
(* ================================================================== *)

Lemma record_row_raised : forall rows : list MonthRow,
  fold_left record_row rows None = None.
Proof.
  induction rows as [|row rest IH]; [reflexivity | exact IH].
Qed.

Lemma last_total_app :
  forall (cat key : string) (rows : list MonthRow) (row : MonthRow),
  last_total cat key (rows ++ [row])
  = if row_is_for cat key row then row_total row
    else last_total cat key rows.
Proof.
  intros cat key rows row. unfold last_total. rewrite fold_left_app.
  reflexivity.
Qed.

Lemma spec_monthly_data_skips :
  forall (rows : list MonthRow) (row : MonthRow),
  row_is_recorded row = false ->
  spec_monthly_data (rows ++ [row]) = spec_monthly_data rows.
Proof.
  intros rows row Hskip. unfold spec_monthly_data, row_is_recorded in *.
  apply orb_false_iff in Hskip. destruct Hskip as [Hinc Hexp].
  apply map_ext. intros i. rewrite !last_total_app. unfold row_is_for.
  rewrite Hinc, Hexp. reflexivity.
Qed.

Lemma mem_spec_monthly_data :
  forall (rows : list MonthRow) (m : string),
  mem m (spec_monthly_data rows) = is_month_key (Some m).
Proof.
  intros rows m. unfold mem, spec_monthly_data, is_month_key.
  cbn [seq map get existsb].
  repeat match goal with
         | |- context [String.eqb m ?key] => rewrite (String.eqb_sym m key)
         end.
  repeat match goal with
         | |- context [String.eqb ?key m] =>
             destruct (String.eqb key m); [reflexivity|]
         end.
  reflexivity.
Qed.

Lemma record_row_step :
  forall (done : list MonthRow) (row : MonthRow),
  record_row (Some (spec_monthly_data done)) row
  = if row_is_accepted row
    then Some (spec_monthly_data (done ++ [row]))
    else None.
Proof.
  intros done row. unfold record_row, row_is_accepted.
  destruct (row_category row =? "income") eqn:Hinc.
  - unfold row_is_recorded. rewrite Hinc. cbn [orb negb].
    destruct (row_month row) as [m|] eqn:Hmonth; [|reflexivity].
    rewrite mem_spec_monthly_data.
    destruct (is_month_key (Some m)) eqn:Hkey; [|reflexivity].
    f_equal. apply String.eqb_eq in Hinc.
    unfold spec_monthly_data. cbn [seq map].
    rewrite !last_total_app. unfold row_is_for. rewrite Hmonth, Hinc.
    unfold is_month_key in Hkey. cbn [seq map existsb] in Hkey.
    repeat (apply orb_true_iff in Hkey; destruct Hkey as [Hkey|Hkey];
            [apply String.eqb_eq in Hkey; subst m; reflexivity|]).
    discriminate Hkey.
  - destruct (row_category row =? "expense") eqn:Hexp.
    + unfold row_is_recorded. rewrite Hinc, Hexp. cbn [orb negb].
      destruct (row_month row) as [m|] eqn:Hmonth; [|reflexivity].
      rewrite mem_spec_monthly_data.
      destruct (is_month_key (Some m)) eqn:Hkey; [|reflexivity].
      f_equal. apply String.eqb_eq in Hexp.
      unfold spec_monthly_data. cbn [seq map].
      rewrite !last_total_app. unfold row_is_for. rewrite Hmonth, Hexp.
      unfold is_month_key in Hkey. cbn [seq map existsb] in Hkey.
      repeat (apply orb_true_iff in Hkey; destruct Hkey as [Hkey|Hkey];
              [apply String.eqb_eq in Hkey; subst m; reflexivity|]).
      discriminate Hkey.
    + unfold row_is_recorded. rewrite Hinc, Hexp. cbn [orb negb].
      rewrite spec_monthly_data_skips; [reflexivity|].
      unfold row_is_recorded. rewrite Hinc, Hexp. reflexivity.
Qed.

Lemma record_rows :
  forall (rows done : list MonthRow),
  fold_left record_row rows (Some (spec_monthly_data done))
  = if forallb row_is_accepted rows
    then Some (spec_monthly_data (done ++ rows))
    else None.
Proof.
  induction rows as [|row rest IH]; intros done.
  - cbn [fold_left forallb]. rewrite app_nil_r. reflexivity.
  - cbn [fold_left forallb]. rewrite record_row_step.
    destruct (row_is_accepted row); cbn [andb].
    + rewrite IH, <- app_assoc. reflexivity.
    + apply record_row_raised.
Qed.

Lemma month_entries_of_spec :
  forall rows : list MonthRow,
  month_entries (spec_monthly_data rows) 1 month_names
  = Some (spec_month_entries rows).
Proof.
  intros rows. reflexivity.
Qed.

(** X17. The monthly figures of the chart: the request is answered exactly
    when every income or expense row of the query has a month from 01 to
    12 (a row without a month, or with another one, raises KeyError); the
    answer has the twelve months Jan to Dec in order, each with the total
    of the last income row and of the last expense row of that month, 0
    where there is none, and the year asked for, the year of the clock
    when none or 0 is given. *)
Theorem monthly_data_is_the_last_row_per_month :
  forall (now : datetime) (year : option Z) (rows : list MonthRow),
  get_monthly_data now year rows
  = if forallb row_is_accepted rows
    then Some (spec_month_entries rows,
               match year with
               | None => Ledger.year now
               | Some y => if (y =? 0)%Z then Ledger.year now else y
               end)
    else None.
Proof.
  intros now year rows. unfold get_monthly_data. cbv zeta.
  change empty_monthly_data with (spec_monthly_data []).
  rewrite record_rows. cbn [app].
  destruct (forallb row_is_accepted rows); [|reflexivity].
  rewrite month_entries_of_spec. reflexivity.
Qed.

End Facts.

End LedgerFacts.

(* ================================================================== *)
(** * Runs on the sample inputs *)
(* ================================================================== *)

Module Runs.

Import PyStr PyDict Ledger Samples LedgerFacts.

(** Two doubles that [==] tells apart are different. *)
Lemma float_neq : forall x y : float,
  PrimFloat.eqb x x = true -> PrimFloat.eqb x y = false -> x <> y.
Proof.
  intros x y Hx Hxy Heq. rewrite <- Heq, Hx in Hxy. discriminate.
Qed.

(** ** The ledger postings *)

(** The worked example of C1 on doubles: 50 from Checking to Dining on an
    empty ledger. *)
Example dinner_on_doubles :
  let state' := apply_tool_call new_state (add_event dinner) in
  balance_of "Checking" (accounts state') = (-50)%float
  /\ balance_of "Dining" (accounts state') = 50%float
  /\ option_map acc_type (get "Dining" (accounts state')) = Some "expense"
  /\ option_map acc_type (get "Checking" (accounts state')) = Some "asset".
Proof.
  repeat split; vm_compute; reflexivity.
Qed.

(** C1 at the worked example, on doubles and in exact arithmetic:
    Checking ends at -50 and Dining at 50; in exact arithmetic the
    balances still sum to 0. *)
Lemma double_entry_posting_dinner :
  (let state' := apply_tool_call new_state (add_event dinner) in
   balance_of "Checking" (accounts state') = (-50)%float
   /\ balance_of "Dining" (accounts state') = 50%float)
  /\ (let state' := apply_tool_call new_state_exact (add_event dinner_exact) in
      balance_of "Checking" (accounts state') = Q2Qc (-50)
      /\ balance_of "Dining" (accounts state') = Q2Qc 50
      /\ sum_balances (accounts state') = Q2Qc 0).
Proof.
  split.
  - destruct (double_entry_posting new_state "u1" "2026-03-01T10:00:00"
                dinner) as (Hmoved & _).
    destruct Hmoved as [Hfrom Hto]; [discriminate|].
    cbv zeta. unfold add_event. split.
    + refine (eq_trans Hfrom _). vm_compute. reflexivity.
    + refine (eq_trans Hto _). vm_compute. reflexivity.
  - destruct (double_entry_posting new_state_exact "u1" "2026-03-01T10:00:00"
                dinner_exact) as (Hmoved & _ & _ & _ & Hexact).
    destruct Hmoved as [Hfrom Hto]; [discriminate|].
    destruct (Hexact Qc_ExactNumber) as [_ Hsum].
    cbv zeta. unfold add_event.
    split; [|split].
    + refine (eq_trans Hfrom _). apply Qc_is_canon. reflexivity.
    + refine (eq_trans Hto _). apply Qc_is_canon. reflexivity.
    + refine (eq_trans Hsum _). apply Qc_is_canon. reflexivity.
Defined.

(** C1 as stated fails in two ways.  When both sides name one account,
    after the transaction Checking holds 0, neither 50 less nor 50 more
    than before.  And on doubles the sum of the balances is not kept: a
    ledger whose one account holds 0.1 sums to 0.1, and after a move of
    1e20 out of it the two balances, -1e20 and 1e20, sum to 0. *)
Lemma posting_to_itself_and_rounding :
  (balance_of "Checking"
     (accounts (apply_tool_call new_state (add_event to_itself)))
   = 0%float
   /\ balance_of "Checking"
        (accounts (apply_tool_call new_state (add_event to_itself)))
      <> (balance_of "Checking" (accounts new_state) - 50)%float
   /\ balance_of "Checking"
        (accounts (apply_tool_call new_state (add_event to_itself)))
      <> (balance_of "Checking" (accounts new_state) + 50)%float)
  /\ (sum_balances (accounts tenth_state) = 0.1%float
      /\ balance_of "Checking"
           (accounts (apply_tool_call tenth_state (add_event large_move)))
         = (-1e20)%float
      /\ balance_of "Savings"
           (accounts (apply_tool_call tenth_state (add_event large_move)))
         = 1e20%float
      /\ sum_balances
           (accounts (apply_tool_call tenth_state (add_event large_move)))
         = 0%float
      /\ sum_balances
           (accounts (apply_tool_call tenth_state (add_event large_move)))
         <> sum_balances (accounts tenth_state)).
Proof.
  split.
  - split; [vm_compute; reflexivity|].
    split; apply float_neq; vm_compute; reflexivity.
  - repeat split; try (vm_compute; reflexivity).
    apply float_neq; vm_compute; reflexivity.
Qed.

(** On doubles a posting from an account to itself can move its
    balance: 0.1 less 1e20 is -1e20, and 1e20 more is 0. *)
Example posting_to_itself_on_doubles :
  balance_of "Checking" (accounts tenth_state) = 0.1%float
  /\ balance_of "Checking"
       (accounts
          (apply_tool_call tenth_state (add_event large_move_to_itself)))
     = 0%float.
Proof.
  split; vm_compute; reflexivity.
Qed.

(** C2 as stated fails: amounts of -5, 0 and infinity are none of them
    positive and finite, yet each call reports success, the history
    grows by the transaction and the accounts are created and posted. *)
Lemma invalid_amounts_are_applied :
  (num_gtb (-5)%float zero = false
   /\ add_success (add_transaction "u1" "2026-03-01T10:00:00" refund) = true
   /\ List.length (transactions (apply_tool_call new_state (add_event refund)))
      = 1%nat
   /\ balance_of "Checking"
        (accounts (apply_tool_call new_state (add_event refund)))
      = 5%float)
  /\ (num_gtb 0%float zero = false
      /\ add_success (add_transaction "u1" "2026-03-01T10:00:00" nothing)
         = true
      /\ List.length
           (transactions (apply_tool_call new_state (add_event nothing)))
         = 1%nat
      /\ List.length (accounts (apply_tool_call new_state (add_event nothing)))
         = 2%nat)
  /\ (add_success (add_transaction "u1" "2026-03-01T10:00:00" unbounded)
      = true
      /\ List.length
           (transactions (apply_tool_call new_state (add_event unbounded)))
         = 1%nat
      /\ balance_of "Dining"
           (accounts (apply_tool_call new_state (add_event unbounded)))
         = infinity)
  /\ transactions new_state = []
  /\ accounts new_state = [].
Proof.
  repeat split; vm_compute; reflexivity.
Qed.

(** ** The snapshot *)

Lemma year_snapshot_computed :
  calculate_snapshot fromisoformat november_2026 year_state
  = Some year_snapshot.
Proof.
  vm_compute. reflexivity.
Defined.

(** C3 at the worked figures, on doubles: 10000 of income and 2000 of
    expenses give a tax estimate of 2156.0. *)
Lemma tax_estimate_of_10000_and_2000 :
  calculate_snapshot fromisoformat november_2026 year_state
  = Some year_snapshot
  /\ ytd_income year_snapshot = 10000%float
  /\ ytd_expenses year_snapshot = 2000%float
  /\ estimated_tax_liability year_snapshot = 2156%float.
Proof.
  split; [exact year_snapshot_computed|].
  split; [reflexivity|]. split; [reflexivity|].
  rewrite (proj1 (tax_estimate_formula fromisoformat november_2026 year_state
                    year_snapshot year_snapshot_computed)).
  vm_compute. reflexivity.
Defined.

(** C4 on the same state: the transfer, the investment and the income of
    2025 are in neither total. *)
Lemma ytd_totals_of_the_year :
  ytd_income year_snapshot = 10000%float
  /\ ytd_expenses year_snapshot = 2000%float
  /\ calculate_snapshot fromisoformat november_2026
       (set_transactions
          [ transaction_of "a" "2026-01-15T09:30:00" 10000%float "income";
            transaction_of "b" "2026-03-01T10:00:00Z" 2000%float "expense";
            transaction_of "c" "2026-03-01T10:00:00" 50%float "transfer";
            transaction_of "d" "2026-06-30T18:45:00" 70%float "investment" ]
          year_state)
     = Some year_snapshot.
Proof.
  destruct (ytd_totals_by_year_and_category fromisoformat november_2026
              year_state year_snapshot year_snapshot_computed)
    as (Hincome & Hexpenses & Hskip).
  split; [|split].
  - rewrite Hincome. vm_compute. reflexivity.
  - rewrite Hexpenses. vm_compute. reflexivity.
  - apply (Hskip
             [ transaction_of "a" "2026-01-15T09:30:00" 10000%float "income";
               transaction_of "b" "2026-03-01T10:00:00Z" 2000%float "expense";
               transaction_of "c" "2026-03-01T10:00:00" 50%float "transfer";
               transaction_of "d" "2026-06-30T18:45:00" 70%float "investment" ]
             []
             (transaction_of "e" "2025-12-31T23:59:59" 999%float "income")).
    + reflexivity.
    + left. vm_compute. reflexivity.
Defined.

(** C7 on two calls that share the ledger, the year of the first reading
    of the clock and the month of the second: the same snapshot, that
    of the year, though the messages, the step, the time stamp, the
    rest of the process and the other readings differ; the state is as
    before the call and the clock was read twice. *)
Lemma snapshot_calls_on_one_ledger :
  fst (calculate_snapshot_call fromisoformat november_call)
  = fst (calculate_snapshot_call fromisoformat other_call)
  /\ fst (calculate_snapshot_call fromisoformat november_call)
     = Some year_snapshot
  /\ the_state (snd (calculate_snapshot_call fromisoformat november_call))
     = year_state
  /\ globals (snd (calculate_snapshot_call fromisoformat november_call))
     = "first process"
  /\ clock_reads (snd (calculate_snapshot_call fromisoformat november_call))
     = 2%nat.
Proof.
  destruct (snapshot_call_reads_ledger_and_clock fromisoformat string
              november_call other_call eq_refl eq_refl eq_refl eq_refl)
    as (Hsame & Hstate & Hglobals & _ & Hreads & _).
  assert (Hsnap : fst (calculate_snapshot_call fromisoformat november_call)
                  = Some year_snapshot) by (vm_compute; reflexivity).
  split; [exact Hsame|]. split; [exact Hsnap|].
  split; [exact Hstate|]. split; [exact Hglobals|].
  rewrite Hreads, Hsnap. reflexivity.
Defined.

(** C7 as stated fails: the function has no asOf, and its result depends
    on the clock of the process.  Two calls with the same state, one in
    January and one in February, return different snapshots (a burn
    rate of 120 and of 60).  And one call during which the year turns
    takes the year of 2026 and the month of January 2027: its burn rate
    of 120 is neither that of December 2026, 10, nor that of January
    2027, 0. *)
Lemma snapshot_depends_on_the_clock :
  the_state (call_at (fun _ => january_2026))
  = the_state (call_at (fun _ => february_2026))
  /\ option_map monthly_burn_rate
       (fst (calculate_snapshot_call fromisoformat
               (call_at (fun _ => january_2026))))
     = Some 120%float
  /\ option_map monthly_burn_rate
       (fst (calculate_snapshot_call fromisoformat
               (call_at (fun _ => february_2026))))
     = Some 60%float
  /\ fst (calculate_snapshot_call fromisoformat
            (call_at (fun _ => january_2026)))
     <> fst (calculate_snapshot_call fromisoformat
               (call_at (fun _ => february_2026)))
  /\ option_map monthly_burn_rate
       (fst (calculate_snapshot_call fromisoformat (call_at over_new_year)))
     = Some 120%float
  /\ option_map monthly_burn_rate
       (calculate_snapshot fromisoformat december_2026 after_january_sync)
     = Some 10%float
  /\ option_map monthly_burn_rate
       (calculate_snapshot fromisoformat january_2027 after_january_sync)
     = Some 0%float.
Proof.
  split; [reflexivity|].
  split; [vm_compute; reflexivity|].
  split; [vm_compute; reflexivity|].
  split; [|repeat split; vm_compute; reflexivity].
  intros Heq.
  apply (f_equal (fun result =>
                    match result with
                    | Some snap => PrimFloat.eqb (monthly_burn_rate snap) 120
                    | None => false
                    end)) in Heq.
  vm_compute in Heq. discriminate.
Qed.

Lemma mixed_snapshot_computed :
  calculate_snapshot fromisoformat november_2026 mixed_state
  = Some mixed_snapshot.
Proof.
  vm_compute. reflexivity.
Defined.

(** C8 on that ledger: 1000 of cash, 700 of investments, 300 of
    liabilities, a net worth of 1400. *)
Lemma snapshot_classification_of_a_mixed_ledger :
  spec_total is_investment_account (accounts mixed_state) = 700%float
  /\ spec_total is_cash_account (accounts mixed_state) = 1000%float
  /\ spec_total is_liability_account (accounts mixed_state) = 300%float
  /\ net_worth mixed_snapshot = 1400%float.
Proof.
  destruct (snapshot_classification fromisoformat november_2026 mixed_state
              mixed_snapshot mixed_snapshot_computed)
    as (Hinv & Hcash & Hliab & Hnet).
  split; [|split; [|split]].
  - rewrite <- Hinv. reflexivity.
  - rewrite <- Hcash. reflexivity.
  - rewrite <- Hliab. reflexivity.
  - rewrite Hnet. vm_compute. reflexivity.
Defined.

(** C8 as stated fails on a liability with a negative balance: it enters
    [total_liabilities] as -500, not as the magnitude 500, and the net
    worth is +500. *)
Lemma negative_liability_is_not_a_magnitude :
  option_map total_liabilities
    (calculate_snapshot fromisoformat november_2026 overpaid_state)
  = Some (-500)%float
  /\ spec_liabilities_as_magnitudes (accounts overpaid_state) = 500%float
  /\ option_map total_liabilities
       (calculate_snapshot fromisoformat november_2026 overpaid_state)
     <> Some (spec_liabilities_as_magnitudes (accounts overpaid_state))
  /\ option_map net_worth
       (calculate_snapshot fromisoformat november_2026 overpaid_state)
     = Some 500%float.
Proof.
  split; [vm_compute; reflexivity|].
  split; [vm_compute; reflexivity|].
  split; [|vm_compute; reflexivity].
  intros Heq.
  apply (f_equal (fun total =>
                    match total with
                    | Some x => PrimFloat.eqb x 500%float
                    | None => false
                    end)) in Heq.
  vm_compute in Heq. discriminate.
Qed.

(** ** The turns *)

Lemma dinner_turn_returns :
  graph_invoke fromisoformat dinner_turn ready_state = Some after_dinner.
Proof.
  vm_compute. reflexivity.
Defined.

(** C9 on the processing path: the turn ends on the snapshot of the new
    ledger (cash at -50, 50 of expenses) and on the time of the turn. *)
Lemma processing_turn_is_fresh :
  calculate_snapshot fromisoformat (now dinner_turn) after_dinner
  = Some (snapshot after_dinner)
  /\ last_updated after_dinner = "2026-11-03T12:00:00"
  /\ total_cash (snapshot after_dinner) = (-50)%float
  /\ ytd_expenses (snapshot after_dinner) = 50%float.
Proof.
  destruct (turn_snapshot_and_time_stamp fromisoformat dinner_turn ready_state
              after_dinner dinner_turn_returns) as [_ Hprocess].
  destruct Hprocess as [Hsnapshot Hstamp]; [discriminate|].
  split; [exact Hsnapshot|]. split; [exact Hstamp|].
  split; reflexivity.
Defined.

(** C9 as stated fails on the Setup Wizard path.  A thread synced in
    January and answered in February keeps the January time stamp and the
    January snapshot (a burn rate of 120 a month), while the snapshot of
    its ledger in February has a burn rate of 60. *)
Lemma setup_turn_recomputes_nothing :
  option_map last_updated
    (chat fromisoformat february_turn
       (sync_data fromisoformat january_sync None january_batch)
       february_message)
  = Some "2026-01-20T10:00:00"
  /\ option_map (fun s => monthly_burn_rate (snapshot s))
       (chat fromisoformat february_turn
          (sync_data fromisoformat january_sync None january_batch)
          february_message)
     = Some 120%float
  /\ match
       chat fromisoformat february_turn
         (sync_data fromisoformat january_sync None january_batch)
         february_message
     with
     | Some s =>
         option_map monthly_burn_rate
           (calculate_snapshot fromisoformat (now february_turn) s)
     | None => None
     end = Some 60%float
  /\ option_map setup_step
       (chat fromisoformat february_turn
          (sync_data fromisoformat january_sync None january_batch)
          february_message)
     = Some 1%nat.
Proof.
  repeat split; vm_compute; reflexivity.
Qed.

(** C10 on a thread whose setup is over. *)
Lemma handle_setup_leaves_a_complete_thread :
  handle_setup ready_state = ready_state.
Proof.
  apply handle_setup_after_completion. vm_compute. reflexivity.
Defined.

(** The eight answers of C5 on doubles: the answer none gives 0
    dependents, and the income with two dots gives 0.0. *)
Example eight_answers_on_doubles :
  option_map (fun s => (setup_step s, user_profile s))
    (conversation fromisoformat "t1"
       (map (fun a => (february_turn, a))
          [ "US - California"; "Single"; "none"; "W-2 employment, investments";
            "1.2.3 or so"; "401k, IRA"; "none"; "Chase" ]))
  = Some (8%nat,
          Some {| tax_residency := "US - California";
                  filing_status := "Single";
                  dependents := 0;
                  income_sources := ["W-2 employment"; "investments"];
                  annual_income_estimate := 0%float;
                  retirement_accounts := ["401k"; "IRA"];
                  investment_accounts := ["none"];
                  primary_bank := "Chase";
                  setup_complete := true |}).
Proof.
  vm_compute. reflexivity.
Qed.


Example answers_with_numbers :
  parse_dependents "2 kids and 1 dog" = 2%Z
  /\ parse_annual_income (num := float) "$75,000.50 a year" = 75000.5%float
  /\ parse_annual_income (num := float) "about 80k." = 80%float.
Proof.
  repeat split; vm_compute; reflexivity.
Qed.

(** ** The sync merge *)

(** C6 at the failing input.  On a new thread the batch above is stored
    with both copies: the ids seen before the loop are not extended
    inside it.  The history holds the id twice, the count is 2 and the
    expenses of the year are counted twice. *)
Lemma repeated_id_in_a_batch_is_stored_twice :
  option_map (fun s => map tx_id (transactions s))
    (sync_data fromisoformat january_sync None repeated_batch)
  = Some ["a"; "a"]
  /\ option_map transaction_count
       (sync_data fromisoformat january_sync None repeated_batch)
     = Some 2%nat
  /\ option_map (fun s => ytd_expenses (snapshot s))
       (sync_data fromisoformat january_sync None repeated_batch)
     = Some 240%float.
Proof.
  repeat split; vm_compute; reflexivity.
Qed.

Lemma january_sync_returns :
  sync_merge fromisoformat january_sync new_state january_batch
  = Some after_january_sync.
Proof.
  vm_compute. reflexivity.
Defined.

(** The January batch merged a second time: the same state, one
    transaction. *)
Lemma january_batch_merged_twice :
  sync_merge fromisoformat january_sync after_january_sync january_batch
  = Some after_january_sync
  /\ transaction_count after_january_sync = 1%nat.
Proof.
  destruct (sync_merge_idempotent fromisoformat january_sync new_state
              after_january_sync january_batch)
    as [Hsame Hcount].
  - constructor.
  - exact january_sync_returns.
  - split; [exact Hsame|]. rewrite Hcount. reflexivity.
Defined.

(** A batch of two different transactions merged into a history of one:
    three different ids. *)
Lemma distinct_batches_stay_distinct :
  distinct_ids
    (merge_transactions
       [ transaction_of "a" "2026-01-15T09:30:00" 120%float "expense" ]
       [ transaction_of "a" "2026-01-15T09:30:00" 120%float "expense";
         transaction_of "b" "2026-03-01T10:00:00" 30%float "expense";
         transaction_of "c" "2026-06-30T18:45:00" 15%float "income" ]).
Proof.
  apply merge_transactions_distinct.
  - repeat constructor. intros [].
  - repeat constructor; cbn; intuition discriminate.
Defined.


(** ** Turns of transaction processing *)

Lemma dinner_is_processed :
  process_message fromisoformat dinner_turn ready_state = Some after_dinner.
Proof.
  vm_compute. reflexivity.
Defined.

(** X3 on the dinner turn: the history gains the dinner and nothing
    else. *)
Lemma dinner_turn_extends_the_history :
  transactions after_dinner
  = transactions ready_state ++ made_transactions [ add_event dinner ].
Proof.
  destruct (processing_turn_extends_history fromisoformat dinner_turn
              ready_state after_dinner dinner_is_processed)
    as (message & Hfirst & Htx).
  cbn [llm_first dinner_turn] in Hfirst.
  injection Hfirst as Hmessage. subst message. exact Htx.
Defined.

(** X4 on the dinner turn: one reply more, the profile and the step as
    they were. *)
Lemma dinner_turn_adds_one_reply :
  (exists reply : string,
     messages after_dinner
     = messages ready_state
       ++ [assistant (reply ++ snapshot_display (snapshot after_dinner))])
  /\ user_profile after_dinner = Some complete_profile
  /\ setup_step after_dinner = 8%nat.
Proof.
  destruct (processing_turn_frame fromisoformat dinner_turn ready_state
              after_dinner dinner_is_processed)
    as (Hreply & Hprofile & Hstep & _).
  split; [exact Hreply|]. split; [exact Hprofile | exact Hstep].
Defined.

(** X13 on the dinner turn, which returns: the history before it holds
    no time stamp that is no date, the model answered the first request
    with the dinner call, whose transaction carries an ISO date, and the
    answer to the second request holds a text. *)
Lemma dinner_turn_meets_the_conditions :
  well_dated fromisoformat (transactions ready_state)
  /\ well_dated fromisoformat (made_transactions [ add_event dinner ])
  /\ exists final : LLMMessage,
       llm_final dinner_turn = Some final
       /\ msg_content final <> ContentNull.
Proof.
  destruct (processing_turn_returns_only_if fromisoformat dinner_turn
              ready_state after_dinner dinner_is_processed)
    as (Hold & message & final & Hfirst & Hnew & Hfinal & Hcontent).
  cbn [llm_first dinner_turn] in Hfirst.
  injection Hfirst as Hmessage. subst message.
  split; [exact Hold|]. split; [exact Hnew|].
  exists final. split; [exact Hfinal | exact Hcontent].
Defined.

Lemma paycheck_turn_returns :
  graph_invoke fromisoformat paycheck_turn after_dinner = Some after_paycheck.
Proof.
  vm_compute. reflexivity.
Defined.

(** X5 on the salary turn: Checking and Dining stay where they are and
    Salary follows them. *)
Lemma paycheck_turn_keeps_the_accounts :
  names_of (accounts after_dinner) = ["Checking"; "Dining"]
  /\ names_of (accounts after_paycheck) = ["Checking"; "Dining"; "Salary"]
  /\ NoDup (names_of (accounts after_paycheck)).
Proof.
  destruct (turn_keeps_accounts fromisoformat paycheck_turn after_dinner
              after_paycheck paycheck_turn_returns)
    as (added & _ & Hnodup).
  split; [reflexivity|]. split; [reflexivity|].
  apply Hnodup. repeat constructor; cbn; intuition discriminate.
Defined.

(** ** A whole thread *)

Lemma thread_runs :
  conversation fromisoformat "t1" thread_turns = Some thread_state.
Proof.
  vm_compute. reflexivity.
Defined.

(** X6 on the thread of eight answers, a dinner and a salary. *)
Lemma thread_accounts_are_well_formed :
  names_of (accounts thread_state) = ["Checking"; "Dining"; "Salary"]
  /\ NoDup (names_of (accounts thread_state))
  /\ stored_under_own_name (accounts thread_state).
Proof.
  destruct (chat_thread_accounts_are_well_formed fromisoformat "t1"
              thread_turns thread_state thread_runs) as [Hnodup Hown].
  split; [reflexivity|]. split; [exact Hnodup | exact Hown].
Defined.

Lemma reconcile_is_processed :
  process_message fromisoformat reconcile_turn after_dinner
  = Some after_reconcile.
Proof.
  vm_compute. reflexivity.
Defined.

(** X7 on a turn that sets Checking to 1000 and then records a lunch of
    25 paid from it: Checking, at -50 before, ends at 975, and Dining,
    at 50 before, at 75. *)
Lemma reconcile_turn_balances :
  balance_of "Checking" (accounts after_dinner) = (-50)%float
  /\ balance_of "Checking" (accounts after_reconcile) = 975%float
  /\ balance_of "Dining" (accounts after_reconcile) = 75%float
  /\ balance_of "Savings" (accounts after_reconcile) = 0%float.
Proof.
  destruct (turn_balances_follow_the_tool_calls fromisoformat reconcile_turn
              after_dinner after_reconcile reconcile_is_processed)
    as (message & Hfirst & Hbalance).
  cbn [llm_first reconcile_turn] in Hfirst.
  injection Hfirst as Hmessage. subst message.
  split; [reflexivity|].
  split; [|split]; rewrite Hbalance; vm_compute; reflexivity.
Defined.

(** X8 on the thread in exact arithmetic. *)
Lemma exact_thread_sums_to_zero :
  match conversation fromisoformat "t1" thread_turns_exact with
  | Some state =>
      List.length (transactions state) = 2%nat
      /\ sum_balances (accounts state) = Q2Qc 0
  | None => False
  end.
Proof.
  destruct (conversation fromisoformat "t1" thread_turns_exact)
    as [state|] eqn:Hrun.
  - split.
    + apply (f_equal (option_map (fun s => List.length (transactions s))))
        in Hrun.
      vm_compute in Hrun. injection Hrun as Hlen. symmetry. exact Hlen.
    + exact (chat_thread_balances_sum_to_zero fromisoformat "t1"
               thread_turns_exact state eq_refl Hrun).
  - apply (f_equal (fun r => match r with Some _ => true | None => false end))
      in Hrun.
    vm_compute in Hrun. discriminate Hrun.
Defined.

(** ** The setup wizard on the chat endpoint *)

(** X10 on the first message of a new thread: it is stored as the tax
    residency and answered by the second question; the other fields are
    those of the default profile. *)
Lemma first_message_is_taken_as_answer :
  exists (state : AgentState) (p : UserProfile),
    chat fromisoformat february_turn None february_message = Some state
    /\ messages state
       = [ {| role := "user"; content := "US - California" |};
           assistant ("Got it! " ++ nth 1 SETUP_QUESTIONS EmptyString) ]
    /\ setup_step state = 1%nat
    /\ user_profile state = Some p
    /\ tax_residency p = "US - California"
    /\ without_field 0 p = without_field 0 default_profile.
Proof.
  destruct (chat_setup_turn_takes_the_message_as_answer fromisoformat
              february_turn None february_message)
    as (state & p & Hchat & Hmessages & _ & Hstep & Hprofile & Hfield
        & Hrest).
  - reflexivity.
  - cbn. lia.
  - exists state, p. split; [exact Hchat|]. split; [exact Hmessages|].
    split; [exact Hstep|]. split; [exact Hprofile|].
    split; [exact Hfield | exact Hrest].
Defined.

Lemma dinner_request_returns :
  chat fromisoformat dinner_turn (Some complete_thread) dinner_request
  = Some after_dinner_request.
Proof.
  vm_compute. reflexivity.
Defined.

(** X11 on a complete thread: the dinner request leaves the profile and
    the step alone. *)
Lemma complete_thread_stays_complete :
  user_profile after_dinner_request = Some complete_profile
  /\ setup_step after_dinner_request = 8%nat
  /\ is_complete after_dinner_request = true.
Proof.
  exact (completed_setup_is_stable fromisoformat dinner_turn complete_thread
           after_dinner_request dinner_request eq_refl
           dinner_request_returns).
Defined.

(** ** A sync with accounts *)

Lemma march_sync_returns :
  sync_merge fromisoformat january_sync after_dinner march_batch
  = Some after_march_sync.
Proof.
  vm_compute. reflexivity.
Defined.

(** X14 on a sync after the dinner: Checking, at -50 by the ledger,
    holds the 900 of the request, the card is stored as sent and Dining
    is as it was. *)
Lemma march_sync_overwrites_checking :
  balance_of "Checking" (accounts after_dinner) = (-50)%float
  /\ get "Checking" (accounts after_march_sync)
     = Some (account_of "Checking" "asset" 900%float)
  /\ get "Amex" (accounts after_march_sync)
     = Some (account_of "Amex" "liability" 300%float)
  /\ get "Dining" (accounts after_march_sync)
     = get "Dining" (accounts after_dinner)
  /\ last_updated after_march_sync = "2026-01-20T10:00:00".
Proof.
  destruct (sync_overwrites_accounts_by_name fromisoformat january_sync
              after_dinner after_march_sync march_batch)
    as (Hsent & Hother & _ & _ & _ & _ & Hstamp).
  - repeat constructor; cbn; intuition discriminate.
  - exact march_sync_returns.
  - split; [reflexivity|].
    split; [apply Hsent; cbn; auto|].
    split; [apply Hsent; cbn; auto|].
    split; [apply Hother; cbn; intuition discriminate | exact Hstamp].
Defined.

(** X15 on the thread synced in January: a request that sends the
    stored transaction again, under a time stamp that is no date, is
    answered like a request that sends nothing, and it is answered. *)
Example resent_transaction_is_not_read :
  sync_merge fromisoformat january_sync after_january_sync resent_batch
  = sync_merge fromisoformat january_sync after_january_sync nothing_new
  /\ sync_merge fromisoformat january_sync after_january_sync resent_batch
     = Some after_january_sync
  /\ sync_merge fromisoformat january_sync new_state resent_batch = None.
Proof.
  repeat split; vm_compute; reflexivity.
Qed.

(** C8 on a name outside ASCII: the asset stored under STOC and the
    Kelvin sign is an investment, as [name.lower()] holds stock. *)
Example kelvin_sign_is_lowered :
  is_investment_name "STOCK" = true
  /\ option_map total_investments
       (calculate_snapshot fromisoformat november_2026 kelvin_state)
     = Some 40%float
  /\ option_map total_cash
       (calculate_snapshot fromisoformat november_2026 kelvin_state)
     = Some 2%float.
Proof.
  repeat split; vm_compute; reflexivity.
Qed.

(** ** The models and the monthly figures *)

(** The first model fails and the second answers: the third is not
    asked. *)
Example second_model_answers :
  call_openrouter
    (fun model => if model =? "anthropic/claude-3.5-sonnet" then Some 1%nat
                  else if model =? "anthropic/claude-3-opus" then Some 2%nat
                  else None) 0
  = Some 1%nat
  /\ call_openrouter (fun _ : string => @None nat) 0 = None
  /\ call_openrouter (fun _ : string => Some 1%nat) 3 = None.
Proof.
  repeat split; vm_compute; reflexivity.
Qed.

(** Rows of March and July on doubles; the transfer row is skipped, and
    a row without a month raises only if it is an income or an expense. *)
Example monthly_data_of_two_months :
  let rows :=
    [ {| row_month := Some "03"; row_category := "expense";
         row_total := 80%float |};
      {| row_month := Some "03"; row_category := "income";
         row_total := 3000%float |};
      {| row_month := None; row_category := "transfer";
         row_total := 10%float |};
      {| row_month := Some "07"; row_category := "expense";
         row_total := 45.5%float |} ] in
  option_map
    (fun r => (map (fun e => (entry_month e, entry_income e, entry_expenses e))
                 (firstn 3 (skipn 2 (fst r))), snd r))
    (get_monthly_data november_2026 None rows)
  = Some ([ ("Mar", 3000%float, 80%float);
            ("Apr", 0%float, 0%float);
            ("May", 0%float, 0%float) ], 2026%Z)
  /\ get_monthly_data november_2026 (Some 2025%Z)
       [ {| row_month := None; row_category := "income";
            row_total := 10%float |} ]
     = None.
Proof.
  repeat split; vm_compute; reflexivity.
Qed.

End Runs.
